(** * Section extraction for paginated documents

    A shallow embedding of the two boundary-detection strategies of the
    repository's extraction scripts:

    - [src/extraction/pdf_extractor.py]: the header-scanning strategy
      ([find_section_header_in_text], [extract_next_section],
      [save_section_immediately], [extract_all_sections]);
    - [src/extraction/extract_sections_toc.py]: the table-of-contents
      strategy ([calculate_section_boundaries], [extract_section_content],
      [save_section_immediately], [extract_sections_by_toc]).

    Python integers are unbounded and modelled by [Z].  The strings of
    the model are the Python strings whose code points all lie in 0..255
    (Latin-1): a [string] is the list of these code points, classified and
    mapped as Python classifies and maps them.  On this domain every
    string operation below is Python's; text with other code points
    (where [str.lower] can change the length of a string, for one) is
    outside the model.  The page renderer [pymupdf4llm.to_markdown] is a
    black box: a function from the list of requested pages to either an
    exception ([None]) or a list of page chunks.  The file system is a
    [disk]: creating the output directory and writing a file can raise. *)

From Stdlib Require Import ZArith Lia List String Ascii Bool.
From Stdlib Require Import Numbers.DecimalString.
Import ListNotations.

Open Scope string_scope.
Open Scope Z_scope.

(** ** Python string primitives *)

Module PyStr.

(** ["\n"] *)
Definition nl_char : ascii := "010"%char.
Definition nl : string := String nl_char "".

(** [len(s)] *)
Definition len (s : string) : Z := Z.of_nat (String.length s).

(** [bool(s)]: a string is truthy when it is not empty. *)
Definition truthy (s : string) : bool :=
  match s with
  | EmptyString => false
  | String _ _ => true
  end.

(** [str(n)] and the [{n}] of an f-string, for an integer. *)
Definition str_of_int (n : Z) : string := NilZero.string_of_int (Z.to_int n).

Definition in_range (lo hi n : N) : bool := (lo <=? n)%N && (n <=? hi)%N.

(** [c.isspace()], also the class [\s] of [re]. *)
Definition isspace (c : ascii) : bool :=
  let n := N_of_ascii c in
  in_range 9 13 n || in_range 28 32 n || (n =? 133)%N || (n =? 160)%N.

(** The class [\w] of [re] on a [str] pattern. *)
Definition isword (c : ascii) : bool :=
  let n := N_of_ascii c in
  in_range 48 57 n || in_range 65 90 n || (n =? 95)%N || in_range 97 122 n
  || (n =? 170)%N || in_range 178 179 n || (n =? 181)%N
  || in_range 185 186 n || in_range 188 190 n
  || in_range 192 214 n || in_range 216 246 n || in_range 248 255 n.

(** [c.lower()] *)
Definition lower_char (c : ascii) : ascii :=
  let n := N_of_ascii c in
  if in_range 65 90 n || in_range 192 214 n || in_range 216 222 n
  then ascii_of_N (n + 32)
  else c.

(** [s.lower()], for a string of code points 0..255: there Python lowers
    character by character, and [lower_char] is its table (the upper-case
    letters are 65..90, 192..214 and 216..222; 181, 223 and 255 are
    lower-case already).  Beyond this domain [str.lower] is not such a map:
    code point 304 becomes the two code points 105 and 775. *)
Fixpoint lower (s : string) : string :=
  match s with
  | EmptyString => EmptyString
  | String c s' => String (lower_char c) (lower s')
  end.

(** [s.lstrip()] *)
Fixpoint lstrip (s : string) : string :=
  match s with
  | EmptyString => EmptyString
  | String c s' => if isspace c then lstrip s' else s
  end.

(** [s.rstrip()] *)
Fixpoint rstrip (s : string) : string :=
  match s with
  | EmptyString => EmptyString
  | String c s' =>
      let r := rstrip s' in
      if isspace c && negb (truthy r) then EmptyString else String c r
  end.

(** [s.strip()] *)
Definition strip (s : string) : string := rstrip (lstrip s).

(** [s.split()]: the maximal runs of non-whitespace characters.  [cur] is
    the run being read. *)
Fixpoint split_from (cur : string) (s : string) : list string :=
  match s with
  | EmptyString => if truthy cur then [cur] else []
  | String c s' =>
      if isspace c
      then (if truthy cur then cur :: split_from "" s' else split_from "" s')
      else split_from (cur ++ String c "") s'
  end.

Definition split (s : string) : list string := split_from "" s.

(** [s.split('\n')]: the pieces between newlines; never an empty list. *)
Fixpoint split_on_from (sep : ascii) (cur : string) (s : string)
  : list string :=
  match s with
  | EmptyString => [cur]
  | String c s' =>
      if Ascii.eqb c sep
      then cur :: split_on_from sep "" s'
      else split_on_from sep (cur ++ String c "") s'
  end.

Definition split_lines (s : string) : list string :=
  split_on_from nl_char "" s.

(** [sep.join(l)] *)
Fixpoint join (sep : string) (l : list string) : string :=
  match l with
  | [] => ""
  | [s] => s
  | s :: l' => s ++ sep ++ join sep l'
  end.

(** [re.sub(r'[^\w\s-]', '', s)]: drop every character that is neither a
    word character, nor whitespace, nor a hyphen. *)
Fixpoint drop_special (s : string) : string :=
  match s with
  | EmptyString => EmptyString
  | String c s' =>
      if isword c || isspace c || Ascii.eqb c "-"%char
      then String c (drop_special s')
      else drop_special s'
  end.

(** [re.sub(r'\s+', '_', s)]: every maximal run of whitespace becomes one
    underscore. *)
Fixpoint squeeze_space_from (in_run : bool) (s : string) : string :=
  match s with
  | EmptyString => EmptyString
  | String c s' =>
      if isspace c
      then (if in_run then squeeze_space_from true s'
            else String "_"%char (squeeze_space_from true s'))
      else String c (squeeze_space_from false s')
  end.

Definition squeeze_space (s : string) : string := squeeze_space_from false s.

End PyStr.

(** ** The page renderer

    [pymupdf4llm.to_markdown(pdf_path, pages=..., page_chunks=True)] returns
    a list of dictionaries, one per page chunk, or raises.  The scripts read
    a chunk only through [page_data.get('text', '')] and
    [page_data.get('page', 0)]. *)

Record page_data := {
  pd_page : option Z;
  pd_text : option string
}.

Definition get_text (pd : page_data) : string :=
  match pd_text pd with Some t => t | None => "" end.

Definition get_page (pd : page_data) : Z :=
  match pd_page pd with Some p => p | None => 0 end.

(** [None] stands for a raised exception. *)
Definition renderer : Type := list Z -> option (list page_data).

(** [list(range(a, b))] *)
Definition range (a b : Z) : list Z :=
  map (fun i => a + Z.of_nat i) (seq 0 (Z.to_nat (b - a))).

(** A path is kept as the pair of its directory and file name. *)
Record path := {
  path_dir : string;
  path_name : string
}.

(** A file is the list of the strings passed to [f.write], in order. *)
Definition file_writes : Type := list string.

(** ** The output directory

    The scripts create the output directory and write their files into
    it; each of these steps can raise.  [dir_exists] and [parent_exists]
    tell whether the output directory and its parent directory exist;
    [mkdir_error] is what creating the output directory raises, if
    anything, when its parent exists or is created along; [open_error] is
    what opening a file of the existing output directory for writing, or
    writing it, raises, if anything. *)
Record disk := {
  dir_exists : bool;
  parent_exists : bool;
  mkdir_error : option string;
  open_error : path -> option string
}.

(** The exceptions of the file system.  The first two are Python's
    [FileNotFoundError]: for a file whose directory does not exist, and
    for a directory whose parent does not exist. *)
Inductive io_error :=
| MissingDirectory (file : path)
| MissingParent (output_dir : string)
| OSError (message : string).

(** The disk once the output directory was created. *)
Definition with_directory (d : disk) : disk :=
  {| dir_exists := true;
     parent_exists := true;
     mkdir_error := mkdir_error d;
     open_error := open_error d |}.

(** [os.makedirs(output_dir, exist_ok=True)]: the missing parents are
    created along. *)
Definition makedirs (d : disk) : io_error + disk :=
  if dir_exists d then inr d
  else match mkdir_error d with
       | Some message => inl (OSError message)
       | None => inr (with_directory d)
       end.

(** [Path(output_dir).mkdir(exist_ok=True)]: without [parents=True] a
    missing parent raises. *)
Definition mkdir (d : disk) (output_dir : string) : io_error + disk :=
  if dir_exists d then inr d
  else if parent_exists d
       then match mkdir_error d with
            | Some message => inl (OSError message)
            | None => inr (with_directory d)
            end
       else inl (MissingParent output_dir).

(** A disk on which nothing raises. *)
Definition permissive (d : disk) : Prop :=
  mkdir_error d = None /\ forall file, open_error d file = None.

(** Such a disk, before a first run: the output directory does not exist
    yet, its parent does. *)
Definition fresh_disk : disk :=
  {| dir_exists := false;
     parent_exists := true;
     mkdir_error := None;
     open_error := fun _ => None |}.

(** [with open(file, 'w') as f: ...]: the exception raised, if any. *)
Definition open_for_writing (d : disk) (file : path) : option io_error :=
  if dir_exists d
  then match open_error d file with
       | Some message => Some (OSError message)
       | None => None
       end
  else Some (MissingDirectory file).

(** ** The scan strategy: [pdf_extractor.py] *)

Module Scan.

Import PyStr.

(** [re.match(r'^#{5}\s+(.+)$', s)], giving [match.group(1)].  The script
    applies it to stripped pieces of [text.split('\n')] only, so [s] holds
    no newline: [.] matches every character of [s] and [$] its end.  After
    the five hashes the greedy [\s+] takes the whole whitespace run and
    [(.+)] the rest; when nothing is left, [\s+] gives one character back
    if it can spare one. *)
Definition header_match (s : string) : option string :=
  match s with
  | String "#" (String "#" (String "#" (String "#" (String "#" r)))) =>
      let t := lstrip r in
      let k := (String.length r - String.length t)%nat in
      if (k =? 0)%nat then None
      else if truthy t then Some t
      else if (2 <=? k)%nat then Some (substring (k - 1) 1 r)
      else None
  | _ => None
  end.

Fixpoint find_header_in_lines (i : Z) (lines : list string)
  : option (string * Z) :=
  match lines with
  | [] => None
  | line :: lines' =>
      match header_match (strip line) with
      | Some g => Some (strip g, i)
      | None => find_header_in_lines (i + 1) lines'
      end
  end.

Definition find_section_header_in_text (text : string)
  : option (string * Z) :=
  find_header_in_lines 0 (split_lines text).

Definition has_header (text : string) : bool :=
  match find_section_header_in_text text with
  | Some _ => true
  | None => false
  end.

Record section_info := {
  section_id : string;
  section_title : string;
  start_page : Z;
  end_page : Z;
  pages : list Z;
  content : string;
  character_count : Z;
  word_count : Z;
  header_found : bool;
  pages_in_section : Z;
  extraction_method : string
}.

(** The loop over [enumerate(result[1:], 1)]: the index of the first later
    chunk that carries a header. *)
Fixpoint find_next_header (i : Z) (l : list page_data) : option Z :=
  match l with
  | [] => None
  | page_data :: l' =>
      if has_header (get_text page_data) then Some i
      else find_next_header (i + 1) l'
  end.

(** The loop over [enumerate(extended_result)].  It reads
    [extended_pages[i]] for every chunk; a chunk beyond the requested pages
    raises [IndexError], which the inner [except] swallows with the
    section end reached so far. *)
Fixpoint scan_extended (extended_pages : list Z)
    (extended_result : list page_data) (section_end_page : Z)
    {struct extended_result} : Z * option Z :=
  match extended_result with
  | [] => (section_end_page, None)
  | page_data :: result' =>
      match extended_pages with
      | [] => (section_end_page, None)
      | p :: pages' =>
          if has_header (get_text page_data) then (section_end_page, Some p)
          else scan_extended pages' result' p
      end
  end.

(** "Combine all pages in section". *)
Definition combine_step (section_content : string) (page_data : page_data)
  : string :=
  if truthy section_content
  then section_content ++ nl ++ nl ++ get_text page_data
  else get_text page_data.

Definition combine_pages (final_result : list page_data) : string :=
  fold_left combine_step final_result "".

(** Title and id of the section opened at [start_page]. *)
Definition name_section (first_header : option (string * Z)) (start_page : Z)
  : string * string :=
  match first_header with
  | None =>
      ("Content starting at Page " ++ str_of_int start_page,
       "untitled_page_" ++ str_of_int start_page)
  | Some (header_title, _) =>
      (header_title,
       lower (squeeze_space (strip (drop_special header_title))))
  end.

(** The search for the next header beyond the first batch. *)
Definition extend_search (to_markdown : renderer)
    (start_page total_pages initial_batch_size : Z)
    (section_end_page : Z) (next_section_start : option Z)
  : Z * option Z :=
  match next_section_start with
  | Some _ => (section_end_page, next_section_start)
  | None =>
      if (section_end_page =? start_page + initial_batch_size - 1)
         && (section_end_page <? total_pages)
      then
        let extended_pages :=
          range (section_end_page + 1)
                (Z.min (total_pages + 1) (section_end_page + 21)) in
        match extended_pages with
        | [] => (section_end_page, None)
        | _ :: _ =>
            match to_markdown extended_pages with
            | None => (section_end_page, None)
            | Some extended_result =>
                scan_extended extended_pages extended_result section_end_page
            end
        end
      else (section_end_page, None)
  end.

Definition extract_next_section (to_markdown : renderer)
    (start_page total_pages look_ahead_pages : Z)
  : option section_info * Z :=
  if total_pages <? start_page then (None, start_page)
  else
    let initial_batch_size :=
      Z.min look_ahead_pages (total_pages - start_page + 1) in
    let pages_to_extract :=
      range start_page (start_page + initial_batch_size) in
    match to_markdown pages_to_extract with
    | None => (None, start_page + 1)
    | Some [] => (None, start_page + 1)
    | Some (first_page_data :: later) =>
        let result_len := Z.of_nat (List.length (first_page_data :: later)) in
        let first_header :=
          find_section_header_in_text (get_text first_page_data) in
        let '(header_title, section_id) :=
          name_section first_header start_page in
        let '(section_end_page, next_section_start) :=
          match find_next_header 1 later with
          | Some i => (start_page + i - 1, Some (start_page + i))
          | None => (start_page + result_len - 1, None)
          end in
        let '(section_end_page, next_section_start) :=
          extend_search to_markdown start_page total_pages
            initial_batch_size section_end_page next_section_start in
        let '(section_end_page, next_section_start) :=
          match next_section_start with
          | None => (total_pages, total_pages + 1)
          | Some n => (section_end_page, n)
          end in
        let final_pages := range start_page (section_end_page + 1) in
        match to_markdown final_pages with
        | None => (None, start_page + 1)
        | Some final_result =>
            let section_content := combine_pages final_result in
            (Some {| section_id := section_id;
                     section_title := header_title;
                     start_page := start_page;
                     end_page := section_end_page;
                     pages := final_pages;
                     content := section_content;
                     character_count := len section_content;
                     word_count :=
                       Z.of_nat (List.length (split section_content));
                     header_found :=
                       match first_header with
                       | Some _ => true
                       | None => false
                       end;
                     pages_in_section :=
                       Z.of_nat (List.length final_pages);
                     extraction_method := "memory_efficient" |},
             next_section_start)
        end
    end.

(** [save_section_immediately], its result: the path of the section file
    and what is written to it.  Its effect on the disk is
    [try_save_section] below. *)
Definition save_section_immediately (section : section_info)
    (output_dir base_filename : string) : path * file_writes :=
  let safe_filename := drop_special (section_id section) in
  let safe_filename := squeeze_space safe_filename in
  let section_file :=
    {| path_dir := output_dir;
       path_name := base_filename ++ "_section_" ++ safe_filename ++ ".md" |} in
  (section_file,
   [ "# " ++ section_title section ++ nl ++ nl;
     "**Pages:** " ++ str_of_int (start_page section) ++ "-"
       ++ str_of_int (end_page section) ++ " ("
       ++ str_of_int (Z.of_nat (List.length (pages section)))
       ++ " pages)" ++ nl;
     "**Characters:** " ++ str_of_int (character_count section) ++ nl;
     "**Words:** " ++ str_of_int (word_count section) ++ nl;
     "**Section ID:** " ++ section_id section ++ nl ++ nl;
     "---" ++ nl ++ nl;
     content section ]).

(** [save_section_immediately], its effect: the output directory is
    created when missing, then the section file is opened and written.
    The result is the exception raised, or the disk afterwards. *)
Definition try_save_section (d : disk) (section : section_info)
    (output_dir base_filename : string) : io_error + disk :=
  match makedirs d with
  | inl e => inl e
  | inr d' =>
      match open_for_writing d'
              (fst (save_section_immediately section output_dir base_filename))
      with
      | Some e => inl e
      | None => inr d'
      end
  end.

(** An entry of the summary's ['sections'] list. *)
Record section_summary := {
  sum_title : string;
  sum_id : string;
  sum_start_page : Z;
  sum_end_page : Z;
  sum_character_count : Z;
  sum_word_count : Z;
  sum_file_path : path
}.

(** The summary dictionary of a run that reached its end; these are all its
    keys, ['success'] being [True]. *)
Record summary := {
  pdf_file : string;
  total_pages : Z;
  summary_start_page : Z;
  sections_found : Z;
  sections : list section_summary;
  files_created : list path
}.

(** What [extract_all_sections] hands back, with the section files it
    wrote: the exception for a missing document; the dictionary for a
    document without pages; the dictionary of the [except] branch, which
    holds the message of [error], for an exception of the file system; the
    summary. *)
Inductive outcome :=
| FileNotFoundError
| Failure (pdf_file error : string)
| Aborted (pdf_file : string) (error : io_error) (sections_processed : Z)
    (written : list (path * file_writes))
| Success (s : summary) (written : list (path * file_writes)).

(** The document as the script sees it: whether the path exists, its stem,
    what [get_pdf_page_count] answers (0 when the document cannot be read)
    and the renderer. *)
Record pdf := {
  pdf_exists : bool;
  pdf_name : string;
  page_count : Z;
  to_markdown : renderer
}.

(** The variables of the [while] loop, the files written so far, the disk,
    and the exception that left the loop, if one did. *)
Record loop_state := {
  st_sections : list section_summary;
  st_created_files : list path;
  st_current_page : Z;
  st_section_count : Z;
  st_written : list (path * file_writes);
  st_disk : disk;
  st_raised : option io_error
}.

Definition summarize (section : section_info) (section_file : path)
  : section_summary :=
  {| sum_title := section_title section;
     sum_id := section_id section;
     sum_start_page := start_page section;
     sum_end_page := end_page section;
     sum_character_count := character_count section;
     sum_word_count := word_count section;
     sum_file_path := section_file |}.

(** The state on another disk, and the state left by an exception. *)
Definition on_disk (d : disk) (st : loop_state) : loop_state :=
  {| st_sections := st_sections st;
     st_created_files := st_created_files st;
     st_current_page := st_current_page st;
     st_section_count := st_section_count st;
     st_written := st_written st;
     st_disk := d;
     st_raised := st_raised st |}.

Definition raised (e : io_error) (st : loop_state) : loop_state :=
  {| st_sections := st_sections st;
     st_created_files := st_created_files st;
     st_current_page := st_current_page st;
     st_section_count := st_section_count st;
     st_written := st_written st;
     st_disk := st_disk st;
     st_raised := Some e |}.

(** One turn of the loop body after a section was found and saved. *)
Definition record_section (st : loop_state) (section : section_info)
    (next_page : Z) (output_dir pdf_name : string) : loop_state :=
  let '(section_file, writes) :=
    save_section_immediately section output_dir pdf_name in
  {| st_sections := st_sections st ++ [summarize section section_file];
     st_created_files := st_created_files st ++ [section_file];
     st_current_page := next_page;
     st_section_count := st_section_count st + 1;
     st_written := st_written st ++ [(section_file, writes)];
     st_disk := st_disk st;
     st_raised := st_raised st |}.

(** [while current_page <= total_pages: ...], by fuel: [None] only when
    the fuel runs out.  An exception raised while a section is saved
    leaves the loop for the [except] branch, before the section is
    listed. *)
Fixpoint scan_loop (fuel : nat) (to_markdown : renderer)
    (total_pages : Z) (output_dir pdf_name : string) (st : loop_state)
  : option loop_state :=
  match fuel with
  | O => None
  | S fuel' =>
      if st_current_page st <=? total_pages then
        match extract_next_section to_markdown (st_current_page st)
                total_pages 20 with
        | (None, _) => Some st
        | (Some section, next_page) =>
            match try_save_section (st_disk st) section output_dir pdf_name
            with
            | inl e => Some (raised e st)
            | inr d =>
                let st' :=
                  record_section (on_disk d st) section next_page output_dir
                    pdf_name in
                if 100 <? st_section_count st' then Some st'
                else scan_loop fuel' to_markdown total_pages output_dir
                       pdf_name st'
            end
        end
      else Some st
  end.

Definition initial_state (d : disk) (start_page : Z) : loop_state :=
  {| st_sections := [];
     st_created_files := [];
     st_current_page := start_page;
     st_section_count := 0;
     st_written := [];
     st_disk := d;
     st_raised := None |}.

(** The file that holds the summary of a run. *)
Definition summary_path (output_dir pdf_name : string) : path :=
  {| path_dir := output_dir;
     path_name := pdf_name ++ "_sections_summary.json" |}.

(** The [except] branch. *)
Definition abort (pdf_name : string) (e : io_error) (st : loop_state)
  : outcome :=
  Aborted pdf_name e (Z.of_nat (List.length (st_sections st))) (st_written st).

(** "Save overall summary", inside the [try]: the summary file is the JSON
    dump of the summary itself and is left out of [written]; when it
    cannot be written the [except] branch answers.  The returned
    dictionary shares the list [created_files], to which the summary file
    is appended after the dump. *)
Definition finish (pdf_name output_dir : string) (total_pages start_page : Z)
    (st : loop_state) : outcome :=
  match st_raised st with
  | Some e => abort pdf_name e st
  | None =>
      match open_for_writing (st_disk st) (summary_path output_dir pdf_name)
      with
      | Some e => abort pdf_name e st
      | None =>
          Success
            {| pdf_file := pdf_name;
               total_pages := total_pages;
               summary_start_page := start_page;
               sections_found := Z.of_nat (List.length (st_sections st));
               sections := st_sections st;
               files_created :=
                 st_created_files st ++ [summary_path output_dir pdf_name] |}
            (st_written st)
      end
  end.

Definition extract_all_sections (fuel : nat) (doc : pdf) (d : disk)
    (start_page : Z) (output_dir : string) : option outcome :=
  if negb (pdf_exists doc) then Some FileNotFoundError
  else
    let total_pages := page_count doc in
    if total_pages =? 0
    then Some (Failure (pdf_name doc) "Could not read PDF or PDF is empty")
    else
      match scan_loop fuel (to_markdown doc) total_pages output_dir
              (pdf_name doc) (initial_state d start_page) with
      | None => None
      | Some st =>
          Some (finish (pdf_name doc) output_dir total_pages start_page st)
      end.

(** Fuel that always suffices: the loop body runs at most 101 times. *)
Definition enough_fuel : nat := 101.

End Scan.

(** ** The outline strategy: [extract_sections_toc.py] *)

Module Toc.

Import PyStr.

(** An entry of the table of contents as [get_pdf_toc_and_pages] builds
    it. *)
Record toc_entry := {
  level : Z;
  title : string;
  page : Z;
  section_id : string
}.

(** [entry.copy()] updated with the page range. *)
Record toc_section := {
  entry : toc_entry;
  start_page : Z;
  end_page : Z;
  page_count : Z
}.

(** The loop over [enumerate(toc_entries)]; [toc_entries[i + 1]] is the
    head of the remaining entries. *)
Fixpoint calculate_section_boundaries (toc_entries : list toc_entry)
    (total_pages page_offset : Z) : list toc_section :=
  match toc_entries with
  | [] => []
  | entry :: later =>
      let start_page := page entry + page_offset in
      let end_page :=
        match later with
        | next :: _ => page next + page_offset - 1
        | [] => total_pages
        end in
      let start_page := Z.max 1 (Z.min start_page total_pages) in
      let end_page := Z.max start_page (Z.min end_page total_pages) in
      {| entry := entry;
         start_page := start_page;
         end_page := end_page;
         page_count := end_page - start_page + 1 |}
      :: calculate_section_boundaries later total_pages page_offset
  end.

Record page_info := {
  info_page : Z;
  info_chars : Z;
  info_words : Z
}.

(** [combined_text] and [combined_metadata] while the chunks are read. *)
Record combined := {
  combined_text : string;
  meta_pages : list page_info;
  total_chars : Z;
  total_words : Z
}.

Definition combine_step (acc : combined) (page_data : page_data) : combined :=
  let page_text := get_text page_data in
  let info :=
    {| info_page := get_page page_data;
       info_chars := len page_text;
       info_words := Z.of_nat (List.length (split page_text)) |} in
  {| combined_text := combined_text acc ++ page_text ++ nl;
     meta_pages := meta_pages acc ++ [info];
     total_chars := total_chars acc + info_chars info;
     total_words := total_words acc + info_words info |}.

Definition combine_pages (result : list page_data) : combined :=
  fold_left combine_step result
    {| combined_text := ""; meta_pages := [];
       total_chars := 0; total_words := 0 |}.

Record section_content := {
  sc_title : string;
  sc_section_id : string;
  sc_level : Z;
  sc_text : string;
  sc_page_range : string;
  sc_start_page : Z;
  sc_end_page : Z;
  sc_page_count : Z;
  sc_character_count : Z;
  sc_word_count : Z;
  sc_extraction_metadata : list page_info
}.

(** [None] both for an empty result and for a raised exception. *)
Definition extract_section_content (to_markdown : renderer)
    (section : toc_section) : option section_content :=
  let pages_to_extract := range (start_page section) (end_page section + 1) in
  match to_markdown pages_to_extract with
  | None => None
  | Some [] => None
  | Some result =>
      let c := combine_pages result in
      Some {| sc_title := title (entry section);
              sc_section_id := section_id (entry section);
              sc_level := level (entry section);
              sc_text := strip (combined_text c);
              sc_page_range :=
                str_of_int (start_page section) ++ "-"
                  ++ str_of_int (end_page section);
              sc_start_page := start_page section;
              sc_end_page := end_page section;
              sc_page_count := page_count section;
              sc_character_count := total_chars c;
              sc_word_count := total_words c;
              sc_extraction_metadata := meta_pages c |}
  end.

Definition save_section_immediately (section : section_content)
    (output_dir pdf_filename : string) : path * file_writes :=
  let filename :=
    pdf_filename ++ "_section_" ++ sc_section_id section ++ ".md" in
  ({| path_dir := output_dir; path_name := filename |},
   [ "# " ++ sc_title section ++ nl ++ nl;
     "**Pages:** " ++ str_of_int (sc_start_page section) ++ "-"
       ++ str_of_int (sc_end_page section) ++ " ("
       ++ str_of_int (sc_page_count section) ++ " pages)" ++ nl;
     "**Characters:** " ++ str_of_int (sc_character_count section) ++ nl;
     "**Words:** " ++ str_of_int (sc_word_count section) ++ nl;
     "**Section ID:** " ++ sc_section_id section ++ nl;
     "**TOC Level:** " ++ str_of_int (sc_level section) ++ nl ++ nl;
     "---" ++ nl ++ nl;
     sc_text section ]).

Record section_metadata := {
  md_title : string;
  md_id : string;
  md_start_page : Z;
  md_end_page : Z;
  md_character_count : Z;
  md_word_count : Z;
  md_file_path : path;
  md_toc_level : Z
}.

(** The summary of a run; ['success'] is [True] and ['extraction_method']
    is the constant ["toc_based_memory_efficient"]. *)
Record summary := {
  pdf_file : string;
  total_pages : Z;
  sections_found : Z;
  page_offset_applied : Z;
  toc_levels_filtered : option (list Z);
  toc_entries_found : Z;
  created_files : list path;
  sections : list section_metadata
}.

(** What [extract_sections_by_toc] hands back, with the section files it
    wrote: the exception for a missing document; the dictionary for an
    empty outline; an exception of the file system, which nothing in the
    function catches; the summary. *)
Inductive outcome :=
| FileNotFoundError
| NoToc (error : string) (sections_extracted : Z)
| Raised (error : io_error) (written : list (path * file_writes))
| Success (s : summary) (written : list (path * file_writes)).

(** The document as the script sees it: whether the path exists, its stem,
    the answer of [get_pdf_toc_and_pages] and the renderer. *)
Record pdf := {
  pdf_exists : bool;
  pdf_name : string;
  pdf_toc : list toc_entry;
  pdf_page_count : Z;
  to_markdown : renderer
}.

Definition describe (c : section_content) (section_file : path)
  : section_metadata :=
  {| md_title := sc_title c;
     md_id := sc_section_id c;
     md_start_page := sc_start_page c;
     md_end_page := sc_end_page c;
     md_character_count := sc_character_count c;
     md_word_count := sc_word_count c;
     md_file_path := section_file;
     md_toc_level := sc_level c |}.

(** The variables of the [for] loop over the planned sections, the files
    written so far, the disk, and the exception that left the loop, if one
    did. *)
Record loop_state := {
  st_metadata : list section_metadata;
  st_created_files : list path;
  st_written : list (path * file_writes);
  st_disk : disk;
  st_raised : option io_error
}.

Definition raised (e : io_error) (st : loop_state) : loop_state :=
  {| st_metadata := st_metadata st;
     st_created_files := st_created_files st;
     st_written := st_written st;
     st_disk := st_disk st;
     st_raised := Some e |}.

(** [save_section_immediately], its effect: the output directory is
    created when missing, without its parents, then the section file is
    opened and written. *)
Definition try_save_section (d : disk) (section : section_content)
    (output_dir pdf_filename : string) : io_error + disk :=
  match mkdir d output_dir with
  | inl e => inl e
  | inr d' =>
      match open_for_writing d'
              (fst (save_section_immediately section output_dir pdf_filename))
      with
      | Some e => inl e
      | None => inr d'
      end
  end.

(** One turn of the [for] loop; after an exception no turn runs. *)
Definition extract_step (to_markdown : renderer)
    (output_dir pdf_filename : string) (st : loop_state)
    (section : toc_section) : loop_state :=
  match st_raised st with
  | Some _ => st
  | None =>
      match extract_section_content to_markdown section with
      | Some c =>
          match try_save_section (st_disk st) c output_dir pdf_filename with
          | inl e => raised e st
          | inr d =>
              let '(section_file, writes) :=
                save_section_immediately c output_dir pdf_filename in
              {| st_metadata := st_metadata st ++ [describe c section_file];
                 st_created_files := st_created_files st ++ [section_file];
                 st_written := st_written st ++ [(section_file, writes)];
                 st_disk := d;
                 st_raised := None |}
          end
      | None => st
      end
  end.

(** [if toc_levels:] then keep the entries whose level is listed. *)
Definition filter_levels (toc_levels : option (list Z))
    (toc_entries : list toc_entry) : list toc_entry :=
  match toc_levels with
  | None | Some [] => toc_entries
  | Some levels =>
      filter (fun e => existsb (Z.eqb (level e)) levels) toc_entries
  end.

Definition initial_state (d : disk) : loop_state :=
  {| st_metadata := []; st_created_files := []; st_written := [];
     st_disk := d; st_raised := None |}.

(** The file that holds the summary of a run. *)
Definition summary_path (output_dir pdf_filename : string) : path :=
  {| path_dir := output_dir;
     path_name := pdf_filename ++ "_toc_sections_summary.json" |}.

(** The summary file is the JSON dump of the summary itself and is left
    out of [written]. *)
Definition extract_sections_by_toc (doc : pdf) (d : disk)
    (output_dir : string) (page_offset : Z) (toc_levels : option (list Z))
  : outcome :=
  if negb (pdf_exists doc) then FileNotFoundError
  else
    match pdf_toc doc with
    | [] => NoToc "No TOC found" 0
    | _ :: _ =>
        let toc_entries := filter_levels toc_levels (pdf_toc doc) in
        let planned :=
          calculate_section_boundaries toc_entries (pdf_page_count doc)
            page_offset in
        match mkdir d output_dir with
        | inl e => Raised e []
        | inr d0 =>
            let st :=
              fold_left
                (extract_step (to_markdown doc) output_dir (pdf_name doc))
                planned (initial_state d0) in
            match st_raised st with
            | Some e => Raised e (st_written st)
            | None =>
                match open_for_writing (st_disk st)
                        (summary_path output_dir (pdf_name doc)) with
                | Some e => Raised e (st_written st)
                | None =>
                    Success
                      {| pdf_file := pdf_name doc;
                         total_pages := pdf_page_count doc;
                         sections_found :=
                           Z.of_nat (List.length (st_metadata st));
                         page_offset_applied := page_offset;
                         toc_levels_filtered := toc_levels;
                         toc_entries_found :=
                           Z.of_nat (List.length toc_entries);
                         created_files := st_created_files st;
                         sections := st_metadata st |}
                      (st_written st)
                end
            end
        end
    end.

End Toc.

(** ** A well-behaved renderer

    A document whose page [p] renders to [text_of p]: one chunk per
    requested page, in the order of the request, and no failure. *)

Definition render_pages (text_of : Z -> string) : renderer :=
  fun pages =>
    Some (map (fun p => {| pd_page := Some p; pd_text := Some (text_of p) |})
              pages).

(** ** Vocabulary of the statements *)

(** [clamp x lo hi]: [x] brought into [[lo, hi]]. *)
Definition clamp (x lo hi : Z) : Z := Z.max lo (Z.min x hi).

(** The first page of [[lo, hi]] whose text carries a heading marker. *)
Definition first_header_page (text_of : Z -> string) (lo hi : Z) : option Z :=
  find (fun p => Scan.has_header (text_of p)) (range lo (hi + 1)).

(** A list of strings without its leading empty strings. *)
Fixpoint drop_empty (l : list string) : list string :=
  match l with
  | [] => []
  | s :: l' => if PyStr.truthy s then l else drop_empty l'
  end.

(** Page [q] lies in the range of a planned section. *)
Definition in_section (q : Z) (s : Toc.toc_section) : Prop :=
  Toc.start_page s <= q <= Toc.end_page s.


(** An outline entry that targets page [p]. *)
Definition entry_at (p : Z) : Toc.toc_entry :=
  {| Toc.level := 1; Toc.title := "Chapter"; Toc.page := p;
     Toc.section_id := "chapter" |}.

Definition page_range (s : Toc.toc_section) : Z * Z :=
  (Toc.start_page s, Toc.end_page s).


(** The pieces [t1; t2; ...] each followed by a newline, in one string:
    what [combined_text += page_text + "\n"] builds. *)
Definition newline_terminated (l : list string) : string :=
  fold_right (fun t acc => t ++ PyStr.nl ++ acc) "" l.

(** [sum(l)] *)
Definition sum_Z (l : list Z) : Z := fold_right Z.add 0 l.

(** [len(text.split())] *)
Definition count_words (text : string) : Z :=
  Z.of_nat (List.length (PyStr.split text)).

(** The file [writes] carries the two counts in its metadata block and
    ends, after the rule, with [text]. *)
Definition artifact_records (writes : file_writes) (chars words : Z)
    (text : string) : Prop :=
  nth_error writes 2
  = Some ("**Characters:** " ++ PyStr.str_of_int chars ++ PyStr.nl)
  /\ nth_error writes 3
     = Some ("**Words:** " ++ PyStr.str_of_int words ++ PyStr.nl)
  /\ exists metadata,
       writes
       = (metadata ++ [("---" ++ PyStr.nl ++ PyStr.nl)%string; text])%list.

(** ** Sample documents *)

(** A heading marker line. *)
Definition heading (n : Z) : string := "##### Part " ++ PyStr.str_of_int n.

(** A document with a heading marker on every page. *)
Definition every_page_headed (p : Z) : string :=
  heading p ++ PyStr.nl ++ "text".

(** A document with heading markers on the pages [marked] only. *)
Definition headed_on (marked : list Z) (p : Z) : string :=
  if existsb (Z.eqb p) marked then heading p ++ PyStr.nl ++ "text"
  else "plain text".

(** A renderer that raises whenever the request starts with page [bad]. *)
Definition failing_from (bad : Z) (to_markdown : renderer) : renderer :=
  fun pages =>
    match pages with
    | p :: _ => if p =? bad then None else to_markdown pages
    | [] => to_markdown pages
    end.

(** An existing document of [total] pages, as the scan script sees it. *)
Definition scan_pdf (total : Z) (to_markdown : renderer) : Scan.pdf :=
  {| Scan.pdf_exists := true;
     Scan.pdf_name := "book";
     Scan.page_count := total;
     Scan.to_markdown := to_markdown |}.

Definition summary_range (m : Scan.section_summary) : Z * Z :=
  (Scan.sum_start_page m, Scan.sum_end_page m).

(** The page ranges of the sections listed in the summary of a run. *)
Definition scan_ranges (o : option Scan.outcome) : option (list (Z * Z)) :=
  match o with
  | Some (Scan.Success s _) => Some (map summary_range (Scan.sections s))
  | _ => None
  end.

(** The chunk that [render_pages text_of] returns for page [p]. *)
Definition chunk_of (text_of : Z -> string) (p : Z) : page_data :=
  {| pd_page := Some p; pd_text := Some (text_of p) |}.

(** The boundary that a scan started with look-ahead [la] at page [start]
    can see: the first heading marker after [start] among the first batch
    and one extension of 20 pages. *)
Definition visible_boundary (text_of : Z -> string) (start total la : Z)
  : option Z :=
  first_header_page text_of (start + 1) (Z.min total (start + la + 19)).

(** A five-page document with a heading marker on page 1 and two heading
    markers on page 3. *)
Definition twice_marked (p : Z) : string :=
  if p =? 1 then heading 1 ++ PyStr.nl ++ "text"
  else if p =? 3
       then heading 3 ++ PyStr.nl ++ "text" ++ PyStr.nl ++ heading 4
       else "plain text".

(** The listed sections follow one another from page [from]: each starts
    on the page after the previous one's end and holds at least one page,
    and the page after the last one is [stop]. *)
Fixpoint consecutive (from : Z) (ms : list Scan.section_summary) (stop : Z)
  : Prop :=
  match ms with
  | [] => from = stop
  | m :: ms' =>
      Scan.sum_start_page m = from
      /\ from <= Scan.sum_end_page m
      /\ consecutive (Scan.sum_end_page m + 1) ms' stop
  end.

(** A two-page document: page 1 reads ["a"], page 2 reads ["b"]. *)
Definition two_pages (p : Z) : string := if p =? 1 then "a" else "b".

(** The planned section that spans a whole document of [total] pages. *)
Definition whole_document (total : Z) : Toc.toc_section :=
  {| Toc.entry := entry_at 1;
     Toc.start_page := 1;
     Toc.end_page := total;
     Toc.page_count := total |}.

(** A section listed by a scan run and the file written for it agree: the
    file is the listed one, it records the listed counts, and these are
    the length and the number of words of the text it ends with. *)
Definition scan_artifact_consistent (m : Scan.section_summary)
    (f : path * file_writes) : Prop :=
  Scan.sum_file_path m = fst f
  /\ exists text,
       artifact_records (snd f) (Scan.sum_character_count m)
         (Scan.sum_word_count m) text
       /\ Scan.sum_character_count m = PyStr.len text
       /\ Scan.sum_word_count m = count_words text.

(** The same for an outline run, whose character count is the total length
    of the rendered pages of the section. *)
Definition toc_artifact_consistent (to_markdown : renderer)
    (m : Toc.section_metadata) (f : path * file_writes) : Prop :=
  Toc.md_file_path m = fst f
  /\ exists text result,
       artifact_records (snd f) (Toc.md_character_count m)
         (Toc.md_word_count m) text
       /\ Toc.md_word_count m = count_words text
       /\ to_markdown (range (Toc.md_start_page m) (Toc.md_end_page m + 1))
          = Some result
       /\ Toc.md_character_count m
          = sum_Z (map (fun pd => PyStr.len (get_text pd)) result).

(** An existing document with the outline [entries], as the outline script
    sees it. *)
Definition toc_pdf (entries : list Toc.toc_entry) (total : Z)
    (to_markdown : renderer) : Toc.pdf :=
  {| Toc.pdf_exists := true;
     Toc.pdf_name := "book";
     Toc.pdf_toc := entries;
     Toc.pdf_page_count := total;
     Toc.to_markdown := to_markdown |}.

(** For each section of an outline run: the recorded character count, the
    recorded word count, and the text its file ends with. *)
Definition toc_recorded (o : Toc.outcome) : list (Z * Z * string) :=
  match o with
  | Toc.Success s written =>
      map (fun mf =>
             (Toc.md_character_count (fst mf), Toc.md_word_count (fst mf),
              last (snd (snd mf)) ""))
          (combine (Toc.sections s) written)
  | _ => []
  end.

(** ** Reading the outline: [get_pdf_toc_and_pages] *)

Module TocReader.

Import PyStr.

(** [c.isdigit()] *)
Definition isdigit (c : ascii) : bool :=
  let n := N_of_ascii c in
  in_range 48 57 n || in_range 178 179 n || (n =? 185)%N.

(** "Generate a clean section ID from title". *)
Definition generate_section_id (title : string) : string :=
  let section_id := strip (drop_special title) in
  let section_id := lower (squeeze_space section_id) in
  let section_id :=
    match section_id with
    | String c _ =>
        if isdigit c then "section_" ++ section_id else section_id
    | EmptyString => section_id
    end in
  if truthy section_id then section_id else "untitled_section".

(** One row of [doc.get_toc()]: level, title, page. *)
Definition toc_row : Type := Z * string * Z.

Definition entry_of_row (row : toc_row) : Toc.toc_entry :=
  let '(level, title, page) := row in
  {| Toc.level := level;
     Toc.title := strip title;
     Toc.page := page;
     Toc.section_id := generate_section_id title |}.

(** [fitz_doc] is what opening the document gives: [None] when it raises,
    else the rows of its outline and its number of pages. *)
Definition get_pdf_toc_and_pages (fitz_doc : option (list toc_row * Z))
  : list Toc.toc_entry * Z :=
  match fitz_doc with
  | None => ([], 0)
  | Some (toc, page_count) => (map entry_of_row toc, page_count)
  end.

(** The document as [extract_sections_by_toc] sees it after
    "Get TOC and page count". *)
Definition read_pdf (exists_ : bool) (name : string)
    (fitz_doc : option (list toc_row * Z)) (to_markdown : renderer)
  : Toc.pdf :=
  let '(toc_entries, total_pages) := get_pdf_toc_and_pages fitz_doc in
  {| Toc.pdf_exists := exists_;
     Toc.pdf_name := name;
     Toc.pdf_toc := toc_entries;
     Toc.pdf_page_count := total_pages;
     Toc.to_markdown := to_markdown |}.

End TocReader.

(** ** Vocabulary of the further statements *)

(** Every character of [s] satisfies [p]. *)
Fixpoint all_chars (p : ascii -> bool) (s : string) : bool :=
  match s with
  | EmptyString => true
  | String c s' => p c && all_chars p s'
  end.

(** A character that may stand in a cleaned identifier: a word character
    or a hyphen. *)
Definition id_char (c : ascii) : bool :=
  PyStr.isword c || Ascii.eqb c "-"%char.

(** [s] neither begins nor ends with whitespace. *)
Definition trimmed (s : string) : Prop :=
  PyStr.lstrip s = s /\ PyStr.rstrip s = s.

(** The renderer answers the request for the pages of a planned section
    with at least one chunk. *)
Definition renders (to_markdown : renderer) (s : Toc.toc_section) : bool :=
  match to_markdown (range (Toc.start_page s) (Toc.end_page s + 1)) with
  | Some (_ :: _) => true
  | _ => false
  end.

Definition metadata_range (m : Toc.section_metadata) : Z * Z :=
  (Toc.md_start_page m, Toc.md_end_page m).

(** The outline entry [e] with its page moved by [page_offset]. *)
Definition shift_entry (page_offset : Z) (e : Toc.toc_entry) : Toc.toc_entry :=
  {| Toc.level := Toc.level e;
     Toc.title := Toc.title e;
     Toc.page := Toc.page e + page_offset;
     Toc.section_id := Toc.section_id e |}.

(** The listed sections are in order and apart: the first starts on
    [from], each holds at least one page, each later one starts beyond the
    end of the one before it, and [cursor] lies beyond the last one. *)
Fixpoint apart (from : Z) (ms : list Scan.section_summary) (cursor : Z)
  : Prop :=
  match ms with
  | [] => from = cursor
  | m :: ms' =>
      Scan.sum_start_page m = from
      /\ from <= Scan.sum_end_page m
      /\ exists next, Scan.sum_end_page m < next /\ apart next ms' cursor
  end.

(** The file that holds the summary of a scan run. *)
Definition summary_file (output_dir pdf_name : string) : path :=
  Scan.summary_path output_dir pdf_name.

(** ** The model on small inputs *)

Example str_of_int_examples :
  PyStr.str_of_int 0 = "0" /\ PyStr.str_of_int 17 = "17"
  /\ PyStr.str_of_int (-3) = "-3".
Proof. repeat split; reflexivity. Qed.

Example split_example : PyStr.split " a  b c " = ["a"; "b"; "c"].
Proof. reflexivity. Qed.

Example split_lines_example :
  PyStr.split_lines ("a" ++ PyStr.nl ++ "b" ++ PyStr.nl) = ["a"; "b"; ""].
Proof. reflexivity. Qed.

Example strip_example : PyStr.strip "  a b  " = "a b".
Proof. reflexivity. Qed.

Example header_match_examples :
  Scan.header_match "##### Title here" = Some "Title here"
  /\ Scan.header_match "###### Title here" = None
  /\ Scan.header_match "#####Title" = None
  /\ Scan.header_match "#### Title" = None.
Proof. repeat split; reflexivity. Qed.

Example find_section_header_example :
  Scan.find_section_header_in_text
    ("intro" ++ PyStr.nl ++ "  #####   My Title!  " ++ PyStr.nl ++ "##### B")
  = Some ("My Title!", 1).
Proof. reflexivity. Qed.

Example name_section_examples :
  Scan.name_section (Some ("My  Title! -x", 1)) 3
  = ("My  Title! -x", "my_title_-x")
  /\ Scan.name_section None 3
     = ("Content starting at Page 3", "untitled_page_3").
Proof. split; reflexivity. Qed.

Example range_example : range 3 6 = [3; 4; 5] /\ range 6 3 = [].
Proof. split; reflexivity. Qed.

(** Scenario C of the specification: a five-page document with a heading
    marker on page 1 only is scanned as the single section [1,5]. *)
Example single_marker_example :
  scan_ranges
    (Scan.extract_all_sections Scan.enough_fuel
       (scan_pdf 5 (render_pages (headed_on [1]))) fresh_disk 1 "output")
  = Some [(1, 5)].
Proof. vm_compute. reflexivity. Qed.


(** ** Ranges *)

Lemma range_nil (a b : Z) : b <= a -> range a b = [].
Proof.
  intros H. unfold range.
  replace (Z.to_nat (b - a)) with 0%nat by lia. reflexivity.
Qed.

Lemma range_cons (a b : Z) : a < b -> range a b = a :: range (a + 1) b.
Proof.
  intros H. unfold range.
  replace (Z.to_nat (b - a)) with (S (Z.to_nat (b - (a + 1)))) by lia.
  cbn [seq map]. f_equal; [lia|].
  rewrite <- seq_shift, map_map.
  apply map_ext. intros i. lia.
Qed.

Lemma range_length (a b : Z) : List.length (range a b) = Z.to_nat (b - a).
Proof. unfold range. now rewrite length_map, length_seq. Qed.

Lemma range_In (a b p : Z) : In p (range a b) <-> a <= p < b.
Proof.
  unfold range. rewrite in_map_iff. split.
  - intros (i & <- & Hi). apply in_seq in Hi. lia.
  - intros H. exists (Z.to_nat (p - a)). split; [lia|].
    apply in_seq. lia.
Qed.

(** Induction along a range, from its lower end. *)
Lemma range_ind (P : Z -> Z -> Prop) :
  (forall a b, b <= a -> P a b) ->
  (forall a b, a < b -> P (a + 1) b -> P a b) ->
  forall a b, P a b.
Proof.
  intros Hnil Hcons a b.
  remember (Z.to_nat (b - a)) as n eqn:Hn.
  revert a Hn. induction n as [|n IH]; intros a Hn.
  - apply Hnil. lia.
  - apply Hcons; [lia|]. apply IH. lia.
Qed.

Lemma range_app (a b c : Z) :
  a <= b -> b <= c -> (range a b ++ range b c)%list = range a c.
Proof.
  revert c. pattern a, b. apply range_ind; clear a b.
  - intros a b Hba c Hab Hbc. rewrite (range_nil a b) by lia.
    replace b with a by lia. reflexivity.
  - intros a b Hlt IH c Hab Hbc.
    rewrite (range_cons a b), (range_cons a c) by lia.
    cbn [app]. f_equal. apply IH; lia.
Qed.

(** ** Strings *)

Module PyStrFacts.

Import PyStr.

Lemma append_assoc (a b c : string) : (a ++ b) ++ c = a ++ (b ++ c).
Proof. induction a as [|x a IH]; cbn; [reflexivity | now rewrite IH]. Qed.

Lemma append_empty_r (a : string) : a ++ "" = a.
Proof. induction a as [|x a IH]; cbn; [reflexivity | now rewrite IH]. Qed.

Lemma length_append (a b : string) :
  String.length (a ++ b) = (String.length a + String.length b)%nat.
Proof. induction a as [|x a IH]; cbn; [reflexivity | now rewrite IH]. Qed.

Lemma truthy_append_r (a b : string) :
  truthy b = true -> truthy (a ++ b) = true.
Proof. destruct a; cbn; auto. Qed.

Lemma truthy_false (a : string) : truthy a = false -> a = "".
Proof. destruct a; [reflexivity | discriminate]. Qed.

Lemma isspace_nl : isspace nl_char = true.
Proof. reflexivity. Qed.

(** A whitespace character ends the current word: splitting goes on
    independently on both sides of it. *)
Lemma split_from_space cur s1 c s2 :
  isspace c = true ->
  split_from cur (s1 ++ String c s2)
  = (split_from cur s1 ++ split_from "" s2)%list.
Proof.
  intros Hc. revert cur. induction s1 as [|d s1 IH]; intros cur; cbn.
  - rewrite Hc. destruct (truthy cur); reflexivity.
  - destruct (isspace d).
    + destruct (truthy cur); cbn; now rewrite IH.
    + apply IH.
Qed.

Lemma split_lstrip s : split (lstrip s) = split s.
Proof.
  unfold split. induction s as [|c s IH]; cbn; [reflexivity|].
  destruct (isspace c) eqn:Hc; [exact IH|].
  cbn. now rewrite Hc.
Qed.

Lemma split_from_rstrip cur s : split_from cur (rstrip s) = split_from cur s.
Proof.
  revert cur. induction s as [|c s IH]; intros cur; cbn; [reflexivity|].
  destruct (isspace c) eqn:Hc; cbn.
  - destruct (truthy (rstrip s)) eqn:Hr; cbn.
    + rewrite Hc. now rewrite IH.
    + apply truthy_false in Hr.
      pose proof (IH "") as IH0. rewrite Hr in IH0. cbn in IH0.
      rewrite <- IH0. reflexivity.
  - rewrite Hc. apply IH.
Qed.

(** [text.strip().split()] and [text.split()] give the same words. *)
Lemma split_strip s : split (strip s) = split s.
Proof.
  unfold strip, split. rewrite split_from_rstrip. apply split_lstrip.
Qed.

(** The words of a text made of pieces that each end in a newline are the
    words of the pieces. *)
Lemma split_lines_concat (l : list string) (rest : string) :
  split (fold_right (fun t acc => t ++ nl ++ acc) rest l)
  = (List.concat (map split l) ++ split rest)%list.
Proof.
  induction l as [|t l IH]; cbn [fold_right map List.concat]; [reflexivity|].
  unfold split in *. unfold nl at 1. cbn [append].
  rewrite split_from_space by apply isspace_nl.
  rewrite IH. now rewrite app_assoc.
Qed.

(** [sep.join] of a list whose head already ends with a joined piece. *)
Lemma join_cons_append sep a t r :
  join sep ((a ++ sep ++ t) :: r) = a ++ sep ++ join sep (t :: r).
Proof.
  destruct r as [|x r]; cbn [join]; [reflexivity|].
  now rewrite !append_assoc.
Qed.

End PyStrFacts.


(** ** The outline strategy *)

Module TocFacts.

Import PyStr Toc.

Lemma boundaries_length toc_entries total_pages page_offset :
  List.length (calculate_section_boundaries toc_entries total_pages page_offset)
  = List.length toc_entries.
Proof. induction toc_entries as [|e later IH]; cbn; [reflexivity | now f_equal]. Qed.

(** The section planned for the entry at index [i], as the code computes
    it. *)
Lemma boundaries_nth toc_entries total_pages page_offset :
  forall i e,
    nth_error toc_entries i = Some e ->
    exists s,
      nth_error
        (calculate_section_boundaries toc_entries total_pages page_offset) i
      = Some s
      /\ entry s = e
      /\ start_page s = clamp (page e + page_offset) 1 total_pages
      /\ end_page s =
           clamp (match nth_error toc_entries (S i) with
                  | Some e' => page e' + page_offset - 1
                  | None => total_pages
                  end) (start_page s) total_pages.
Proof.
  induction toc_entries as [|e0 later IH]; intros i e Hi.
  - destruct i; discriminate.
  - destruct i as [|i].
    + injection Hi as ->. eexists. split; [reflexivity|].
      cbn. unfold clamp. destruct later; cbn; auto.
    + cbn in Hi. destruct (IH i e Hi) as (s & Hs & He & Hst & Hen).
      exists s. cbn [calculate_section_boundaries nth_error]. auto.
Qed.

Lemma boundaries_ordered toc_entries total_pages page_offset s :
  In s (calculate_section_boundaries toc_entries total_pages page_offset) ->
  start_page s <= end_page s.
Proof.
  induction toc_entries as [|e later IH]; cbn; [tauto|].
  intros [<- | H]; [cbn; lia | auto].
Qed.

(** *** Tilings *)







(** *** The text and the counts of a section *)

Lemma combine_pages_fold l : forall acc,
  let c := fold_left combine_step l acc in
  combined_text c
  = combined_text acc ++ newline_terminated (map get_text l)
  /\ total_chars c
     = total_chars acc + sum_Z (map (fun pd => len (get_text pd)) l)
  /\ total_words c
     = total_words acc
       + sum_Z (map (fun pd => count_words (get_text pd)) l).
Proof.
  induction l as [|pd l IH]; intros acc.
  - cbn. rewrite PyStrFacts.append_empty_r.
    repeat split; try reflexivity; lia.
  - cbn [fold_left map newline_terminated fold_right sum_Z].
    destruct (IH (combine_step acc pd)) as (Ht & Hc & Hw).
    cbv zeta in *. rewrite Ht, Hc, Hw.
    cbn [combine_step combined_text total_chars total_words
         info_chars info_words].
    fold (newline_terminated (map get_text l)).
    fold (count_words (get_text pd)).
    rewrite !PyStrFacts.append_assoc.
    repeat split; try reflexivity; unfold sum_Z; lia.
Qed.

Lemma count_words_pieces (l : list string) :
  count_words (strip (newline_terminated l)) = sum_Z (map count_words l).
Proof.
  unfold count_words at 1. rewrite PyStrFacts.split_strip.
  unfold newline_terminated. rewrite PyStrFacts.split_lines_concat.
  cbn [split split_from truthy]. rewrite app_nil_r.
  induction l as [|t l IH]; cbn [map List.concat sum_Z fold_right];
    [reflexivity|].
  rewrite length_app, Nat2Z.inj_add, IH. reflexivity.
Qed.

(** What a rendered outline section holds. *)
Lemma extract_section_content_some to_markdown section c :
  extract_section_content to_markdown section = Some c ->
  exists result,
    to_markdown (range (start_page section) (end_page section + 1))
    = Some result
    /\ sc_text c = strip (newline_terminated (map get_text result))
    /\ sc_character_count c
       = sum_Z (map (fun pd => len (get_text pd)) result)
    /\ sc_word_count c = count_words (sc_text c)
    /\ sc_start_page c = start_page section
    /\ sc_end_page c = end_page section.
Proof.
  unfold extract_section_content.
  destruct (to_markdown _) as [result|]; [|discriminate].
  destruct result as [|pd result]; [discriminate|].
  intros [= <-]. exists (pd :: result). split; [reflexivity|].
  unfold combine_pages.
  destruct (combine_pages_fold (pd :: result)
              {| combined_text := ""; meta_pages := [];
                 total_chars := 0; total_words := 0 |}) as (Ht & Hc & Hw).
  cbv zeta in *. cbn [sc_text sc_character_count sc_word_count
                      sc_start_page sc_end_page].
  rewrite Ht, Hc, Hw. cbn [combined_text total_chars total_words append].
  rewrite count_words_pieces, map_map. repeat split; reflexivity.
Qed.


(** *** Claims about the planned ranges *)

(** C7.  With at least one page in the document, the section planned for
    the outline entry at index [i] starts at the entry's shifted page
    clamped into [[1, total_pages]]; it ends at the next entry's shifted
    page minus one clamped into [[start_page, total_pages]], and at
    [total_pages] for the last entry.  Whatever the page numbers, also out
    of order or repeated, every planned section has
    [start_page <= end_page].  An outline at pages 1, 10 and 25 of a
    30-page document is planned as [1,9], [10,24], [25,30]. *)
Theorem outline_ranges_clamped :
  (forall toc_entries total_pages page_offset i e,
      1 <= total_pages ->
      nth_error toc_entries i = Some e ->
      exists s,
        nth_error
          (calculate_section_boundaries toc_entries total_pages page_offset) i
        = Some s
        /\ entry s = e
        /\ start_page s = clamp (page e + page_offset) 1 total_pages
        /\ end_page s =
             match nth_error toc_entries (S i) with
             | Some e' =>
                 clamp (page e' + page_offset - 1) (start_page s) total_pages
             | None => total_pages
             end
        /\ start_page s <= end_page s)
  /\ (forall toc_entries total_pages page_offset s,
         In s (calculate_section_boundaries toc_entries total_pages
                 page_offset) ->
         start_page s <= end_page s)
  /\ map page_range
       (calculate_section_boundaries [entry_at 1; entry_at 10; entry_at 25]
          30 0)
     = [(1, 9); (10, 24); (25, 30)].
Proof.
  split; [|split].
  - intros toc_entries total_pages page_offset i e Htotal Hi.
    destruct (boundaries_nth toc_entries total_pages page_offset i e Hi)
      as (s & Hs & He & Hst & Hen).
    exists s. repeat split; try assumption.
    + rewrite Hen. destruct (nth_error toc_entries (S i)); [reflexivity|].
      rewrite Hst. unfold clamp. lia.
    + rewrite Hen. unfold clamp. lia.
  - intros toc_entries total_pages page_offset s.
    apply boundaries_ordered.
  - reflexivity.
Qed.

Lemma outline_ranges_clamped_witness :
  (exists s,
      nth_error
        (calculate_section_boundaries [entry_at 1; entry_at 10; entry_at 25]
           30 0) 1
      = Some s
      /\ entry s = entry_at 10
      /\ start_page s = clamp (page (entry_at 10) + 0) 1 30
      /\ end_page s =
           match nth_error [entry_at 1; entry_at 10; entry_at 25] 2 with
           | Some e' => clamp (page e' + 0 - 1) (start_page s) 30
           | None => 30
           end
      /\ start_page s <= end_page s)
  /\ start_page
       {| entry := entry_at 10; start_page := 10; end_page := 24;
          page_count := 15 |}
     <= end_page
          {| entry := entry_at 10; start_page := 10; end_page := 24;
             page_count := 15 |}.
Proof.
  split.
  - apply (proj1 outline_ranges_clamped
             [entry_at 1; entry_at 10; entry_at 25] 30 0 1%nat (entry_at 10)).
    + lia.
    + reflexivity.
  - apply (proj1 (proj2 outline_ranges_clamped)
             [entry_at 1; entry_at 10; entry_at 25] 30 0).
    right. left. reflexivity.
Defined.




(** *** The outcome of a run *)

(** A run that ends in a summary: the output directory could be created,
    no exception left the loop, and the summary was written. *)
Lemma extract_sections_by_toc_success doc d output_dir page_offset toc_levels
    s written :
  extract_sections_by_toc doc d output_dir page_offset toc_levels
  = Success s written ->
  exists d0 st,
    mkdir d output_dir = inr d0
    /\ st = fold_left
              (extract_step (to_markdown doc) output_dir (pdf_name doc))
              (calculate_section_boundaries
                 (filter_levels toc_levels (pdf_toc doc))
                 (pdf_page_count doc) page_offset)
              (initial_state d0)
    /\ st_raised st = None
    /\ open_for_writing (st_disk st) (summary_path output_dir (pdf_name doc))
       = None
    /\ s = {| pdf_file := pdf_name doc;
              total_pages := pdf_page_count doc;
              sections_found := Z.of_nat (List.length (st_metadata st));
              page_offset_applied := page_offset;
              toc_levels_filtered := toc_levels;
              toc_entries_found :=
                Z.of_nat
                  (List.length (filter_levels toc_levels (pdf_toc doc)));
              created_files := st_created_files st;
              sections := st_metadata st |}
    /\ written = st_written st.
Proof.
  unfold extract_sections_by_toc.
  destruct (negb (pdf_exists doc)); [discriminate|].
  destruct (pdf_toc doc) as [|e later]; [discriminate|].
  destruct (mkdir d output_dir) as [err|d0]; [discriminate|].
  cbv zeta.
  destruct (st_raised _) eqn:Hr; [discriminate|].
  destruct (open_for_writing _ _) eqn:Ho; [discriminate|].
  intros [= <- <-]. eexists _, _. repeat split; eauto.
Qed.

(** Only an empty outline gives the error result. *)
Lemma extract_sections_by_toc_no_toc doc d output_dir page_offset toc_levels
    error n :
  extract_sections_by_toc doc d output_dir page_offset toc_levels
  = NoToc error n ->
  pdf_exists doc = true /\ pdf_toc doc = [].
Proof.
  unfold extract_sections_by_toc.
  destruct (pdf_exists doc); cbn [negb]; [|discriminate].
  destruct (pdf_toc doc) as [|e later]; [auto|].
  destruct (mkdir d output_dir) as [err|d0]; [discriminate|].
  cbv zeta.
  destruct (st_raised _); [discriminate|].
  destruct (open_for_writing _ _); discriminate.
Qed.

End TocFacts.

(** ** The scan strategy *)

Module ScanFacts.

Import PyStr Scan.

Lemma find_next_header_bounds l : forall i j,
  find_next_header i l = Some j -> i <= j < i + Z.of_nat (List.length l).
Proof.
  induction l as [|pd l IH]; intros i j; cbn [find_next_header List.length].
  - discriminate.
  - destruct (has_header (get_text pd)).
    + intros [= <-]. lia.
    + intros H. apply IH in H. lia.
Qed.

(** In the extended search the section end only grows and stays below the
    page on which a header is found. *)
Lemma scan_extended_bounds res : forall a b e0 e n,
  scan_extended (range a b) res e0 = (e, Some n) ->
  e0 < a -> e0 <= e < n.
Proof.
  induction res as [|pd res IH]; intros a b e0 e n H Ha; cbn in H.
  - discriminate.
  - destruct (Z_lt_le_dec a b) as [Hab|Hab].
    + rewrite (range_cons a b Hab) in H.
      destruct (has_header (get_text pd)).
      * injection H as <- <-. lia.
      * apply IH in H; lia.
    + rewrite (range_nil a b Hab) in H. discriminate.
Qed.

Lemma extend_search_bounds to_markdown start total batch e0 n0 e n :
  extend_search to_markdown start total batch e0 n0 = (e, Some n) ->
  (n0 = Some n /\ e = e0) \/ (n0 = None /\ e0 <= e < n).
Proof.
  unfold extend_search. destruct n0 as [n0|].
  - intros [= <- <-]. auto.
  - destruct (_ && _); [|discriminate].
    destruct (range (e0 + 1) _) as [|p ps] eqn:Hr; [discriminate|].
    destruct (to_markdown _) as [res|]; [|discriminate].
    rewrite <- Hr. intros H. right. split; [reflexivity|].
    eapply scan_extended_bounds; [exact H | lia].
Qed.

(** What a returned section looks like, for any renderer. *)
Lemma extract_next_section_some to_markdown start total la s next :
  extract_next_section to_markdown start total la = (Some s, next) ->
  start <= total
  /\ start_page s = start
  /\ start <= end_page s
  /\ end_page s < next
  /\ pages s = range start (end_page s + 1)
  /\ character_count s = len (content s)
  /\ word_count s = count_words (content s)
  /\ exists final_result,
       to_markdown (range start (end_page s + 1)) = Some final_result
       /\ content s = combine_pages final_result.
Proof.
  unfold extract_next_section.
  destruct (total <? start) eqn:Hts; [discriminate|].
  apply Z.ltb_ge in Hts.
  destruct (to_markdown (range start _)) as [[|first later]|];
    try discriminate.
  destruct (name_section _ start) as [title id].
  assert (Hscan :
    exists e0 n0,
      match find_next_header 1 later with
      | Some i => (start + i - 1, Some (start + i))
      | None =>
          (start + Z.of_nat (List.length (first :: later)) - 1, None)
      end = (e0, n0)
      /\ start <= e0
      /\ (forall n, n0 = Some n -> e0 < n)).
  { destruct (find_next_header 1 later) as [i|] eqn:Hi.
    - apply find_next_header_bounds in Hi.
      eexists _, _. split; [reflexivity|]. split; [lia|].
      intros n [= <-]. lia.
    - eexists _, _. split; [reflexivity|]. cbn [List.length].
      split; [lia | discriminate]. }
  destruct Hscan as (e0 & n0 & -> & He0 & Hn0).
  destruct (extend_search _ _ _ _ _ _) as [e [n|]] eqn:Hext.
  - apply extend_search_bounds in Hext.
    destruct (to_markdown (range start (e + 1))) as [final|] eqn:Hfin;
      [|discriminate].
    intros [= <- <-]. cbn.
    assert (start <= e < n).
    { destruct Hext as [[-> ->] | [-> He]]; [specialize (Hn0 _ eq_refl)|]; lia. }
    repeat split; try lia. eauto.
  - destruct (to_markdown (range start (total + 1))) as [final|] eqn:Hfin;
      [|discriminate].
    intros [= <- <-]. cbn. repeat split; try lia. eauto.
Qed.

Lemma extract_next_section_none to_markdown start total la next :
  extract_next_section to_markdown start total la = (None, next) ->
  (total < start /\ next = start) \/ (start <= total /\ next = start + 1).
Proof.
  unfold extract_next_section.
  destruct (total <? start) eqn:Hts.
  - apply Z.ltb_lt in Hts. intros [= <-]. auto.
  - apply Z.ltb_ge in Hts. intros H. right. split; [assumption|].
    revert H.
    destruct (to_markdown (range start _)) as [[|first later]|];
      try (intros [= <-]; reflexivity).
    destruct (name_section _ start) as [title id].
    destruct (match find_next_header 1 later with
              | Some _ => _ | None => _ end) as [e0 n0].
    destruct (extend_search _ _ _ _ _ _) as [e [n|]];
      destruct (to_markdown (range start _));
      intros [= <-] || discriminate; reflexivity.
Qed.

(** The next start page lies beyond the start page, on every path. *)
Lemma extract_next_section_advances to_markdown start total la :
  start <= total ->
  start < snd (extract_next_section to_markdown start total la).
Proof.
  intros Hst.
  destruct (extract_next_section to_markdown start total la)
    as [[s|] next] eqn:H; cbn.
  - apply extract_next_section_some in H. lia.
  - apply extract_next_section_none in H. lia.
Qed.

(** *** The text of a scanned section *)

Lemma combine_from_truthy l : forall acc,
  truthy acc = true ->
  fold_left combine_step l acc = join (nl ++ nl) (acc :: map get_text l).
Proof.
  induction l as [|pd l IH]; intros acc Hacc; [reflexivity|].
  cbn [fold_left map]. unfold combine_step at 2. rewrite Hacc.
  change (acc ++ nl ++ nl ++ get_text pd)
    with (acc ++ (nl ++ nl) ++ get_text pd).
  rewrite IH.
  - apply PyStrFacts.join_cons_append.
  - apply PyStrFacts.truthy_append_r. reflexivity.
Qed.

(** The pages are joined by a blank line, the leading pages without text
    being passed over. *)
Lemma combine_pages_join l :
  combine_pages l = join (nl ++ nl) (drop_empty (map get_text l)).
Proof.
  unfold combine_pages. induction l as [|pd l IH]; [reflexivity|].
  cbn [fold_left map drop_empty]. unfold combine_step at 2. cbn [truthy].
  destruct (truthy (get_text pd)) eqn:Ht.
  - now apply combine_from_truthy.
  - apply PyStrFacts.truthy_false in Ht. rewrite Ht. exact IH.
Qed.


(** *** Scanning a well-behaved renderer *)

Lemma render_pages_chunks text_of pages :
  render_pages text_of pages = Some (map (chunk_of text_of) pages).
Proof. reflexivity. Qed.

Lemma find_append {A} (f : A -> bool) (l1 l2 : list A) :
  find f (l1 ++ l2)
  = match find f l1 with Some x => Some x | None => find f l2 end.
Proof.
  induction l1 as [|x l1 IH]; cbn; [reflexivity|].
  destruct (f x); [reflexivity | exact IH].
Qed.

Lemma find_range f a b p :
  find f (range a b) = Some p -> a <= p < b /\ f p = true.
Proof.
  intros H. apply find_some in H. destruct H as [Hin Hf].
  apply range_In in Hin. auto.
Qed.

(** The scan of the first batch finds the first page with a header. *)
Lemma find_next_header_rendered text_of a b :
  forall i,
    find_next_header i (map (chunk_of text_of) (range a b))
    = option_map (fun p => i + (p - a))
        (find (fun p => has_header (text_of p)) (range a b)).
Proof.
  pattern a, b. apply range_ind; clear a b.
  - intros a b Hba i. now rewrite (range_nil a b Hba).
  - intros a b Hab IH i. rewrite (range_cons a b Hab).
    cbn [map find find_next_header chunk_of get_text pd_text].
    destruct (has_header (text_of a)).
    + cbn. f_equal. lia.
    + rewrite IH.
      destruct (find _ (range (a + 1) b)); cbn; [f_equal; lia | reflexivity].
Qed.

(** So does the scan of the extension, which leaves the section end on the
    page before the header. *)
Lemma scan_extended_rendered text_of a b :
  forall e,
    e = a - 1 ->
    let r := scan_extended (range a b)
               (map (chunk_of text_of) (range a b)) e in
    snd r = find (fun p => has_header (text_of p)) (range a b)
    /\ (forall p, snd r = Some p -> fst r = p - 1).
Proof.
  pattern a, b. apply range_ind; clear a b.
  - intros a b Hba e He. rewrite (range_nil a b Hba). cbn.
    split; [reflexivity | discriminate].
  - intros a b Hab IH e He. rewrite (range_cons a b Hab).
    cbn [map find scan_extended chunk_of get_text pd_text].
    destruct (has_header (text_of a)).
    + cbn. split; [reflexivity|]. intros p [= <-]. exact He.
    + apply IH. lia.
Qed.

(** The extension, on a well-behaved renderer: the first page with a
    header among the pages after the first batch, 20 at most. *)
Lemma extend_search_rendered text_of start total batch hi :
  hi = Z.min total (start + batch + 19) ->
  let r := extend_search (render_pages text_of) start total batch
             (start + batch - 1) None in
  snd r = find (fun p => has_header (text_of p)) (range (start + batch) (hi + 1))
  /\ (forall p, snd r = Some p -> fst r = p - 1).
Proof.
  intros Hhi. unfold extend_search. rewrite Z.eqb_refl. cbn [andb].
  destruct (start + batch - 1 <? total) eqn:Hlt.
  - apply Z.ltb_lt in Hlt.
    replace (start + batch - 1 + 1) with (start + batch) by lia.
    replace (Z.min (total + 1) (start + batch - 1 + 21)) with (hi + 1) by lia.
    destruct (range (start + batch) (hi + 1)) as [|p ps] eqn:Hr.
    + cbn. split; [reflexivity | discriminate].
    + rewrite <- Hr. rewrite render_pages_chunks.
      apply scan_extended_rendered. lia.
  - apply Z.ltb_ge in Hlt. rewrite range_nil by lia. cbn.
    split; [reflexivity | discriminate].
Qed.

(** The boundary found by [extract_next_section] on a well-behaved
    renderer. *)
Lemma extract_next_section_rendered text_of start total la :
  start <= total -> 1 <= la ->
  exists s,
    extract_next_section (render_pages text_of) start total la
    = (Some s,
       match visible_boundary text_of start total la with
       | Some p => p
       | None => total + 1
       end)
    /\ start_page s = start
    /\ end_page s
       = match visible_boundary text_of start total la with
         | Some p => p - 1
         | None => total
         end
    /\ (section_title s, section_id s)
       = name_section (find_section_header_in_text (text_of start)) start
    /\ content s
       = combine_pages
           (map (chunk_of text_of) (range start (end_page s + 1))).
Proof.
  intros Hst Hla. unfold extract_next_section.
  destruct (total <? start) eqn:Hlt; [apply Z.ltb_lt in Hlt; lia|]. clear Hlt.
  set (batch := Z.min la (total - start + 1)).
  assert (Hb : 1 <= batch <= total - start + 1) by (unfold batch; lia).
  rewrite render_pages_chunks.
  rewrite (range_cons start (start + batch)) by lia.
  cbn [map]. cbn [List.length]. rewrite length_map, range_length.
  replace (Z.of_nat (S (Z.to_nat (start + batch - (start + 1)))))
    with batch by lia.
  cbn [chunk_of get_text pd_text].
  destruct (name_section _ start) as [title id] eqn:Hname.
  rewrite find_next_header_rendered.
  set (hdr := fun p => has_header (text_of p)).
  unfold visible_boundary, first_header_page. fold hdr.
  set (limit := Z.min total (start + la + 19)).
  assert (Hsplit : range (start + 1) (limit + 1)
                   = (range (start + 1) (start + batch)
                      ++ range (start + batch) (limit + 1))%list)
    by (symmetry; apply range_app; unfold limit; lia).
  rewrite Hsplit, find_append.
  destruct (find hdr (range (start + 1) (start + batch))) as [p|] eqn:Hp.
  - cbn [option_map extend_search].
    rewrite !render_pages_chunks.
    replace (start + (1 + (p - (start + 1))) - 1) with (p - 1) by lia.
    replace (start + (1 + (p - (start + 1)))) with p by lia.
    eexists. split; [reflexivity|].
    cbn [start_page end_page section_title section_id content]. auto.
  - cbn [option_map].
    assert (Hsame : range (start + batch) (limit + 1)
                    = range (start + batch)
                        (Z.min total (start + batch + 19) + 1)).
    { destruct (Z.eq_dec batch la) as [->|Hne]; [reflexivity|].
      rewrite !range_nil by (unfold limit; lia). reflexivity. }
    rewrite Hsame.
    destruct (extend_search_rendered text_of start total batch _ eq_refl)
      as [Hsnd Hfst].
    destruct (extend_search _ _ _ _ _ _) as [e n]. cbn [fst snd] in Hsnd, Hfst.
    fold hdr in Hsnd. rewrite <- Hsnd. destruct n as [p|].
    + rewrite (Hfst p eq_refl), render_pages_chunks.
      eexists. split; [reflexivity|].
      cbn [start_page end_page section_title section_id content]. auto.
    + rewrite render_pages_chunks.
      eexists. split; [reflexivity|].
      cbn [start_page end_page section_title section_id content]. auto.
Qed.

Lemma find_range_first f a b p :
  find f (range a b) = Some p -> forall q, a <= q < p -> f q = false.
Proof.
  revert p. pattern a, b. apply range_ind; clear a b.
  - intros a b Hba p. now rewrite (range_nil a b Hba).
  - intros a b Hab IH p. rewrite (range_cons a b Hab). cbn [find].
    destruct (f a) eqn:Hfa.
    + intros [= <-] q Hq. lia.
    + intros Hp q Hq. destruct (Z.eq_dec q a) as [->|Hne]; [exact Hfa|].
      apply (IH p Hp). lia.
Qed.

Lemma find_range_none f a b :
  find f (range a b) = None -> forall q, a <= q < b -> f q = false.
Proof.
  intros H q Hq. apply (find_none _ _ H). now apply range_In.
Qed.

(** What the visible boundary is, in terms of the pages. *)
Lemma visible_boundary_some text_of start total la p :
  visible_boundary text_of start total la = Some p ->
  start < p <= Z.min total (start + la + 19)
  /\ has_header (text_of p) = true
  /\ (forall q, start < q < p -> has_header (text_of q) = false).
Proof.
  unfold visible_boundary, first_header_page. intros H.
  destruct (find_range _ _ _ _ H) as [Hr Hp].
  split; [lia|]. split; [exact Hp|].
  intros q Hq.
  apply (find_range_first (fun p => has_header (text_of p)) _ _ _ H). lia.
Qed.

Lemma visible_boundary_none text_of start total la :
  visible_boundary text_of start total la = None ->
  forall q, start < q <= Z.min total (start + la + 19) ->
            has_header (text_of q) = false.
Proof.
  unfold visible_boundary, first_header_page. intros H q Hq.
  apply (find_range_none (fun p => has_header (text_of p)) _ _ H). lia.
Qed.

(** The first marked page after [start], when it lies within reach, is the
    visible boundary. *)
Lemma visible_boundary_first text_of start total la p :
  start < p <= Z.min total (start + la + 19) ->
  has_header (text_of p) = true ->
  (forall q, start < q < p -> has_header (text_of q) = false) ->
  visible_boundary text_of start total la = Some p.
Proof.
  intros Hp Hhdr Hfirst.
  destruct (visible_boundary text_of start total la) as [p'|] eqn:Hv.
  - destruct (visible_boundary_some _ _ _ _ _ Hv) as (Hr & Hh & Hf).
    f_equal. destruct (Z.lt_trichotomy p p') as [Hlt | [Heq | Hgt]].
    + rewrite Hf in Hhdr by lia. discriminate.
    + now symmetry.
    + rewrite Hfirst in Hh by lia. discriminate.
  - rewrite (visible_boundary_none _ _ _ _ Hv p) in Hhdr by lia.
    discriminate.
Qed.

(** C4, as stated, fails: in a 100-page document with heading markers on
    pages 1 and 50, the scan from page 1 with a look-ahead of 20 pages
    looks at pages 1 to 40 only; the section absorbs the pages through 100
    and the next start is 101, although page 50 carries a marker. *)
Lemma single_extension_counterexample :
  let text_of := headed_on [1; 50] in
  let r := extract_next_section (render_pages text_of) 1 100 20 in
  option_map end_page (fst r) = Some 100
  /\ snd r = 101
  /\ has_header (text_of 50) = true.
Proof. vm_compute. auto. Qed.

(** C4, amended.  On a renderer that returns every requested page, a scan
    from [start] with look-ahead [la] looks for the boundary on the pages
    after [start] up to [limit = min (total, start + la + 19)]: the first
    batch and, when the batch stops before [total] without a marker, one
    extension of at most 20 pages, which is not repeated.  If a page in
    that reach carries a marker, the first such page [p] is the next start
    and the section ends on [p - 1]; otherwise the section absorbs all
    pages through [total] and the next start is [total + 1], whatever the
    pages beyond [limit] carry. *)
Theorem boundary_search_extends_once :
  forall text_of start total la,
    1 <= start <= total ->
    1 <= la ->
    let limit := Z.min total (start + la + 19) in
    exists s next,
      extract_next_section (render_pages text_of) start total la
      = (Some s, next)
      /\ ((exists p,
              start < p <= limit
              /\ has_header (text_of p) = true
              /\ (forall q, start < q < p -> has_header (text_of q) = false)
              /\ end_page s = p - 1
              /\ next = p)
          \/ ((forall q, start < q <= limit ->
                         has_header (text_of q) = false)
              /\ end_page s = total
              /\ next = total + 1)).
Proof.
  intros text_of start total la Hst Hla limit.
  destruct (extract_next_section_rendered text_of start total la)
    as (s & Hx & _ & Hend & _); [lia | lia |].
  exists s. eexists. split; [exact Hx|].
  destruct (visible_boundary text_of start total la) as [p|] eqn:Hv.
  - left. exists p.
    destruct (visible_boundary_some _ _ _ _ _ Hv) as (Hr & Hh & Hf).
    auto 6.
  - right. split; [|auto].
    apply (visible_boundary_none _ _ _ _ Hv).
Qed.

Lemma boundary_search_extends_once_witness :
  let text_of := headed_on [1; 50] in
  let limit := Z.min 100 (1 + 20 + 19) in
  exists s next,
    extract_next_section (render_pages text_of) 1 100 20 = (Some s, next)
    /\ ((exists p,
            1 < p <= limit
            /\ has_header (text_of p) = true
            /\ (forall q, 1 < q < p -> has_header (text_of q) = false)
            /\ end_page s = p - 1
            /\ next = p)
        \/ ((forall q, 1 < q <= limit -> has_header (text_of q) = false)
            /\ end_page s = 100
            /\ next = 100 + 1)).
Proof.
  apply (boundary_search_extends_once (headed_on [1; 50]) 1 100 20); lia.
Defined.

(** *** The loop of [extract_all_sections] *)

(** A proof rule for the loop: [P] holds whenever the loop body is
    entered, [Q] holds of the state the loop ends in; neither depends on
    the disk, nor [Q] on the exception that left the loop. *)
Lemma scan_loop_rule (P Q : loop_state -> Prop)
    to_markdown total output_dir pdf_name :
  (forall st d, P st -> P (on_disk d st)) ->
  (forall st e, Q st -> Q (raised e st)) ->
  (forall st, P st -> Q st) ->
  (forall st section next,
      P st -> st_current_page st <= total ->
      extract_next_section to_markdown (st_current_page st) total 20
      = (Some section, next) ->
      let st1 := record_section st section next output_dir pdf_name in
      Q st1 /\ (st_section_count st1 <= 100 -> P st1)) ->
  forall fuel st st',
    P st ->
    scan_loop fuel to_markdown total output_dir pdf_name st = Some st' ->
    Q st'.
Proof.
  intros Hdisk Hraised HPQ Hstep.
  induction fuel as [|fuel IH]; intros st st' HP; cbn [scan_loop].
  - discriminate.
  - destruct (st_current_page st <=? total) eqn:Hcur.
    + apply Z.leb_le in Hcur.
      destruct (extract_next_section _ _ _ _) as [[section|] next] eqn:Hx.
      * destruct (try_save_section _ _ _ _) as [e|d].
        -- intros [= <-]. auto.
        -- destruct (Hstep (on_disk d st) section next (Hdisk st d HP) Hcur Hx)
             as [HQ1 HP1].
           cbv zeta. destruct (100 <? _) eqn:Hc.
           ++ intros [= <-]. exact HQ1.
           ++ apply Z.ltb_ge in Hc. apply IH. auto.
      * intros [= <-]. auto.
    + intros [= <-]. auto.
Qed.

Lemma record_section_fields st section next output_dir pdf_name :
  let st1 := record_section st section next output_dir pdf_name in
  st_sections st1
  = (st_sections st
     ++ [summarize section
           (fst (save_section_immediately section output_dir pdf_name))])%list
  /\ st_written st1
     = (st_written st
        ++ [save_section_immediately section output_dir pdf_name])%list
  /\ st_current_page st1 = next
  /\ st_section_count st1 = st_section_count st + 1.
Proof. cbn. auto. Qed.

Lemma record_section_count st section next output_dir pdf_name :
  st_section_count (record_section st section next output_dir pdf_name)
  = st_section_count st + 1.
Proof. reflexivity. Qed.

Lemma record_section_page st section next output_dir pdf_name :
  st_current_page (record_section st section next output_dir pdf_name) = next.
Proof. reflexivity. Qed.

(** The loop body runs at most [101 - section_count] times. *)
Lemma scan_loop_returns_by_count to_markdown total output_dir pdf_name :
  forall fuel st,
    st_section_count st <= 100 ->
    (Z.to_nat (101 - st_section_count st) <= fuel)%nat ->
    exists st',
      scan_loop fuel to_markdown total output_dir pdf_name st = Some st'.
Proof.
  induction fuel as [|fuel IH]; intros st Hc Hf; [lia|]. cbn [scan_loop].
  destruct (st_current_page st <=? total); [|eauto].
  destruct (extract_next_section _ _ _ _) as [[section|] next]; [|eauto].
  destruct (try_save_section _ _ _ _) as [e|d]; [eauto|]. cbv zeta.
  destruct (100 <? _) eqn:Hlt; [eauto|].
  apply Z.ltb_ge in Hlt. apply IH; [exact Hlt|].
  rewrite record_section_count in *. cbn [on_disk st_section_count] in *. lia.
Qed.

(** The cursor moves forward at every turn, so the loop also ends for lack
    of pages. *)
Lemma scan_loop_returns_by_pages to_markdown total output_dir pdf_name :
  forall fuel st,
    (Z.to_nat (total - st_current_page st + 1) < fuel)%nat ->
    exists st',
      scan_loop fuel to_markdown total output_dir pdf_name st = Some st'
      /\ st_current_page st <= st_current_page st'.
Proof.
  induction fuel as [|fuel IH]; intros st Hf; [lia|]. cbn [scan_loop].
  destruct (st_current_page st <=? total) eqn:Hcur;
    [|exists st; split; [reflexivity | lia]].
  apply Z.leb_le in Hcur.
  pose proof (extract_next_section_advances to_markdown _ _ 20 Hcur) as Hadv.
  destruct (extract_next_section _ _ _ _) as [[section|] next];
    [|exists st; split; [reflexivity | lia]].
  cbn [snd] in Hadv.
  destruct (try_save_section _ _ _ _) as [e|d];
    [exists (raised e st); split; [reflexivity | cbn; lia]|].
  cbv zeta. destruct (100 <? _).
  - eexists. split; [reflexivity|]. rewrite record_section_page. lia.
  - destruct (IH (record_section (on_disk d st) section next output_dir
                    pdf_name))
      as (st' & Hst' & Hle); [rewrite record_section_page; lia|].
    exists st'. split; [exact Hst'|].
    rewrite record_section_page in Hle. lia.
Qed.

(** More fuel does not change the result. *)
Lemma scan_loop_more_fuel to_markdown total output_dir pdf_name :
  forall fuel fuel' st st',
    (fuel <= fuel')%nat ->
    scan_loop fuel to_markdown total output_dir pdf_name st = Some st' ->
    scan_loop fuel' to_markdown total output_dir pdf_name st = Some st'.
Proof.
  induction fuel as [|fuel IH]; intros fuel' st st' Hle; cbn; [discriminate|].
  destruct fuel' as [|fuel']; [lia|]. cbn.
  destruct (st_current_page st <=? total); [|auto].
  destruct (extract_next_section _ _ _ _) as [[section|] next]; [|auto].
  destruct (try_save_section _ _ _ _) as [e|d]; [auto|]. cbv zeta.
  destruct (100 <? _); [auto|]. apply IH. lia.
Qed.

(** C10.  For every call of [extract_next_section] with
    [1 <= start_page <= total_pages] the returned next start page is
    greater than [start_page], whatever the renderer does; when no section
    is returned it is [start_page + 1], and when a section is returned it
    lies beyond the section's last page.  The cursor of the loop in
    [extract_all_sections] therefore never moves back, and the loop returns
    as soon as the fuel exceeds the number of pages left. *)
Theorem next_start_page_advances :
  (forall to_markdown start_page total_pages look_ahead_pages,
      1 <= start_page <= total_pages ->
      let r :=
        extract_next_section to_markdown start_page total_pages
          look_ahead_pages in
      start_page < snd r
      /\ (fst r = None -> snd r = start_page + 1)
      /\ (forall s, fst r = Some s -> start_page <= end_page s < snd r))
  /\ (forall to_markdown total_pages output_dir pdf_name fuel st,
         (Z.to_nat (total_pages - st_current_page st + 1) < fuel)%nat ->
         exists st',
           scan_loop fuel to_markdown total_pages output_dir pdf_name st
           = Some st'
           /\ st_current_page st <= st_current_page st').
Proof.
  split.
  - intros to_markdown start_page total_pages look_ahead_pages Hs r.
    split; [apply extract_next_section_advances; lia|].
    subst r.
    destruct (extract_next_section _ _ _ _) as [[s|] next] eqn:H; cbn.
    + apply extract_next_section_some in H.
      split; [discriminate|]. intros s' [= <-]. lia.
    + apply extract_next_section_none in H.
      split; [intros _; lia | discriminate].
  - intros. now apply scan_loop_returns_by_pages.
Qed.

Lemma next_start_page_advances_witness :
  (let r := extract_next_section (render_pages (headed_on [1; 3])) 1 5 20 in
   1 < snd r
   /\ (fst r = None -> snd r = 1 + 1)
   /\ (forall s, fst r = Some s -> 1 <= end_page s < snd r))
  /\ (exists st',
         scan_loop 6 (render_pages (headed_on [1; 3])) 5 "output" "book"
           (initial_state fresh_disk 1)
         = Some st'
         /\ st_current_page (initial_state fresh_disk 1)
            <= st_current_page st').
Proof.
  split.
  - apply (proj1 next_start_page_advances
             (render_pages (headed_on [1; 3])) 1 5 20).
    lia.
  - apply (proj2 next_start_page_advances
             (render_pages (headed_on [1; 3])) 5 "output" "book" 6%nat
             (initial_state fresh_disk 1)).
    cbn. lia.
Defined.

(** *** The safety bound *)

Lemma scan_loop_count to_markdown total output_dir pdf_name fuel st st' :
  st_section_count st = Z.of_nat (List.length (st_sections st)) ->
  st_section_count st <= 100 ->
  scan_loop fuel to_markdown total output_dir pdf_name st = Some st' ->
  st_section_count st' = Z.of_nat (List.length (st_sections st'))
  /\ st_section_count st' <= 101.
Proof.
  intros Hlen Hle.
  apply (scan_loop_rule
           (fun st => st_section_count st
                      = Z.of_nat (List.length (st_sections st))
                      /\ st_section_count st <= 100)
           (fun st => st_section_count st
                      = Z.of_nat (List.length (st_sections st))
                      /\ st_section_count st <= 101)).
  - intros s d H. exact H.
  - intros s e H. exact H.
  - intros s [H1 H2]. split; [exact H1 | lia].
  - intros s section next [H1 H2] _ _ st1.
    destruct (record_section_fields s section next output_dir pdf_name)
      as (Hs & _ & _ & Hc). fold st1 in Hs, Hc.
    rewrite Hc, Hs, length_app. cbn [List.length]. lia.
  - auto.
Qed.

(** *** The outcome of a run *)

Lemma finish_success pdf_name output_dir total start st s written :
  finish pdf_name output_dir total start st = Success s written ->
  s = {| pdf_file := pdf_name;
         total_pages := total;
         summary_start_page := start;
         sections_found := Z.of_nat (List.length (st_sections st));
         sections := st_sections st;
         files_created :=
           (st_created_files st ++ [summary_path output_dir pdf_name])%list |}
  /\ written = st_written st
  /\ st_raised st = None
  /\ open_for_writing (st_disk st) (summary_path output_dir pdf_name) = None.
Proof.
  unfold finish, abort.
  destruct (st_raised st); [discriminate|].
  destruct (open_for_writing _ _); [discriminate|].
  intros [= <- <-]. auto.
Qed.

(** The outcome of a run whose loop ended in [st]. *)
Lemma extract_all_sections_finish fuel doc d start output_dir o :
  pdf_exists doc = true ->
  page_count doc <> 0 ->
  extract_all_sections fuel doc d start output_dir = Some o ->
  exists st,
    scan_loop fuel (to_markdown doc) (page_count doc) output_dir
      (pdf_name doc) (initial_state d start) = Some st
    /\ o = finish (pdf_name doc) output_dir (page_count doc) start st.
Proof.
  intros Hex Hpages. unfold extract_all_sections. rewrite Hex. cbn [negb].
  destruct (page_count doc =? 0) eqn:Hz; [apply Z.eqb_eq in Hz; lia|].
  destruct (scan_loop fuel _ _ _ _ _) as [st|]; [|discriminate].
  intros [= <-]. eauto.
Qed.

(** A run that ends in a summary comes from an existing document with
    pages. *)
Lemma extract_all_sections_success fuel doc d start output_dir s written :
  extract_all_sections fuel doc d start output_dir = Some (Success s written) ->
  pdf_exists doc = true /\ page_count doc <> 0.
Proof.
  unfold extract_all_sections.
  destruct (pdf_exists doc); cbn [negb]; [|discriminate].
  destruct (page_count doc =? 0) eqn:Hz; [discriminate|].
  apply Z.eqb_neq in Hz. auto.
Qed.

(** On a disk where nothing raises a section is saved, and the output
    directory exists afterwards. *)
Lemma try_save_section_permissive d section output_dir pdf_name :
  permissive d ->
  exists d',
    try_save_section d section output_dir pdf_name = inr d'
    /\ permissive d' /\ dir_exists d' = true
    /\ (dir_exists d = true -> d' = d).
Proof.
  intros [Hmk Hop]. unfold try_save_section, makedirs, open_for_writing.
  destruct (dir_exists d) eqn:Hd.
  - rewrite Hd, Hop. exists d. repeat split; auto.
  - rewrite Hmk. cbn [with_directory dir_exists open_error]. rewrite Hop.
    exists (with_directory d). repeat split; auto; discriminate.
Qed.

(** On such a disk no exception leaves the loop, and once a section is
    saved the output directory exists. *)
Lemma scan_loop_permissive to_markdown total output_dir pdf_name :
  forall fuel st st',
    permissive (st_disk st) -> st_raised st = None ->
    scan_loop fuel to_markdown total output_dir pdf_name st = Some st' ->
    st_raised st' = None
    /\ permissive (st_disk st')
    /\ (st' = st
        \/ (dir_exists (st_disk st') = true /\ st_sections st' <> []
            /\ st_written st' <> [])).
Proof.
  induction fuel as [|fuel IH]; intros st st' Hd Hr; cbn [scan_loop];
    [discriminate|].
  destruct (st_current_page st <=? total); [|intros [= <-]; auto].
  destruct (extract_next_section _ _ _ _) as [[section|] next];
    [|intros [= <-]; auto].
  destruct (try_save_section_permissive (st_disk st) section output_dir
              pdf_name Hd) as (d' & -> & Hd' & Hdir & _).
  cbv zeta.
  set (st1 := record_section (on_disk d' st) section next output_dir pdf_name).
  assert (H1 : st_raised st1 = None /\ st_disk st1 = d'
               /\ st_sections st1 <> [] /\ st_written st1 <> []).
  { subst st1. unfold record_section.
    destruct (save_section_immediately _ _ _) as [section_file writes].
    cbn. repeat split; auto;
      [now destruct (st_sections st) | now destruct (st_written st)]. }
  destruct H1 as (Hr1 & Hd1 & Hs1 & Hw1).
  destruct (100 <? _).
  - intros [= <-]. rewrite Hd1.
    split; [exact Hr1|]. split; [exact Hd'|]. right. auto.
  - intros Hloop. apply IH in Hloop; [|rewrite Hd1; exact Hd' | exact Hr1].
    destruct Hloop as (Hr' & Hp' & [-> | H]);
      (split; [exact Hr'|]; split; [exact Hp'|]; right);
      [rewrite Hd1; auto | exact H].
Qed.

(** The outcome of a run on such a disk. *)
Lemma extract_all_sections_permissive fuel doc d start output_dir o :
  permissive d ->
  pdf_exists doc = true ->
  page_count doc <> 0 ->
  extract_all_sections fuel doc d start output_dir = Some o ->
  (exists s written, o = Success s written /\ (dir_exists d = false -> sections s <> []))
  \/ (dir_exists d = false
      /\ o = Aborted (pdf_name doc)
               (MissingDirectory (summary_path output_dir (pdf_name doc)))
               0 []).
Proof.
  intros Hd Hex Hpages Hrun.
  destruct (extract_all_sections_finish _ _ _ _ _ _ Hex Hpages Hrun)
    as (st & Hloop & ->).
  apply scan_loop_permissive in Hloop; [|exact Hd | reflexivity].
  destruct Hloop as (Hr & Hp & [-> | [Hdir Hne]]).
  - unfold finish, abort, open_for_writing.
    cbn [initial_state st_raised st_disk st_sections st_written List.length].
    destruct (dir_exists d) eqn:Hdd.
    + rewrite (proj2 Hd). left. eexists _, _. split; [reflexivity|].
      discriminate.
    + right. auto.
  - unfold finish, open_for_writing. rewrite Hr, Hdir, (proj2 Hp).
    left. eexists _, _. split; [reflexivity|]. intros _. apply Hne.
Qed.

(** On such a disk, a loop entered on a page of a document whose pages all
    render saves at least one section. *)
Lemma scan_loop_rendered text_of total output_dir pdf_name fuel st st' :
  st_current_page st <= total ->
  permissive (st_disk st) -> st_raised st = None ->
  scan_loop fuel (render_pages text_of) total output_dir pdf_name st
  = Some st' ->
  st_raised st' = None /\ permissive (st_disk st')
  /\ dir_exists (st_disk st') = true
  /\ st_sections st' <> [] /\ st_written st' <> [].
Proof.
  intros Hcur Hd Hr. destruct fuel as [|fuel]; cbn [scan_loop];
    [discriminate|].
  destruct (st_current_page st <=? total) eqn:Hle;
    [|apply Z.leb_gt in Hle; lia].
  destruct (extract_next_section_rendered text_of (st_current_page st) total
              20 Hcur ltac:(lia)) as (section & -> & _).
  destruct (try_save_section_permissive (st_disk st) section output_dir
              pdf_name Hd) as (d' & -> & Hd' & Hdir & _).
  cbv zeta.
  match goal with
  | |- context [record_section ?st0 section ?next output_dir pdf_name] =>
      set (st1 := record_section st0 section next output_dir pdf_name)
  end.
  assert (H1 : st_raised st1 = None /\ st_disk st1 = d'
               /\ st_sections st1 <> [] /\ st_written st1 <> []).
  { subst st1. unfold record_section.
    destruct (save_section_immediately _ _ _) as [section_file writes].
    cbn. repeat split; auto;
      [now destruct (st_sections st) | now destruct (st_written st)]. }
  destruct H1 as (Hr1 & Hd1 & Hs1 & Hw1).
  destruct (100 <? _).
  - intros [= <-]. rewrite Hd1. auto.
  - intros Hloop. apply scan_loop_permissive in Hloop;
      [|rewrite Hd1; exact Hd' | exact Hr1].
    destruct Hloop as (Hr' & Hp' & [-> | (H2 & H3 & H4)]);
      [rewrite Hd1|]; auto.
Qed.

(** The run of such a document ends with a summary that lists at least
    one section, when it starts on a page of the document. *)
Lemma extract_all_sections_rendered text_of total name d start output_dir :
  1 <= total -> start <= total ->
  permissive d ->
  exists s written,
    extract_all_sections enough_fuel
      {| pdf_exists := true; pdf_name := name; page_count := total;
         to_markdown := render_pages text_of |} d start output_dir
    = Some (Success s written)
    /\ sections s <> [] /\ written <> [].
Proof.
  intros Htotal Hstart Hd. unfold extract_all_sections.
  cbn [negb pdf_exists page_count to_markdown pdf_name].
  destruct (total =? 0) eqn:Hz; [apply Z.eqb_eq in Hz; lia|].
  destruct (scan_loop_returns_by_count (render_pages text_of) total
              output_dir name enough_fuel (initial_state d start))
    as (st' & Hloop);
    [cbn [initial_state st_section_count]; lia
    | cbn [initial_state st_section_count]; unfold enough_fuel; lia |].
  rewrite Hloop.
  apply scan_loop_rendered in Hloop; [|exact Hstart | exact Hd | reflexivity].
  destruct Hloop as (Hr & Hp & Hde & Hs & Hw).
  unfold finish, open_for_writing.
  rewrite Hr, Hde, (proj2 Hp). eexists _, _. split; [reflexivity|].
  cbn [sections]. auto.
Qed.

(** C6, as stated, fails: on a 150-page document with a heading marker on
    every page the run writes 101 sections, one more than 100, each of one
    page. *)
Lemma safety_bound_counterexample :
  option_map (@List.length (Z * Z))
    (scan_ranges
       (extract_all_sections enough_fuel
          (scan_pdf 150 (render_pages every_page_headed)) fresh_disk 1
          "output"))
  = Some 101%nat.
Proof. vm_compute. reflexivity. Qed.

(** C6, amended.  A scan-strategy run always returns with the fuel
    [enough_fuel]; the number of sections that a summary reports is the
    number of sections it lists and never exceeds 101, the loop stopping
    once the count is greater than 100.  On a disk where nothing raises,
    the run of a readable document of at least one page ends with the
    summary, whose status is success, also when the bound stopped the run;
    the one exception is a run that saved no section while the output
    directory does not exist: it ends with the failure result, zero
    sections processed.  The summary has no field for a warning. *)
Theorem section_count_bounded :
  (forall doc d start_page output_dir,
      exists o,
        extract_all_sections enough_fuel doc d start_page output_dir = Some o)
  /\ (forall fuel doc d start_page output_dir s written,
         extract_all_sections fuel doc d start_page output_dir
         = Some (Success s written) ->
         sections_found s = Z.of_nat (List.length (sections s))
         /\ sections_found s <= 101)
  /\ (forall fuel doc d start_page output_dir o,
         permissive d ->
         pdf_exists doc = true ->
         page_count doc <> 0 ->
         extract_all_sections fuel doc d start_page output_dir = Some o ->
         (exists s written, o = Success s written)
         \/ (dir_exists d = false
             /\ o = Aborted (pdf_name doc)
                      (MissingDirectory
                         (summary_path output_dir (pdf_name doc)))
                      0 [])).
Proof.
  split; [|split].
  - intros doc d start_page output_dir. unfold extract_all_sections.
    destruct (negb (pdf_exists doc)); [eauto|].
    destruct (page_count doc =? 0); [eauto|].
    destruct (scan_loop_returns_by_count (to_markdown doc) (page_count doc)
                output_dir (pdf_name doc) enough_fuel
                (initial_state d start_page)) as (st' & ->);
      [cbn [initial_state st_section_count]; lia
      | cbn [initial_state st_section_count]; unfold enough_fuel; lia
      | eauto].
  - intros fuel doc d start_page output_dir s written Hrun.
    destruct (extract_all_sections_success _ _ _ _ _ _ _ Hrun)
      as [Hex Hpages].
    destruct (extract_all_sections_finish _ _ _ _ _ _ Hex Hpages Hrun)
      as (st' & Hloop & Hfin).
    apply scan_loop_count in Hloop; [|reflexivity | cbn; lia].
    symmetry in Hfin. apply finish_success in Hfin as (-> & _).
    cbn [sections_found sections]. lia.
  - intros fuel doc d start_page output_dir o Hd Hex Hpages Hrun.
    destruct (extract_all_sections_permissive _ _ _ _ _ _ Hd Hex Hpages Hrun)
      as [(s & written & -> & _) | H]; eauto.
Qed.

Lemma section_count_bounded_witness :
  exists s written,
    extract_all_sections enough_fuel
      (scan_pdf 5 (render_pages (headed_on [1; 3]))) fresh_disk 1 "output"
    = Some (Success s written)
    /\ sections_found s = Z.of_nat (List.length (sections s))
    /\ sections_found s <= 101.
Proof.
  destruct (proj1 section_count_bounded
              (scan_pdf 5 (render_pages (headed_on [1; 3]))) fresh_disk 1
              "output")
    as (o & Ho).
  destruct (proj2 (proj2 section_count_bounded) enough_fuel
              (scan_pdf 5 (render_pages (headed_on [1; 3]))) fresh_disk 1
              "output" o)
    as [(s & written & ->) | (_ & ->)];
    [split; reflexivity | reflexivity | cbn; lia | exact Ho | |
     vm_compute in Ho; discriminate Ho].
  exists s, written. split; [exact Ho|].
  apply (proj1 (proj2 section_count_bounded) enough_fuel
           (scan_pdf 5 (render_pages (headed_on [1; 3]))) fresh_disk 1
           "output" s written).
  exact Ho.
Defined.

(** *** A renderer failure *)


(** *** Sections of a run on a well-behaved renderer *)

Lemma consecutive_snoc from ms mid m :
  consecutive from ms mid ->
  sum_start_page m = mid -> mid <= sum_end_page m ->
  consecutive from (ms ++ [m]) (sum_end_page m + 1).
Proof.
  revert from. induction ms as [|m0 ms IH]; cbn; intros from H Hs He.
  - subst. auto.
  - destruct H as (H1 & H2 & H3). auto.
Qed.

Lemma consecutive_nth from ms stop :
  consecutive from ms stop ->
  forall i a b,
    nth_error ms i = Some a -> nth_error ms (S i) = Some b ->
    sum_start_page a <= sum_end_page a
    /\ sum_start_page b = sum_end_page a + 1.
Proof.
  revert from. induction ms as [|m0 ms IH]; intros from H i a b Ha Hb.
  - destruct i; discriminate.
  - destruct H as (H1 & H2 & H3). destruct i as [|i]; cbn in Ha.
    + injection Ha as <-. destruct ms as [|m1 ms]; [discriminate|].
      cbn in Hb. injection Hb as <-. cbn in H3. lia.
    + eapply IH; eauto.
Qed.

Lemma scan_loop_consecutive text_of total output_dir pdf_name fuel st st' from :
  consecutive from (st_sections st) (st_current_page st) ->
  scan_loop fuel (render_pages text_of) total output_dir pdf_name st
  = Some st' ->
  consecutive from (st_sections st') (st_current_page st').
Proof.
  apply (scan_loop_rule
           (fun st => consecutive from (st_sections st) (st_current_page st))
           (fun st => consecutive from (st_sections st) (st_current_page st))).
  - intros s0 d0 H0. exact H0.
  - intros s0 e0 H0. exact H0.
  - auto.
  - intros s section next HP Hcur Hx st1.
    assert (HP1 : consecutive from (st_sections st1) (st_current_page st1));
      [|auto].
    destruct (extract_next_section_rendered text_of (st_current_page s)
                total 20 Hcur ltac:(lia)) as (s' & Hx' & Hstart & Hend & _).
    rewrite Hx in Hx'. injection Hx' as <- Hnext.
    destruct (extract_next_section_some _ _ _ _ _ _ Hx) as (_ & _ & Hle & _).
    destruct (record_section_fields s section next output_dir pdf_name)
      as (Hs & _ & Hp & _). fold st1 in Hs, Hp.
    rewrite Hs, Hp.
    replace next with (end_page section + 1)
      by (rewrite Hnext, Hend; destruct (visible_boundary _ _ _ _); lia).
    apply (consecutive_snoc from (st_sections s) (st_current_page s)
             (summarize section
                (fst (save_section_immediately section output_dir pdf_name)))
             HP);
      [exact Hstart | exact Hle].
Qed.

(** C8.  On a renderer that returns every requested page, the scan of the
    window that starts at page [s] names the section after the heading
    marker of page [s] when there is one, and otherwise titles it
    ["Content starting at Page <s>"] with the id ["untitled_page_<s>"].
    The first later page [p] of the window that carries a heading marker
    is the boundary: the section ends on [p - 1] and the next section
    starts on [p].  In a run every section starts on the page after the
    previous one's end, so that no page belongs to two sections; with one
    marker on page 1 and two on page 3 a five-page document gives exactly
    the sections [1,2] and [3,5]. *)
Theorem first_marker_is_boundary :
  (forall text_of s total la,
      1 <= s <= total ->
      1 <= la ->
      exists sec next,
        extract_next_section (render_pages text_of) s total la
        = (Some sec, next)
        /\ start_page sec = s
        /\ match find_section_header_in_text (text_of s) with
           | Some (marker_title, _) => section_title sec = marker_title
           | None =>
               section_title sec
               = "Content starting at Page " ++ str_of_int s
               /\ section_id sec = "untitled_page_" ++ str_of_int s
           end
        /\ (forall p,
               s < p <= s + Z.min la (total - s + 1) - 1 ->
               has_header (text_of p) = true ->
               (forall q, s < q < p -> has_header (text_of q) = false) ->
               end_page sec = p - 1 /\ next = p))
  /\ (forall fuel text_of total name d start_page output_dir summary written,
         extract_all_sections fuel
           {| pdf_exists := true; pdf_name := name; page_count := total;
              to_markdown := render_pages text_of |} d start_page output_dir
         = Some (Success summary written) ->
         forall i a b,
           nth_error (sections summary) i = Some a ->
           nth_error (sections summary) (S i) = Some b ->
           sum_start_page a <= sum_end_page a
           /\ sum_start_page b = sum_end_page a + 1)
  /\ scan_ranges
       (extract_all_sections enough_fuel
          (scan_pdf 5 (render_pages twice_marked)) fresh_disk 1 "output")
     = Some [(1, 2); (3, 5)].
Proof.
  split; [|split].
  - intros text_of s total la Hs Hla.
    destruct (extract_next_section_rendered text_of s total la)
      as (sec & Hx & Hstart & Hend & Hname & _); [lia | lia |].
    exists sec. eexists. split; [exact Hx|]. split; [exact Hstart|]. split.
    + unfold name_section in Hname.
      destruct (find_section_header_in_text (text_of s)) as [[t i]|];
        injection Hname as Htitle Hid; auto.
    + intros p Hp Hhdr Hfirst.
      assert (Hv : visible_boundary text_of s total la = Some p)
        by (apply visible_boundary_first; [lia | exact Hhdr | exact Hfirst]).
      rewrite Hend, Hv. auto.
  - intros fuel text_of total name d start_page output_dir summary written.
    unfold extract_all_sections.
    cbn [negb pdf_exists page_count to_markdown pdf_name].
    destruct (total =? 0); [discriminate|].
    destruct (scan_loop fuel _ _ _ _ _) as [st'|] eqn:Hloop; [|discriminate].
    apply (scan_loop_consecutive _ _ _ _ _ _ _ start_page) in Hloop;
      [|reflexivity].
    intros [= Hfin]. apply ScanFacts.finish_success in Hfin as (-> & _). cbn [sections].
    eapply consecutive_nth, Hloop.
  - vm_compute. reflexivity.
Qed.

Lemma first_marker_is_boundary_witness :
  (exists sec next,
      extract_next_section (render_pages twice_marked) 1 5 20
      = (Some sec, next)
      /\ start_page sec = 1
      /\ match find_section_header_in_text (twice_marked 1) with
         | Some (marker_title, _) => section_title sec = marker_title
         | None =>
             section_title sec = "Content starting at Page " ++ str_of_int 1
             /\ section_id sec = "untitled_page_" ++ str_of_int 1
         end
      /\ (forall p,
             1 < p <= 1 + Z.min 20 (5 - 1 + 1) - 1 ->
             has_header (twice_marked p) = true ->
             (forall q, 1 < q < p -> has_header (twice_marked q) = false) ->
             end_page sec = p - 1 /\ next = p))
  /\ (exists summary written a b,
         extract_all_sections enough_fuel
           (scan_pdf 5 (render_pages twice_marked)) fresh_disk 1 "output"
         = Some (Success summary written)
         /\ nth_error (sections summary) 0 = Some a
         /\ nth_error (sections summary) 1 = Some b
         /\ sum_start_page a <= sum_end_page a
         /\ sum_start_page b = sum_end_page a + 1).
Proof.
  split.
  - apply (proj1 first_marker_is_boundary twice_marked 1 5 20); lia.
  - eexists _, _, _, _.
    split; [vm_compute; reflexivity|].
    split; [reflexivity|]. split; [reflexivity|].
    refine (proj1 (proj2 first_marker_is_boundary) enough_fuel twice_marked
              5 "book" fresh_disk 1 "output" _ _ _ 0%nat _ _ _ _).
    + vm_compute. reflexivity.
    + reflexivity.
    + reflexivity.
Defined.

End ScanFacts.

(** ** Texts, counts and fallback, across the two strategies *)

Module Runs.

Import PyStr.

Lemma fold_left_invariant {A B} (f : A -> B -> A) (P : A -> Prop) l :
  (forall a b, P a -> P (f a b)) ->
  forall a, P a -> P (fold_left f l a).
Proof.
  intros Hstep. induction l as [|b l IH]; intros a Ha; cbn; auto.
Qed.

(** C9, as stated, fails: the outline strategy renders the two-page
    document whose pages read ["a"] and ["b"] as one section with the text
    ["a\nb"], the pages being separated by a single newline and not by a
    blank line. *)
Lemma blank_line_join_counterexample :
  option_map Toc.sc_text
    (Toc.extract_section_content (render_pages two_pages) (whole_document 2))
  = Some ("a" ++ nl ++ "b")
  /\ "a" ++ nl ++ "b" <> join (nl ++ nl) (map two_pages (range 1 3)).
Proof. split; [reflexivity | discriminate]. Qed.

(** C9, amended.  In the scan strategy the text of a returned section is
    the texts of the pages of its final rendering joined by a blank line
    (two newlines), the leading pages with empty text being passed over
    without a separator.  In the outline strategy the text of a rendered
    section is the texts of its pages, each followed by a single newline,
    put end to end and then stripped of leading and trailing
    whitespace. *)
Theorem section_text_joined :
  (forall to_markdown start total la s next,
      Scan.extract_next_section to_markdown start total la = (Some s, next) ->
      exists final_result,
        to_markdown (range (Scan.start_page s) (Scan.end_page s + 1))
        = Some final_result
        /\ Scan.content s
           = join (nl ++ nl) (drop_empty (map get_text final_result)))
  /\ (forall to_markdown section c,
         Toc.extract_section_content to_markdown section = Some c ->
         exists result,
           to_markdown
             (range (Toc.start_page section) (Toc.end_page section + 1))
           = Some result
           /\ Toc.sc_text c
              = strip (newline_terminated (map get_text result))).
Proof.
  split.
  - intros to_markdown start total la s next H.
    apply ScanFacts.extract_next_section_some in H.
    destruct H as (_ & Hstart & _ & _ & _ & _ & _ & final & Hfin & Hcontent).
    exists final. rewrite Hstart. split; [exact Hfin|].
    rewrite Hcontent. apply ScanFacts.combine_pages_join.
  - intros to_markdown section c H.
    apply TocFacts.extract_section_content_some in H.
    destruct H as (result & Hres & Htext & _). eauto.
Qed.

Lemma section_text_joined_witness :
  (exists s next,
      Scan.extract_next_section (render_pages two_pages) 1 2 20
      = (Some s, next)
      /\ exists final_result,
           render_pages two_pages
             (range (Scan.start_page s) (Scan.end_page s + 1))
           = Some final_result
           /\ Scan.content s
              = join (nl ++ nl) (drop_empty (map get_text final_result)))
  /\ (exists c,
         Toc.extract_section_content (render_pages two_pages)
           (whole_document 2)
         = Some c
         /\ exists result,
              render_pages two_pages
                (range (Toc.start_page (whole_document 2))
                   (Toc.end_page (whole_document 2) + 1))
              = Some result
              /\ Toc.sc_text c
                 = strip (newline_terminated (map get_text result))).
Proof.
  split.
  - eexists _, _. split; [vm_compute; reflexivity|].
    eapply (proj1 section_text_joined (render_pages two_pages) 1 2 20).
    vm_compute. reflexivity.
  - eexists. split; [vm_compute; reflexivity|].
    eapply (proj2 section_text_joined (render_pages two_pages)
              (whole_document 2)).
    vm_compute. reflexivity.
Defined.

(** *** Counts *)

Lemma scan_section_consistent to_markdown start total la section next
    output_dir pdf_name :
  Scan.extract_next_section to_markdown start total la
  = (Some section, next) ->
  scan_artifact_consistent
    (Scan.summarize section
       (fst (Scan.save_section_immediately section output_dir pdf_name)))
    (Scan.save_section_immediately section output_dir pdf_name).
Proof.
  intros H. apply ScanFacts.extract_next_section_some in H.
  destruct H as (_ & _ & _ & _ & _ & Hchars & Hwords & _).
  split; [reflexivity|]. exists (Scan.content section).
  split; [|split; assumption].
  unfold artifact_records. split; [reflexivity|]. split; [reflexivity|].
  eexists [_; _; _; _; _]. reflexivity.
Qed.

Lemma scan_loop_artifacts to_markdown total output_dir pdf_name fuel st st' :
  Forall2 scan_artifact_consistent (Scan.st_sections st) (Scan.st_written st) ->
  Scan.scan_loop fuel to_markdown total output_dir pdf_name st = Some st' ->
  Forall2 scan_artifact_consistent
    (Scan.st_sections st') (Scan.st_written st').
Proof.
  apply (ScanFacts.scan_loop_rule
           (fun st => Forall2 scan_artifact_consistent
                        (Scan.st_sections st) (Scan.st_written st))
           (fun st => Forall2 scan_artifact_consistent
                        (Scan.st_sections st) (Scan.st_written st))).
  - intros s0 d0 H0. exact H0.
  - intros s0 e0 H0. exact H0.
  - auto.
  - intros s section next HP _ Hx st1.
    assert (HP1 : Forall2 scan_artifact_consistent
                    (Scan.st_sections st1) (Scan.st_written st1)); [|auto].
    destruct (ScanFacts.record_section_fields s section next output_dir
                pdf_name) as (Hs & Hw & _). fold st1 in Hs, Hw.
    rewrite Hs, Hw. apply Forall2_app; [exact HP|].
    constructor; [|constructor].
    eapply scan_section_consistent, Hx.
Qed.

Lemma toc_section_consistent to_markdown section c output_dir pdf_name :
  Toc.extract_section_content to_markdown section = Some c ->
  toc_artifact_consistent to_markdown
    (Toc.describe c
       (fst (Toc.save_section_immediately c output_dir pdf_name)))
    (Toc.save_section_immediately c output_dir pdf_name).
Proof.
  intros H. apply TocFacts.extract_section_content_some in H.
  destruct H as (result & Hres & Htext & Hchars & Hwords & Hstart & Hend).
  split; [reflexivity|]. exists (Toc.sc_text c), result.
  cbn [Toc.describe Toc.md_character_count Toc.md_word_count
       Toc.md_start_page Toc.md_end_page].
  rewrite Hstart, Hend. repeat split; try assumption; try reflexivity.
  eexists [_; _; _; _; _; _]. reflexivity.
Qed.

Lemma toc_step_artifacts to_markdown output_dir pdf_name st section :
  Forall2 (toc_artifact_consistent to_markdown)
    (Toc.st_metadata st) (Toc.st_written st) ->
  let st1 := Toc.extract_step to_markdown output_dir pdf_name st section in
  Forall2 (toc_artifact_consistent to_markdown)
    (Toc.st_metadata st1) (Toc.st_written st1).
Proof.
  intros HP. unfold Toc.extract_step.
  destruct (Toc.st_raised st); [exact HP|].
  destruct (Toc.extract_section_content to_markdown section) as [c|] eqn:Hc;
    [|exact HP].
  destruct (Toc.try_save_section _ _ _ _) as [e|d]; [exact HP|].
  cbn. apply Forall2_app; [exact HP|]. constructor; [|constructor].
  apply (toc_section_consistent _ _ _ output_dir pdf_name Hc).
Qed.

(** C3, as stated, fails: the outline strategy renders the two-page
    document whose pages read ["a"] and ["b"] as a section whose file ends
    with the text ["a\nb"], of length 3 and of two words, and records 2
    characters, the total length of the two pages. *)
Lemma character_count_counterexample :
  toc_recorded
    (Toc.extract_sections_by_toc
       (toc_pdf [entry_at 1] 2 (render_pages two_pages)) fresh_disk "output"
       0 None)
  = [(2, 2, "a" ++ nl ++ "b")]
  /\ len ("a" ++ nl ++ "b") = 3
  /\ count_words ("a" ++ nl ++ "b") = 2.
Proof. vm_compute. auto. Qed.

(** C3, amended.  In a scan-strategy run every listed section has its
    file, which records the listed character and word counts in its
    metadata block and ends with a text whose length is the character
    count and whose number of whitespace-delimited words is the word
    count.  In an outline-strategy run every listed section has its file
    likewise, the word count is the number of whitespace-delimited words
    of the written text, and the character count is the total length of
    the texts of the section's pages as rendered, which leaves out the
    newlines between the pages and keeps the whitespace stripped from the
    written text. *)
Theorem counts_match_written_text :
  (forall fuel doc d start_page output_dir s written,
      Scan.extract_all_sections fuel doc d start_page output_dir
      = Some (Scan.Success s written) ->
      Forall2 scan_artifact_consistent (Scan.sections s) written)
  /\ (forall doc d output_dir page_offset toc_levels s written,
         Toc.extract_sections_by_toc doc d output_dir page_offset toc_levels
         = Toc.Success s written ->
         Forall2 (toc_artifact_consistent (Toc.to_markdown doc))
           (Toc.sections s) written).
Proof.
  split.
  - intros fuel doc d start_page output_dir s written.
    unfold Scan.extract_all_sections.
    destruct (negb (Scan.pdf_exists doc)); [discriminate|].
    destruct (Scan.page_count doc =? 0); [discriminate|].
    destruct (Scan.scan_loop fuel _ _ _ _ _) as [st'|] eqn:Hloop;
      [|discriminate].
    apply scan_loop_artifacts in Hloop; [|constructor].
    intros [= Hfin].
    apply ScanFacts.finish_success in Hfin as (-> & -> & _). exact Hloop.
  - intros doc d output_dir page_offset toc_levels s written Hrun.
    apply TocFacts.extract_sections_by_toc_success in Hrun
      as (d0 & st & _ & -> & _ & _ & -> & ->).
    cbn [Toc.sections].
    apply (fold_left_invariant
             (Toc.extract_step (Toc.to_markdown doc) output_dir
                (Toc.pdf_name doc))
             (fun st => Forall2 (toc_artifact_consistent (Toc.to_markdown doc))
                          (Toc.st_metadata st) (Toc.st_written st))).
    + intros st section. apply toc_step_artifacts.
    + constructor.
Qed.

Lemma counts_match_written_text_witness :
  (exists s written,
      Scan.extract_all_sections Scan.enough_fuel
        (scan_pdf 5 (render_pages twice_marked)) fresh_disk 1 "output"
      = Some (Scan.Success s written)
      /\ Forall2 scan_artifact_consistent (Scan.sections s) written)
  /\ (exists s written,
         Toc.extract_sections_by_toc
           (toc_pdf [entry_at 1] 2 (render_pages two_pages)) fresh_disk
           "output" 0 None
         = Toc.Success s written
         /\ Forall2 (toc_artifact_consistent (render_pages two_pages))
              (Toc.sections s) written).
Proof.
  split.
  - eexists _, _. split; [vm_compute; reflexivity|].
    eapply (proj1 counts_match_written_text Scan.enough_fuel
              (scan_pdf 5 (render_pages twice_marked)) fresh_disk 1 "output").
    vm_compute. reflexivity.
  - eexists _, _. split; [vm_compute; reflexivity|].
    eapply (proj2 counts_match_written_text
              (toc_pdf [entry_at 1] 2 (render_pages two_pages)) fresh_disk
              "output" 0 None).
    vm_compute. reflexivity.
Defined.

(** *** An empty outline *)

(** C2, as stated, fails: for a five-page document without outline the
    outline strategy returns its error result and no section, although
    the scan strategy finds the sections [1,2] and [3,5] in it. *)
Lemma empty_outline_counterexample :
  let to_markdown := render_pages (headed_on [1; 3]) in
  Toc.extract_sections_by_toc (toc_pdf [] 5 to_markdown) fresh_disk "output"
    0 None
  = Toc.NoToc "No TOC found" 0
  /\ scan_ranges
       (Scan.extract_all_sections Scan.enough_fuel
          (scan_pdf 5 to_markdown) fresh_disk 1 "output")
     = Some [(1, 2); (3, 5)].
Proof. vm_compute. auto. Qed.

(** C2, amended.  For every existing document whose outline is empty, the
    outline strategy returns the error result ["No TOC found"] with zero
    sections extracted, whatever the renderer, the disk and the options:
    it raises nothing and returns neither a summary nor a written file.
    This is not the result of the scan strategy: for a document of at
    least one page whose pages all render, on a disk where nothing raises,
    the scan strategy returns a summary that lists at least one section
    and has written at least one file. *)
Theorem empty_outline_reports_no_toc :
  (forall doc d output_dir page_offset toc_levels,
      Toc.pdf_exists doc = true ->
      Toc.pdf_toc doc = [] ->
      Toc.extract_sections_by_toc doc d output_dir page_offset toc_levels
      = Toc.NoToc "No TOC found" 0)
  /\ (forall text_of total name d start_page output_dir,
         1 <= total ->
         start_page <= total ->
         permissive d ->
         exists s written,
           Scan.extract_all_sections Scan.enough_fuel
             {| Scan.pdf_exists := true; Scan.pdf_name := name;
                Scan.page_count := total;
                Scan.to_markdown := render_pages text_of |}
             d start_page output_dir
           = Some (Scan.Success s written)
           /\ Scan.sections s <> [] /\ written <> []).
Proof.
  split.
  - intros doc d output_dir page_offset toc_levels Hex Htoc.
    unfold Toc.extract_sections_by_toc. now rewrite Hex, Htoc.
  - intros text_of total name d start_page output_dir Htotal Hstart Hd.
    now apply ScanFacts.extract_all_sections_rendered.
Qed.

Lemma empty_outline_reports_no_toc_witness :
  Toc.extract_sections_by_toc
    (toc_pdf [] 5 (render_pages (headed_on [1; 3]))) fresh_disk "output" 0
    (Some [1; 2])
  = Toc.NoToc "No TOC found" 0
  /\ exists s written,
       Scan.extract_all_sections Scan.enough_fuel
         (scan_pdf 5 (render_pages (headed_on [1; 3]))) fresh_disk 1 "output"
       = Some (Scan.Success s written)
       /\ Scan.sections s <> [] /\ written <> [].
Proof.
  split.
  - apply (proj1 empty_outline_reports_no_toc
             (toc_pdf [] 5 (render_pages (headed_on [1; 3]))) fresh_disk
             "output" 0 (Some [1; 2])); reflexivity.
  - apply (proj2 empty_outline_reports_no_toc (headed_on [1; 3]) 5 "book"
             fresh_disk 1 "output"); [lia | lia | split; reflexivity].
Defined.

End Runs.

(** ** More about strings *)

Module PyStrMore.

Import PyStr.

(** Case analysis on the 256 characters. *)
Ltac each_char c :=
  destruct c as [[] [] [] [] [] [] [] []]; try reflexivity; try discriminate.

Lemma id_char_not_space c : id_char c = true -> isspace c = false.
Proof. each_char c. Qed.

Lemma lower_char_id_char c : id_char c = true -> id_char (lower_char c) = true.
Proof. each_char c. Qed.

Lemma lower_char_idem c : lower_char (lower_char c) = lower_char c.
Proof. each_char c. Qed.

Lemma kept_char_cases c :
  isword c || isspace c || Ascii.eqb c "-"%char = true ->
  isspace c = true \/ id_char c = true.
Proof.
  unfold id_char. destruct (isspace c); [auto|].
  rewrite orb_false_r. auto.
Qed.

Lemma all_chars_append p a b :
  all_chars p (a ++ b) = all_chars p a && all_chars p b.
Proof.
  induction a as [|c a IH]; cbn; [reflexivity|].
  now rewrite IH, andb_assoc.
Qed.

Lemma all_chars_weaken (p q : ascii -> bool) s :
  (forall c, p c = true -> q c = true) ->
  all_chars p s = true -> all_chars q s = true.
Proof.
  intros Hpq. induction s as [|c s IH]; cbn; [reflexivity|].
  intros H. apply andb_prop in H. destruct H as [Hc Hs].
  now rewrite (Hpq c Hc), IH.
Qed.

(** *** Stripping *)

Lemma lstrip_idem s : lstrip (lstrip s) = lstrip s.
Proof.
  induction s as [|c s IH]; cbn; [reflexivity|].
  destruct (isspace c) eqn:Hc; [exact IH|].
  cbn. now rewrite Hc.
Qed.

Lemma rstrip_idem s : rstrip (rstrip s) = rstrip s.
Proof.
  induction s as [|c s IH]; cbn; [reflexivity|].
  destruct (isspace c && negb (truthy (rstrip s))) eqn:H; [reflexivity|].
  cbn. now rewrite IH, H.
Qed.

Lemma lstrip_rstrip s : lstrip (rstrip s) = rstrip (lstrip s).
Proof.
  induction s as [|c s IH]; cbn; [reflexivity|].
  destruct (isspace c) eqn:Hc; cbn.
  - destruct (truthy (rstrip s)) eqn:Hr; cbn.
    + now rewrite Hc.
    + apply PyStrFacts.truthy_false in Hr. rewrite <- IH, Hr. reflexivity.
  - now rewrite Hc.
Qed.

(** A stripped string neither begins nor ends with whitespace. *)
Lemma strip_trimmed s : trimmed (strip s).
Proof.
  unfold trimmed, strip. split.
  - now rewrite lstrip_rstrip, lstrip_idem.
  - apply rstrip_idem.
Qed.

Lemma trimmed_strip s : trimmed s -> strip s = s.
Proof. intros [Hl Hr]. unfold strip. now rewrite Hl, Hr. Qed.

Lemma lstrip_length s : (String.length (lstrip s) <= String.length s)%nat.
Proof.
  induction s as [|c s IH]; cbn; [lia|].
  destruct (isspace c); cbn; lia.
Qed.

Lemma rstrip_length s : (String.length (rstrip s) <= String.length s)%nat.
Proof.
  induction s as [|c s IH]; cbn; [lia|].
  destruct (isspace c && negb (truthy (rstrip s))); cbn; lia.
Qed.

Lemma rstrip_space_end s c :
  isspace c = true -> rstrip (s ++ String c "") = rstrip s.
Proof.
  intros Hc. induction s as [|d s IH]; cbn.
  - now rewrite Hc.
  - now rewrite IH.
Qed.

Lemma rstrip_spaces w : all_chars isspace w = true -> rstrip w = "".
Proof.
  induction w as [|c w IH]; cbn; [reflexivity|].
  intros H. apply andb_prop in H. destruct H as [Hc Hw].
  now rewrite (IH Hw), Hc.
Qed.

Lemma lstrip_spaces w : all_chars isspace w = true -> lstrip w = "".
Proof.
  induction w as [|c w IH]; cbn; [reflexivity|].
  intros H. apply andb_prop in H. destruct H as [Hc Hw].
  now rewrite Hc, (IH Hw).
Qed.

(** What [lstrip] removes is a run of whitespace. *)
Lemma lstrip_split s :
  exists w, s = w ++ lstrip s /\ all_chars isspace w = true.
Proof.
  induction s as [|c s (w & Hw & Hsp)]; [exists ""; auto|].
  cbn. destruct (isspace c) eqn:Hc.
  - exists (String c w). cbn. rewrite Hc, Hsp. split; [now f_equal | reflexivity].
  - exists "". auto.
Qed.

(** The end of a string that does not end with whitespace does not
    either. *)
Lemma rstrip_fixed_suffix w u : rstrip (w ++ u) = w ++ u -> rstrip u = u.
Proof.
  induction w as [|c w IH]; cbn; [auto|].
  destruct (isspace c && negb (truthy (rstrip (w ++ u)))); [discriminate|].
  intros [= H]. auto.
Qed.

Lemma all_chars_lstrip p s : all_chars p s = true -> all_chars p (lstrip s) = true.
Proof.
  induction s as [|c s IH]; cbn; [reflexivity|].
  intros H. destruct (isspace c); [|exact H].
  apply andb_prop in H. tauto.
Qed.

Lemma all_chars_rstrip p s : all_chars p s = true -> all_chars p (rstrip s) = true.
Proof.
  induction s as [|c s IH]; cbn; [reflexivity|].
  intros H. apply andb_prop in H. destruct H as [Hc Hs].
  destruct (isspace c && negb (truthy (rstrip s))); cbn; [reflexivity|].
  now rewrite Hc, IH.
Qed.

Lemma all_chars_strip p s : all_chars p s = true -> all_chars p (strip s) = true.
Proof. intros H. now apply all_chars_rstrip, all_chars_lstrip. Qed.

(** *** Cleaning an identifier *)

Lemma drop_special_chars s :
  all_chars (fun c => isspace c || id_char c) (drop_special s) = true.
Proof.
  induction s as [|c s IH]; cbn; [reflexivity|].
  destruct (isword c || isspace c || Ascii.eqb c "-"%char) eqn:Hc;
    [|exact IH].
  cbn. rewrite IH, andb_true_r.
  destruct (kept_char_cases c Hc) as [-> | ->]; [reflexivity|].
  apply orb_true_r.
Qed.

Lemma squeeze_space_chars s : forall in_run,
  all_chars (fun c => isspace c || id_char c) s = true ->
  all_chars id_char (squeeze_space_from in_run s) = true.
Proof.
  induction s as [|c s IH]; intros in_run; cbn; [reflexivity|].
  intros H. apply andb_prop in H. destruct H as [Hc Hs].
  destruct (isspace c) eqn:Hsp.
  - destruct in_run; [now apply IH|].
    cbn [all_chars]. rewrite (IH true Hs). reflexivity.
  - cbn [orb] in Hc. cbn [all_chars]. now rewrite Hc, (IH false Hs).
Qed.

Lemma lower_chars s :
  all_chars id_char s = true -> all_chars id_char (lower s) = true.
Proof.
  induction s as [|c s IH]; cbn; [reflexivity|].
  intros H. apply andb_prop in H. destruct H as [Hc Hs].
  now rewrite (lower_char_id_char c Hc), IH.
Qed.

Lemma lower_idem s : lower (lower s) = lower s.
Proof.
  induction s as [|c s IH]; cbn; [reflexivity|].
  now rewrite lower_char_idem, IH.
Qed.

(** Cleaning leaves a string of identifier characters as it is. *)
Lemma drop_special_id_chars s :
  all_chars id_char s = true -> drop_special s = s.
Proof.
  induction s as [|c s IH]; cbn; [reflexivity|].
  intros H. apply andb_prop in H. destruct H as [Hc Hs].
  rewrite (IH Hs). unfold id_char in Hc.
  destruct (isword c); cbn; [reflexivity|].
  cbn in Hc. rewrite Hc, orb_true_r. reflexivity.
Qed.

Lemma squeeze_space_id_chars s : forall in_run,
  all_chars id_char s = true -> squeeze_space_from in_run s = s.
Proof.
  induction s as [|c s IH]; intros in_run; cbn; [reflexivity|].
  intros H. apply andb_prop in H. destruct H as [Hc Hs].
  now rewrite (id_char_not_space c Hc), IH.
Qed.

(** The slug of a title: identifier characters only, in lower case. *)
Lemma slug_chars t :
  let slug := lower (squeeze_space (strip (drop_special t))) in
  all_chars id_char slug = true /\ lower slug = slug.
Proof.
  cbv zeta. split; [|apply lower_idem].
  apply lower_chars, squeeze_space_chars, all_chars_strip, drop_special_chars.
Qed.

End PyStrMore.

(** ** More about the outline strategy *)

Module TocMore.

Import PyStr Toc.

Lemma boundaries_entries toc_entries total_pages page_offset :
  map entry (calculate_section_boundaries toc_entries total_pages page_offset)
  = toc_entries.
Proof.
  induction toc_entries as [|e later IH]; cbn; [reflexivity | now f_equal].
Qed.

(** X1.  One section is planned per outline entry, in order, and in a document
    of at least one page every planned section lies inside the document
    and records its number of pages, at least one. *)
Theorem planned_sections_inside_document :
  forall toc_entries total_pages page_offset,
    1 <= total_pages ->
    let secs :=
      calculate_section_boundaries toc_entries total_pages page_offset in
    map entry secs = toc_entries
    /\ forall s,
         In s secs ->
         1 <= start_page s
         /\ start_page s <= end_page s
         /\ end_page s <= total_pages
         /\ page_count s = end_page s - start_page s + 1
         /\ 1 <= page_count s.
Proof.
  intros toc_entries total_pages page_offset Htotal secs.
  split; [apply boundaries_entries|]. subst secs.
  induction toc_entries as [|e later IH]; cbn [calculate_section_boundaries In];
    [tauto|].
  intros s [<- | Hin]; [|auto].
  cbn [start_page end_page page_count]. lia.
Qed.

Lemma planned_sections_inside_document_witness :
  let secs :=
    calculate_section_boundaries [entry_at 25; entry_at 10; entry_at 40]
      30 0 in
  map entry secs = [entry_at 25; entry_at 10; entry_at 40]
  /\ forall s,
       In s secs ->
       1 <= start_page s
       /\ start_page s <= end_page s
       /\ end_page s <= 30
       /\ page_count s = end_page s - start_page s + 1
       /\ 1 <= page_count s.
Proof.
  apply (planned_sections_inside_document
           [entry_at 25; entry_at 10; entry_at 40] 30 0).
  lia.
Defined.

(** X2.  Whatever the order of the outline pages, a planned section never
    starts more than one page after the end of the section planned before
    it, and every page from the first section's start to the end of the
    document belongs to some planned section. *)
Theorem planned_sections_leave_no_gap :
  forall e later total_pages page_offset,
    1 <= total_pages ->
    let secs :=
      calculate_section_boundaries (e :: later) total_pages page_offset in
    (forall i si sj,
        nth_error secs i = Some si -> nth_error secs (S i) = Some sj ->
        start_page sj <= end_page si + 1)
    /\ (forall q,
           clamp (page e + page_offset) 1 total_pages <= q <= total_pages ->
           exists s, In s secs /\ in_section q s).
Proof.
  intros e later total_pages page_offset Htotal. cbv zeta.
  revert e. induction later as [|e' later IH]; intros e.
  - split.
    + intros [|i] si sj Hi Hj; cbn in Hj; [discriminate|].
      destruct i; discriminate.
    + intros q Hq. eexists. split; [left; reflexivity|].
      unfold in_section, clamp in *. cbn. lia.
  - destruct (IH e') as [IHgap IHcov]. split.
    + intros [|i] si sj Hi Hj.
      * cbn in Hi, Hj. injection Hi as <-. injection Hj as <-.
        cbn [start_page end_page]. lia.
      * apply (IHgap i si sj); assumption.
    + intros q Hq.
      set (s0 := hd (whole_document 1)
                   (calculate_section_boundaries (e :: e' :: later)
                      total_pages page_offset)).
      destruct (Z_le_gt_dec q (end_page s0)) as [Hle | Hgt].
      * exists s0. split; [left; reflexivity|].
        unfold in_section, clamp in *. subst s0. cbn in Hle |- *. lia.
      * destruct (IHcov q) as (s & Hin & Hs).
        { unfold clamp in *. subst s0. cbn in Hgt. lia. }
        exists s. split; [right; exact Hin | exact Hs].
Qed.

Lemma planned_sections_leave_no_gap_witness :
  let secs :=
    calculate_section_boundaries (entry_at 25 :: [entry_at 10; entry_at 40])
      30 0 in
  (forall i si sj,
      nth_error secs i = Some si -> nth_error secs (S i) = Some sj ->
      start_page sj <= end_page si + 1)
  /\ (forall q,
         clamp (page (entry_at 25) + 0) 1 30 <= q <= 30 ->
         exists s, In s secs /\ in_section q s).
Proof.
  apply (planned_sections_leave_no_gap (entry_at 25)
           [entry_at 10; entry_at 40] 30 0).
  lia.
Defined.

(** X3.  When the next outline entry does not point beyond the page after a
    section's start, as for a repeated or an earlier page, the section is
    planned as the single page on which it starts. *)
Theorem backward_entry_collapses :
  forall toc_entries total_pages page_offset i e' s,
    nth_error toc_entries (S i) = Some e' ->
    nth_error
      (calculate_section_boundaries toc_entries total_pages page_offset) i
    = Some s ->
    page e' + page_offset <= start_page s + 1 ->
    end_page s = start_page s /\ page_count s = 1.
Proof.
  induction toc_entries as [|e later IH];
    intros total_pages page_offset i e' s He' Hs Hback.
  - discriminate.
  - destruct i as [|i].
    + destruct later as [|e1 later]; [discriminate|].
      cbn in He'. injection He' as ->.
      cbn in Hs. injection Hs as <-.
      cbn [start_page end_page page_count] in *. lia.
    + apply (IH total_pages page_offset i e' s); assumption.
Qed.

Lemma backward_entry_collapses_witness :
  end_page
    {| entry := entry_at 25; start_page := 25; end_page := 25;
       page_count := 1 |}
  = start_page
      {| entry := entry_at 25; start_page := 25; end_page := 25;
         page_count := 1 |}
  /\ page_count
       {| entry := entry_at 25; start_page := 25; end_page := 25;
          page_count := 1 |} = 1.
Proof.
  apply (backward_entry_collapses [entry_at 25; entry_at 10; entry_at 40]
           30 0 0%nat (entry_at 10)).
  - reflexivity.
  - reflexivity.
  - cbn. lia.
Defined.

(** X4.  Planning with a page offset gives the same page ranges as planning
    without offset an outline whose pages were moved by the offset. *)
Theorem offset_shifts_pages :
  forall toc_entries total_pages page_offset,
    map page_range
      (calculate_section_boundaries toc_entries total_pages page_offset)
    = map page_range
        (calculate_section_boundaries
           (map (shift_entry page_offset) toc_entries) total_pages 0).
Proof.
  intros toc_entries total_pages page_offset.
  induction toc_entries as [|e later IH]; [reflexivity|].
  cbn [map calculate_section_boundaries]. rewrite IH.
  f_equal. unfold page_range. cbn [start_page end_page shift_entry page].
  destruct later as [|e1 later]; cbn [map shift_entry page];
    rewrite ?Z.add_0_r; reflexivity.
Qed.

(** *** The sections of a run *)

Lemma extract_section_content_renders to_markdown section :
  match extract_section_content to_markdown section with
  | Some c =>
      renders to_markdown section = true
      /\ sc_start_page c = start_page section
      /\ sc_end_page c = end_page section
  | None => renders to_markdown section = false
  end.
Proof.
  unfold extract_section_content, renders.
  destruct (to_markdown _) as [[|pd result]|]; cbn; auto.
Qed.

Lemma extract_step_fields to_markdown output_dir pdf_filename st section :
  st_raised st = None ->
  let st1 := extract_step to_markdown output_dir pdf_filename st section in
  st_raised st1 = None ->
  if renders to_markdown section
  then exists m f,
         st_metadata st1 = (st_metadata st ++ [m])%list
         /\ metadata_range m = page_range section
         /\ st_created_files st1
            = (st_created_files st ++ [md_file_path m])%list
         /\ st_written st1 = (st_written st ++ [f])%list
         /\ fst f = md_file_path m
  else st1 = st.
Proof.
  intros Hr. cbv zeta. unfold extract_step. rewrite Hr.
  pose proof (extract_section_content_renders to_markdown section) as Hx.
  destruct (extract_section_content to_markdown section) as [c|].
  - destruct Hx as (-> & Hs & He).
    destruct (try_save_section _ _ _ _) as [e|d]; [discriminate|].
    intros _. eexists _, _.
    cbn [save_section_immediately st_metadata st_created_files st_written].
    repeat split. unfold metadata_range, page_range.
    cbn [describe md_start_page md_end_page]. now rewrite Hs, He.
  - now rewrite Hx.
Qed.

(** After an exception the loop does nothing more. *)
Lemma extract_fold_raised to_markdown output_dir pdf_filename planned :
  forall st e,
    st_raised st = Some e ->
    fold_left (extract_step to_markdown output_dir pdf_filename) planned st
    = st.
Proof.
  induction planned as [|section planned IH]; intros st e Hr;
    cbn [fold_left]; [reflexivity|].
  assert (Hstep : extract_step to_markdown output_dir pdf_filename st section
                  = st) by (unfold extract_step; now rewrite Hr).
  rewrite Hstep. now apply (IH st e).
Qed.

Lemma extract_fold_sections to_markdown output_dir pdf_filename planned :
  forall st,
    st_raised st = None ->
    let st' :=
      fold_left (extract_step to_markdown output_dir pdf_filename)
        planned st in
    st_raised st' = None ->
    map metadata_range (st_metadata st')
    = (map metadata_range (st_metadata st)
       ++ map page_range (filter (renders to_markdown) planned))%list
    /\ (st_created_files st = map md_file_path (st_metadata st) ->
        st_created_files st' = map md_file_path (st_metadata st'))
    /\ (map fst (st_written st) = st_created_files st ->
        map fst (st_written st') = st_created_files st').
Proof.
  induction planned as [|section planned IH]; intros st Hst;
    cbn [fold_left filter map].
  - rewrite app_nil_r. auto.
  - intros Hend.
    set (st1 := extract_step to_markdown output_dir pdf_filename st section)
      in *.
    assert (Hr1 : st_raised st1 = None).
    { destruct (st_raised st1) as [e|] eqn:Hr1; [|reflexivity].
      rewrite (extract_fold_raised _ _ _ planned st1 e Hr1) in Hend.
      congruence. }
    destruct (IH st1 Hr1 Hend) as (Hr & Hc & Hw).
    pose proof (extract_step_fields to_markdown output_dir pdf_filename st
                  section Hst Hr1) as Hstep.
    fold st1 in Hstep.
    destruct (renders to_markdown section).
    + destruct Hstep as (m & f & Hm & Hrange & Hfiles & Hwritten & Hf).
      rewrite Hm, Hfiles, Hwritten in *.
      rewrite Hr, !map_app. cbn [map]. rewrite Hrange, <- app_assoc.
      split; [reflexivity|]. split.
      * intros H. apply Hc. now rewrite H, map_app.
      * intros H. apply Hw. rewrite map_app, H. cbn [map]. now rewrite Hf.
    + rewrite Hstep in *. auto.
Qed.

(** On a disk where nothing raises and the output directory exists, no
    exception leaves the loop. *)
Lemma extract_fold_permissive to_markdown output_dir pdf_filename planned :
  forall st,
    st_raised st = None -> permissive (st_disk st) ->
    dir_exists (st_disk st) = true ->
    let st' :=
      fold_left (extract_step to_markdown output_dir pdf_filename)
        planned st in
    st_raised st' = None /\ permissive (st_disk st')
    /\ dir_exists (st_disk st') = true.
Proof.
  induction planned as [|section planned IH]; intros st Hr Hp Hd;
    cbn [fold_left]; [auto|].
  assert (Hsave : forall c,
             try_save_section (st_disk st) c output_dir pdf_filename
             = inr (st_disk st)).
  { intros c. unfold try_save_section, mkdir. rewrite Hd.
    unfold open_for_writing. now rewrite Hd, (proj2 Hp). }
  apply IH; unfold extract_step; rewrite Hr;
    destruct (extract_section_content to_markdown section) as [c|]; auto;
    rewrite Hsave; destruct (save_section_immediately _ _ _); auto.
Qed.

(** X5.  When the run of the outline strategy ends with a summary, the
    sections it lists are, in order, the planned sections for which the
    renderer returned at least one chunk; the others, for which it raised
    or returned nothing, are passed over.  One file is written per listed
    section, under the listed path, and the summary counts the entries
    kept by the filter and the sections listed.  For an existing document
    with a non-empty outline the run ends with a summary on a disk where
    nothing raises and the output directory or its parent exists, also
    when the level filter keeps no entry or no section can be rendered;
    and it raises for the missing parent, before any page is rendered,
    when neither exists. *)
Theorem outline_run_lists_rendered_sections :
  (forall doc d output_dir page_offset toc_levels s written,
      extract_sections_by_toc doc d output_dir page_offset toc_levels
      = Success s written ->
      map metadata_range (sections s)
      = map page_range
          (filter (renders (to_markdown doc))
             (calculate_section_boundaries
                (filter_levels toc_levels (pdf_toc doc))
                (pdf_page_count doc) page_offset))
      /\ created_files s = map md_file_path (sections s)
      /\ map fst written = created_files s
      /\ sections_found s = Z.of_nat (List.length (sections s))
      /\ toc_entries_found s
         = Z.of_nat (List.length (filter_levels toc_levels (pdf_toc doc)))
      /\ sections_found s <= toc_entries_found s)
  /\ (forall doc d output_dir page_offset toc_levels,
         pdf_exists doc = true ->
         pdf_toc doc <> [] ->
         permissive d ->
         dir_exists d = true \/ parent_exists d = true ->
         exists s written,
           extract_sections_by_toc doc d output_dir page_offset toc_levels
           = Success s written)
  /\ (forall doc d output_dir page_offset toc_levels,
         pdf_exists doc = true ->
         pdf_toc doc <> [] ->
         dir_exists d = false ->
         parent_exists d = false ->
         extract_sections_by_toc doc d output_dir page_offset toc_levels
         = Raised (MissingParent output_dir) []).
Proof.
  split; [|split].
  - intros doc d output_dir page_offset toc_levels s written Hrun.
    apply TocFacts.extract_sections_by_toc_success in Hrun
      as (d0 & st & _ & Hst & Hraised & _ & -> & ->).
    set (planned := calculate_section_boundaries _ _ _) in *.
    destruct (extract_fold_sections (to_markdown doc) output_dir
                (pdf_name doc) planned (initial_state d0) eq_refl)
      as (Hr & Hc & Hw); [rewrite <- Hst; exact Hraised|].
    rewrite <- Hst in Hr, Hc, Hw.
    cbn [initial_state st_metadata st_created_files st_written map app]
      in Hr, Hc, Hw.
    cbn [sections created_files sections_found toc_entries_found].
    split; [exact Hr|]. split; [now apply Hc|].
    split; [now apply Hw|].
    split; [reflexivity|]. split; [reflexivity|].
    apply (f_equal (@List.length _)) in Hr. rewrite !length_map in Hr.
    rewrite Hr.
    pose proof (filter_length_le (renders (to_markdown doc)) planned).
    subst planned. rewrite TocFacts.boundaries_length in *. lia.
  - intros doc d output_dir page_offset toc_levels Hex Htoc Hp Hdir.
    unfold extract_sections_by_toc. rewrite Hex. cbn [negb].
    destruct (pdf_toc doc) as [|e later] eqn:Hdoc; [congruence|].
    rewrite <- Hdoc.
    assert (Hmk : exists d0, mkdir d output_dir = inr d0 /\ permissive d0
                             /\ dir_exists d0 = true).
    { unfold mkdir. destruct (dir_exists d) eqn:Hd; [eauto|].
      destruct Hdir as [Hdir | ->]; [discriminate|].
      rewrite (proj1 Hp). exists (with_directory d).
      repeat split; apply Hp. }
    destruct Hmk as (d0 & -> & Hp0 & Hd0). cbv zeta.
    destruct (extract_fold_permissive (to_markdown doc) output_dir
                (pdf_name doc)
                (calculate_section_boundaries
                   (filter_levels toc_levels (pdf_toc doc))
                   (pdf_page_count doc) page_offset)
                (initial_state d0) eq_refl Hp0 Hd0) as (Hr & Hp' & Hd').
    cbv zeta in Hr, Hp', Hd'. rewrite Hr. unfold open_for_writing.
    rewrite Hd', (proj2 Hp'). eauto.
  - intros doc d output_dir page_offset toc_levels Hex Htoc Hd Hpar.
    unfold extract_sections_by_toc, mkdir. rewrite Hex, Hd, Hpar.
    cbn [negb]. destruct (pdf_toc doc); [congruence | reflexivity].
Qed.

Lemma outline_run_lists_rendered_sections_witness :
  exists s written,
    extract_sections_by_toc
      (toc_pdf [entry_at 1; entry_at 7]
         10 (failing_from 7 (render_pages two_pages))) fresh_disk "output" 0
      None
    = Success s written
    /\ map metadata_range (sections s)
       = map page_range
           (filter (renders (failing_from 7 (render_pages two_pages)))
              (calculate_section_boundaries
                 (filter_levels None [entry_at 1; entry_at 7]) 10 0))
    /\ created_files s = map md_file_path (sections s)
    /\ map fst written = created_files s
    /\ sections_found s = Z.of_nat (List.length (sections s))
    /\ toc_entries_found s
       = Z.of_nat (List.length (filter_levels None [entry_at 1; entry_at 7]))
    /\ sections_found s <= toc_entries_found s.
Proof.
  destruct (proj1 (proj2 outline_run_lists_rendered_sections)
              (toc_pdf [entry_at 1; entry_at 7]
                 10 (failing_from 7 (render_pages two_pages))) fresh_disk
              "output" 0 None)
    as (s & written & Hrun);
    [reflexivity | discriminate | split; reflexivity | right; reflexivity |].
  exists s, written. split; [exact Hrun|].
  apply (proj1 outline_run_lists_rendered_sections
           (toc_pdf [entry_at 1; entry_at 7]
              10 (failing_from 7 (render_pages two_pages))) fresh_disk
           "output" 0 None s written Hrun).
Defined.

End TocMore.

(** ** Reading the outline *)

Module TocReaderFacts.

Import PyStr Toc TocReader.

Lemma lower_append a b : lower (a ++ b) = lower a ++ lower b.
Proof. induction a as [|c a IH]; cbn; [reflexivity | now rewrite IH]. Qed.

Example generate_section_id_examples :
  generate_section_id "Chapter 1: Intro" = "chapter_1_intro"
  /\ generate_section_id "1. Start" = "section_1_start"
  /\ generate_section_id "  !!! " = "untitled_section"
  /\ generate_section_id "-x" = "-x"
  /\ generate_section_id "A  B C" = "a_b_c".
Proof. repeat split; reflexivity. Qed.

(** X6.  For a title of the model, that is, one whose code points all lie
    in 0..255: the id generated for it is never empty, holds only word
    characters and hyphens (no whitespace, no other punctuation), is in
    lower case and never starts with a digit.  (Lowering a title with
    other code points can give characters that are none of these.) *)
Theorem section_id_is_clean :
  forall title,
    let id := generate_section_id title in
    truthy id = true
    /\ all_chars id_char id = true
    /\ lower id = id
    /\ (forall c rest, id = String c rest -> isdigit c = false).
Proof.
  intros title. cbv zeta. unfold generate_section_id.
  destruct (PyStrMore.slug_chars title) as [Hchars Hlower]. cbv zeta in *.
  destruct (lower (squeeze_space (strip (drop_special title))))
    as [|c rest].
  - cbn [truthy]. repeat split; try reflexivity.
    intros c rest [= <- _]. reflexivity.
  - destruct (isdigit c) eqn:Hd.
    + cbn [append truthy]. split; [reflexivity|]. split; [|split].
      * change (String "s" (String "e" (String "c" (String "t"
                 (String "i" (String "o" (String "n" (String "_"
                 (String c rest)))))))))
          with ("section_" ++ String c rest).
        now rewrite PyStrMore.all_chars_append, Hchars.
      * change (String "s" (String "e" (String "c" (String "t"
                 (String "i" (String "o" (String "n" (String "_"
                 (String c rest)))))))))
          with ("section_" ++ String c rest).
        now rewrite lower_append, Hlower.
      * intros c' rest' [= <- _]. reflexivity.
    + cbn [truthy]. repeat split; try assumption.
      intros c' rest' [= <- _]. exact Hd.
Qed.

Lemma section_id_is_clean_witness :
  truthy (generate_section_id "1. Start") = true
  /\ all_chars id_char (generate_section_id "1. Start") = true
  /\ lower (generate_section_id "1. Start") = generate_section_id "1. Start"
  /\ isdigit "s" = false.
Proof.
  destruct (section_id_is_clean "1. Start") as (H1 & H2 & H3 & H4).
  split; [exact H1|]. split; [exact H2|]. split; [exact H3|].
  apply (H4 "s"%char "ection_1_start"). reflexivity.
Defined.


(** X7.  A title without any word character or hyphen (empty, blank, or made
    of punctuation) gets the id ["untitled_section"]. *)
Theorem blank_title_is_untitled :
  forall title,
    all_chars (fun c => negb (id_char c)) title = true ->
    generate_section_id title = "untitled_section".
Proof.
  intros title H.
  assert (Hsp : all_chars isspace (drop_special title) = true).
  { induction title as [|c title IH]; cbn; [reflexivity|].
    cbn in H. apply andb_prop in H. destruct H as [Hc Ht].
    destruct (isword c || isspace c || Ascii.eqb c "-"%char) eqn:Hk;
      [|auto].
    cbn. rewrite (IH Ht), andb_true_r.
    destruct (PyStrMore.kept_char_cases c Hk) as [Hs | Hi]; [exact Hs|].
    rewrite Hi in Hc. discriminate. }
  unfold generate_section_id, strip.
  now rewrite (PyStrMore.lstrip_spaces _ Hsp).
Qed.

Lemma blank_title_is_untitled_witness :
  generate_section_id "  !!! " = "untitled_section".
Proof.
  apply (blank_title_is_untitled "  !!! "). reflexivity.
Defined.

(** X8.  The outline run reports ["No TOC found"] exactly when the document
    cannot be opened or has no outline rows: the error of opening it is
    not told apart from a missing outline. *)
Theorem no_toc_when_unreadable_or_empty :
  forall name fitz_doc to_markdown d output_dir page_offset toc_levels,
    extract_sections_by_toc (read_pdf true name fitz_doc to_markdown)
      d output_dir page_offset toc_levels
    = NoToc "No TOC found" 0
    <-> (fitz_doc = None \/ exists n, fitz_doc = Some ([], n)).
Proof.
  intros name fitz_doc to_markdown d output_dir page_offset toc_levels.
  destruct fitz_doc as [[[|row rows] n]|].
  - split; [eauto | reflexivity].
  - split.
    + intros H. apply TocFacts.extract_sections_by_toc_no_toc in H.
      destruct H as [_ H]. discriminate H.
    + intros [H | (n' & H)]; discriminate.
  - split; [auto | reflexivity].
Qed.

Lemma no_toc_when_unreadable_or_empty_witness :
  extract_sections_by_toc (read_pdf true "book" None (render_pages two_pages))
    fresh_disk "output" 0 None
  = NoToc "No TOC found" 0.
Proof.
  apply (proj2 (no_toc_when_unreadable_or_empty "book" None
                  (render_pages two_pages) fresh_disk "output" 0 None)).
  left. reflexivity.
Defined.


(** *** The text of a rendered section *)

Lemma newline_terminated_body t l :
  exists body,
    newline_terminated (t :: l) = body ++ nl
    /\ Z.of_nat (String.length body)
       = sum_Z (map len (t :: l)) + Z.of_nat (List.length (t :: l)) - 1.
Proof.
  revert t. induction l as [|t' l IH]; intros t.
  - exists t. cbn. unfold len. split; [reflexivity | lia].
  - destruct (IH t') as (body & Hb & Hlen).
    exists (t ++ nl ++ body).
    cbn [newline_terminated fold_right] in *. rewrite Hb. split.
    + now rewrite !PyStrFacts.append_assoc.
    + rewrite !PyStrFacts.length_append.
      cbn [map sum_Z fold_right List.length String.length nl] in *.
      unfold len, sum_Z in *. lia.
Qed.

(** X9.  The text written for an outline section neither begins nor ends with
    whitespace; it is at most one character per page but one longer than
    the recorded character count; and the recorded word count is the sum
    of the word counts of the pages. *)
Theorem outline_text_and_counts :
  forall to_markdown section c,
    extract_section_content to_markdown section = Some c ->
    exists result,
      to_markdown (range (start_page section) (end_page section + 1))
      = Some result
      /\ trimmed (sc_text c)
      /\ len (sc_text c)
         <= sc_character_count c + Z.of_nat (List.length result) - 1
      /\ sc_word_count c
         = sum_Z (map (fun pd => count_words (get_text pd)) result).
Proof.
  intros to_markdown section c H.
  destruct (TocFacts.extract_section_content_some _ _ _ H)
    as (result & Hres & Htext & Hchars & Hwords & _).
  exists result. split; [exact Hres|].
  split; [rewrite Htext; apply PyStrMore.strip_trimmed|].
  split.
  - destruct result as [|pd result].
    { unfold extract_section_content in H. rewrite Hres in H.
      discriminate H. }
    rewrite Htext, Hchars. cbn [map].
    destruct (newline_terminated_body (get_text pd) (map get_text result))
      as (body & Hb & Hlen).
    rewrite Hb. unfold strip. rewrite <- PyStrMore.lstrip_rstrip.
    unfold nl. rewrite PyStrMore.rstrip_space_end by reflexivity.
    pose proof (PyStrMore.lstrip_length (rstrip body)).
    pose proof (PyStrMore.rstrip_length body).
    change (get_text pd :: map get_text result)
      with (map get_text (pd :: result)) in Hlen.
    rewrite map_map, length_map in Hlen.
    change (len (get_text pd)
            :: map (fun pd0 => len (get_text pd0)) result)
      with (map (fun pd0 => len (get_text pd0)) (pd :: result)).
    unfold len at 1. lia.
  - rewrite Hwords, Htext, TocFacts.count_words_pieces, map_map. reflexivity.
Qed.

Lemma outline_text_and_counts_witness :
  exists c result,
    extract_section_content (render_pages two_pages) (whole_document 2)
    = Some c
    /\ render_pages two_pages
         (range (start_page (whole_document 2))
            (end_page (whole_document 2) + 1))
       = Some result
    /\ trimmed (sc_text c)
    /\ len (sc_text c)
       <= sc_character_count c + Z.of_nat (List.length result) - 1
    /\ sc_word_count c
       = sum_Z (map (fun pd => count_words (get_text pd)) result).
Proof.
  eexists. 
  assert (H : extract_section_content (render_pages two_pages)
                (whole_document 2) = Some _) by (vm_compute; reflexivity).
  destruct (outline_text_and_counts _ _ _ H) as (result & Hr).
  exists result. split; [exact H | exact Hr].
Defined.

End TocReaderFacts.

(** ** More about the scan strategy *)

Module ScanMore.

Import PyStr Scan.

(** *** Heading markers *)

Lemma header_match_prefix s t :
  header_match s = Some t -> exists r, s = "#####" ++ r.
Proof.
  unfold header_match.
  do 5 (destruct s as [|c s]; [discriminate|];
        destruct c as [[] [] [] [] [] [] [] []]; try discriminate).
  intros _. exists s. reflexivity.
Qed.

Lemma header_match_unfold r :
  header_match ("#####" ++ r)
  = let t := lstrip r in
    let k := (String.length r - String.length t)%nat in
    if (k =? 0)%nat then None
    else if truthy t then Some t
    else if (2 <=? k)%nat then Some (substring (k - 1) 1 r)
    else None.
Proof. reflexivity. Qed.

Lemma lstrip_split_length r w :
  r = w ++ lstrip r ->
  (String.length r - String.length (lstrip r))%nat = String.length w.
Proof.
  intros H. rewrite H at 1. rewrite PyStrFacts.length_append. lia.
Qed.

(** On a line that does not end with whitespace, a match is five hashes,
    a run of whitespace and the title, which is the rest of the line. *)
Lemma header_match_trimmed line t :
  rstrip line = line ->
  header_match line = Some t ->
  truthy t = true
  /\ trimmed t
  /\ exists w,
       line = "#####" ++ w ++ t
       /\ truthy w = true
       /\ all_chars isspace w = true.
Proof.
  intros Hline H.
  destruct (header_match_prefix _ _ H) as (r & ->).
  rewrite header_match_unfold in H. cbv zeta in H.
  assert (Hr : rstrip r = r)
    by (apply (PyStrMore.rstrip_fixed_suffix "#####" r), Hline).
  destruct (PyStrMore.lstrip_split r) as (w & Hw & Hsp).
  rewrite (lstrip_split_length r w Hw) in H.
  destruct w as [|c w]; [discriminate H|]. cbn [String.length Nat.eqb] in H.
  destruct (truthy (lstrip r)) eqn:Ht.
  - injection H as <-. split; [exact Ht|]. split.
    + split; [apply PyStrMore.lstrip_idem|].
      apply (PyStrMore.rstrip_fixed_suffix (String c w)).
      now rewrite <- Hw.
    + exists (String c w). rewrite <- Hw. auto.
  - apply PyStrFacts.truthy_false in Ht. rewrite Ht in Hw.
    rewrite PyStrFacts.append_empty_r in Hw.
    rewrite Hw, (PyStrMore.rstrip_spaces _ Hsp) in Hr. discriminate Hr.
Qed.

(** Conversely such a line is matched. *)
Lemma header_match_marker w t :
  truthy w = true -> all_chars isspace w = true -> truthy t = true ->
  rstrip t = t ->
  header_match ("#####" ++ w ++ t) = Some (lstrip t).
Proof.
  intros Hw Hsp Ht Hr. rewrite header_match_unfold. cbv zeta.
  assert (Hl : lstrip (w ++ t) = lstrip t).
  { clear Hw. induction w as [|c w IH]; [reflexivity|].
    cbn in Hsp |- *. apply andb_prop in Hsp. destruct Hsp as [-> Hsp]. auto. }
  rewrite Hl.
  assert (Hne : truthy (lstrip t) = true).
  { destruct (truthy (lstrip t)) eqn:E; [reflexivity|].
    apply PyStrFacts.truthy_false in E.
    destruct (PyStrMore.lstrip_split t) as (w' & Hw' & Hsp').
    rewrite E, PyStrFacts.append_empty_r in Hw'. subst w'.
    rewrite (PyStrMore.rstrip_spaces _ Hsp') in Hr. subst t. discriminate. }
  rewrite Hne, PyStrFacts.length_append.
  pose proof (PyStrMore.lstrip_length t).
  destruct w as [|c w]; [discriminate|]. cbn [String.length].
  replace (S (String.length w) + String.length t
           - String.length (lstrip t))%nat
    with (S (String.length w + String.length t
             - String.length (lstrip t)))%nat by lia.
  reflexivity.
Qed.

Lemma find_header_in_lines_some lines : forall i0 title i,
  find_header_in_lines i0 lines = Some (title, i) ->
  i0 <= i
  /\ exists line g,
       nth_error lines (Z.to_nat (i - i0)) = Some line
       /\ header_match (strip line) = Some g
       /\ title = strip g
       /\ forall j line',
            (j < Z.to_nat (i - i0))%nat ->
            nth_error lines j = Some line' ->
            header_match (strip line') = None.
Proof.
  induction lines as [|line lines IH]; intros i0 title i;
    cbn [find_header_in_lines]; [discriminate|].
  destruct (header_match (strip line)) as [g|] eqn:Hm.
  - intros [= <- <-]. split; [lia|]. exists line, g.
    rewrite Z.sub_diag. cbn. repeat split; auto. intros j line' Hj. lia.
  - intros H. destruct (IH _ _ _ H) as (Hle & line' & g & Hn & Hg & Ht & Hfirst).
    split; [lia|]. exists line', g.
    replace (Z.to_nat (i - i0)) with (S (Z.to_nat (i - (i0 + 1)))) by lia.
    cbn [nth_error]. repeat split; auto.
    intros [|j] l Hj Hl; cbn in Hl.
    + now injection Hl as <-.
    + apply (Hfirst j l); [lia | exact Hl].
Qed.

(** X10.  A header found in a text comes from the first line that, stripped of
    surrounding whitespace, is five hashes, at least one whitespace
    character and a title; the title returned is that title: it is not
    empty and neither begins nor ends with whitespace; the index returned
    is the index of the line. *)
Theorem found_header_is_first_marker_line :
  forall text title i,
    find_section_header_in_text text = Some (title, i) ->
    truthy title = true
    /\ trimmed title
    /\ 0 <= i
    /\ exists line w,
         nth_error (split_lines text) (Z.to_nat i) = Some line
         /\ strip line = "#####" ++ w ++ title
         /\ truthy w = true
         /\ all_chars isspace w = true
         /\ forall j line',
              (j < Z.to_nat i)%nat ->
              nth_error (split_lines text) j = Some line' ->
              header_match (strip line') = None.
Proof.
  intros text title i H. unfold find_section_header_in_text in H.
  destruct (find_header_in_lines_some _ _ _ _ H)
    as (Hle & line & g & Hn & Hg & Ht & Hfirst).
  rewrite Z.sub_0_r in *.
  destruct (header_match_trimmed (strip line) g) as (Hne & Htrim & w & Hw & Hw1 & Hw2);
    [apply PyStrMore.strip_trimmed | exact Hg |].
  rewrite (PyStrMore.trimmed_strip g Htrim) in Ht. subst title.
  split; [exact Hne|]. split; [exact Htrim|]. split; [exact Hle|].
  exists line, w. auto 6.
Qed.

Lemma found_header_is_first_marker_line_witness :
  truthy "My Title!" = true
  /\ trimmed "My Title!"
  /\ 0 <= 1
  /\ exists line w,
       nth_error
         (split_lines
            ("intro" ++ nl ++ "  #####   My Title!  " ++ nl ++ "##### B"))
         (Z.to_nat 1) = Some line
       /\ strip line = "#####" ++ w ++ "My Title!"
       /\ truthy w = true
       /\ all_chars isspace w = true
       /\ forall j line',
            (j < Z.to_nat 1)%nat ->
            nth_error
              (split_lines
                 ("intro" ++ nl ++ "  #####   My Title!  " ++ nl ++ "##### B"))
              j = Some line' ->
            header_match (strip line') = None.
Proof.
  apply (found_header_is_first_marker_line
           ("intro" ++ nl ++ "  #####   My Title!  " ++ nl ++ "##### B")
           "My Title!" 1).
  reflexivity.
Defined.

(** X11.  A text carries a heading marker exactly when one of its lines,
    stripped of surrounding whitespace, is five hashes, at least one
    whitespace character and something more; a line with fewer or more
    hashes before the whitespace is no marker. *)
Theorem header_exactly_on_marker_lines :
  forall text,
    has_header text = true
    <-> exists line w t,
          In line (split_lines text)
          /\ strip line = "#####" ++ w ++ t
          /\ truthy w = true
          /\ all_chars isspace w = true
          /\ truthy t = true.
Proof.
  intros text. unfold has_header. split.
  - destruct (find_section_header_in_text text) as [[title i]|] eqn:H;
      [|discriminate].
    intros _.
    destruct (found_header_is_first_marker_line _ _ _ H)
      as (Hne & _ & _ & line & w & Hn & Hs & Hw1 & Hw2 & _).
    exists line, w, title. apply nth_error_In in Hn. auto 6.
  - intros (line & w & t & Hin & Hs & Hw1 & Hw2 & Ht).
    unfold find_section_header_in_text.
    assert (Hm : header_match (strip line) <> None).
    { rewrite Hs, header_match_marker; [discriminate | assumption.. |].
      apply (PyStrMore.rstrip_fixed_suffix ("#####" ++ w)).
      rewrite PyStrFacts.append_assoc, <- Hs.
      apply PyStrMore.strip_trimmed. }
    generalize 0 as i0. revert Hin.
    induction (split_lines text) as [|l lines IH]; intros Hin i0;
      [destruct Hin|].
    cbn [find_header_in_lines].
    destruct (header_match (strip l)) eqn:Hl; [reflexivity|].
    destruct Hin as [-> | Hin]; [congruence|]. now apply IH.
Qed.

Lemma header_exactly_on_marker_lines_witness :
  has_header ("intro" ++ nl ++ "  #####   My Title!  ") = true.
Proof.
  apply (proj2 (header_exactly_on_marker_lines
                  ("intro" ++ nl ++ "  #####   My Title!  "))).
  exists "  #####   My Title!  ", "   ", "My Title!".
  repeat split; try reflexivity. right. left. reflexivity.
Defined.


(** *** The record of a returned section *)

Lemma extract_next_section_record to_markdown start total la s next :
  extract_next_section to_markdown start total la = (Some s, next) ->
  exists first later final,
    to_markdown (range start (start + Z.min la (total - start + 1)))
    = Some (first :: later)
    /\ to_markdown (range start (end_page s + 1)) = Some final
    /\ s = {| section_id :=
                snd (name_section
                       (find_section_header_in_text (get_text first)) start);
              section_title :=
                fst (name_section
                       (find_section_header_in_text (get_text first)) start);
              start_page := start;
              end_page := end_page s;
              pages := range start (end_page s + 1);
              content := combine_pages final;
              character_count := len (combine_pages final);
              word_count := count_words (combine_pages final);
              header_found := has_header (get_text first);
              pages_in_section :=
                Z.of_nat (List.length (range start (end_page s + 1)));
              extraction_method := "memory_efficient" |}.
Proof.
  unfold extract_next_section.
  destruct (total <? start); [discriminate|].
  destruct (to_markdown (range start _)) as [[|first later]|] eqn:Hinit;
    try discriminate.
  destruct (name_section _ start) as [title id] eqn:Hname.
  destruct (match find_next_header 1 later with
            | Some _ => _ | None => _ end) as [e0 n0].
  destruct (extend_search _ _ _ _ _ _) as [e [n|]].
  - destruct (to_markdown (range start (e + 1))) as [final|] eqn:Hfin;
      [|discriminate].
    intros [= <- <-]. exists first, later, final.
    rewrite Hname. cbn [fst snd end_page].
    split; [reflexivity|]. split; [exact Hfin | reflexivity].
  - destruct (to_markdown (range start (total + 1))) as [final|] eqn:Hfin;
      [|discriminate].
    intros [= <- <-]. exists first, later, final.
    rewrite Hname. cbn [fst snd end_page].
    split; [reflexivity|]. split; [exact Hfin | reflexivity].
Qed.

(** X12.  For every returned section, whatever the renderer does, the pages
    listed are the pages from the start page to the end page, their
    number is recorded, and the second line of the section file tells
    the range and that number, which is at least one. *)
Theorem section_pages_line :
  forall to_markdown start total la s next output_dir base_filename,
    extract_next_section to_markdown start total la = (Some s, next) ->
    start_page s = start
    /\ pages s = range start (end_page s + 1)
    /\ pages_in_section s = end_page s - start + 1
    /\ 1 <= pages_in_section s
    /\ nth_error (snd (save_section_immediately s output_dir base_filename)) 1
       = Some ("**Pages:** " ++ str_of_int start ++ "-"
                 ++ str_of_int (end_page s) ++ " ("
                 ++ str_of_int (end_page s - start + 1) ++ " pages)" ++ nl).
Proof.
  intros to_markdown start total la s next output_dir base_filename H.
  destruct (ScanFacts.extract_next_section_some _ _ _ _ _ _ H)
    as (_ & _ & Hle & _).
  destruct (extract_next_section_record _ _ _ _ _ _ H)
    as (first & later & final & _ & _ & Hs).
  assert (Hlen : Z.of_nat (List.length (range start (end_page s + 1)))
                 = end_page s - start + 1)
    by (rewrite range_length; lia).
  rewrite Hs. cbn [start_page pages pages_in_section end_page
                   save_section_immediately snd nth_error].
  rewrite Hlen. repeat split; try reflexivity; lia.
Qed.

Lemma section_pages_line_witness :
  exists s next,
    extract_next_section (render_pages twice_marked) 1 5 20 = (Some s, next)
    /\ start_page s = 1
    /\ pages s = range 1 (end_page s + 1)
    /\ pages_in_section s = end_page s - 1 + 1
    /\ 1 <= pages_in_section s
    /\ nth_error (snd (save_section_immediately s "output" "book")) 1
       = Some ("**Pages:** " ++ str_of_int 1 ++ "-"
                 ++ str_of_int (end_page s) ++ " ("
                 ++ str_of_int (end_page s - 1 + 1) ++ " pages)" ++ nl).
Proof.
  eexists _, _. split; [vm_compute; reflexivity|].
  eapply (section_pages_line (render_pages twice_marked) 1 5 20 _ _
            "output" "book").
  vm_compute. reflexivity.
Defined.

(** *** The name of a section file *)

Lemma str_of_int_chars n : all_chars id_char (str_of_int n) = true.
Proof.
  unfold str_of_int.
  assert (Hu : forall d, all_chars id_char (NilEmpty.string_of_uint d) = true)
    by (induction d; cbn; auto).
  assert (Hz : forall d, all_chars id_char (NilZero.string_of_uint d) = true)
    by (intros d; destruct d; try reflexivity; apply (Hu (_ d))).
  destruct (Z.to_int n) as [d|d]; cbn [NilZero.string_of_int all_chars].
  - apply Hz.
  - now rewrite Hz.
Qed.

Lemma name_section_id_chars first_header start :
  all_chars id_char (snd (name_section first_header start)) = true.
Proof.
  unfold name_section. destruct first_header as [[header_title i]|]; cbn [snd].
  - apply PyStrMore.slug_chars.
  - rewrite PyStrMore.all_chars_append, str_of_int_chars. reflexivity.
Qed.

(** X13.  The section part of a section file's name holds only word characters
    and hyphens, whatever the section id.  For a section whose id holds
    only such characters the cleaning changes nothing: the file is named
    after the pdf, ["_section_"], the section id and [".md"].  This is so
    for every section that [extract_next_section] returns from a text of
    the model, that is, of code points 0..255 (lowering a title with other
    code points can give characters that the cleaning drops). *)
Theorem section_file_name :
  (forall section output_dir base_filename,
      exists safe,
        fst (save_section_immediately section output_dir base_filename)
        = {| path_dir := output_dir;
             path_name := base_filename ++ "_section_" ++ safe ++ ".md" |}
        /\ all_chars id_char safe = true)
  /\ (forall section output_dir base_filename,
         all_chars id_char (section_id section) = true ->
         fst (save_section_immediately section output_dir base_filename)
         = {| path_dir := output_dir;
              path_name :=
                base_filename ++ "_section_" ++ section_id section
                  ++ ".md" |})
  /\ (forall to_markdown start total la s next output_dir base_filename,
         extract_next_section to_markdown start total la = (Some s, next) ->
         fst (save_section_immediately s output_dir base_filename)
         = {| path_dir := output_dir;
              path_name :=
                base_filename ++ "_section_" ++ section_id s ++ ".md" |}).
Proof.
  assert (Hclean : forall section output_dir base_filename,
             all_chars id_char (section_id section) = true ->
             fst (save_section_immediately section output_dir base_filename)
             = {| path_dir := output_dir;
                  path_name :=
                    base_filename ++ "_section_" ++ section_id section
                      ++ ".md" |}).
  { intros section output_dir base_filename Hid.
    unfold save_section_immediately. cbn [fst]. unfold squeeze_space.
    now rewrite (PyStrMore.drop_special_id_chars _ Hid),
      (PyStrMore.squeeze_space_id_chars _ false Hid). }
  split; [|split].
  - intros section output_dir base_filename.
    exists (squeeze_space (drop_special (section_id section))).
    split; [reflexivity|].
    apply PyStrMore.squeeze_space_chars, PyStrMore.drop_special_chars.
  - exact Hclean.
  - intros to_markdown start total la s next output_dir base_filename H.
    destruct (extract_next_section_record _ _ _ _ _ _ H)
      as (first & later & final & _ & _ & Hs).
    apply Hclean. rewrite Hs. apply name_section_id_chars.
Qed.

Lemma section_file_name_witness :
  exists s next,
    extract_next_section (render_pages twice_marked) 1 5 20 = (Some s, next)
    /\ fst (save_section_immediately s "output" "book")
       = {| path_dir := "output";
            path_name := "book" ++ "_section_" ++ section_id s ++ ".md" |}.
Proof.
  eexists _, _. split; [vm_compute; reflexivity|].
  eapply (proj2 (proj2 section_file_name) (render_pages twice_marked) 1 5 20
            _ _ "output" "book").
  vm_compute. reflexivity.
Defined.

(** *** The sections of a run, for any renderer *)

Lemma apart_snoc from ms mid m next :
  apart from ms mid ->
  sum_start_page m = mid -> mid <= sum_end_page m -> sum_end_page m < next ->
  apart from (ms ++ [m]) next.
Proof.
  revert from. induction ms as [|m0 ms IH]; cbn; intros from H Hs He Hn.
  - subst. eauto.
  - destruct H as (H1 & H2 & next0 & H3 & H4). eauto 6.
Qed.

Lemma apart_head from ms cursor a :
  apart from ms cursor -> nth_error ms 0 = Some a -> sum_start_page a = from.
Proof. destruct ms; cbn; [discriminate|]. intros (H & _) [= <-]. exact H. Qed.

Lemma apart_nth from ms cursor :
  apart from ms cursor ->
  forall i a b,
    nth_error ms i = Some a -> nth_error ms (S i) = Some b ->
    sum_start_page a <= sum_end_page a < sum_start_page b.
Proof.
  revert from. induction ms as [|m0 ms IH]; intros from H i a b Ha Hb.
  - destruct i; discriminate.
  - destruct H as (H1 & H2 & next & H3 & H4). destruct i as [|i]; cbn in Ha.
    + injection Ha as <-. cbn in Hb.
      rewrite (apart_head _ _ _ _ H4 Hb). lia.
    + eapply IH; eauto.
Qed.

Lemma apart_In from ms cursor :
  apart from ms cursor ->
  forall a, In a ms -> sum_start_page a <= sum_end_page a.
Proof.
  revert from. induction ms as [|m0 ms IH]; intros from H a Ha.
  - destruct Ha.
  - destruct H as (H1 & H2 & next & H3 & H4). destruct Ha as [<- | Ha].
    + lia.
    + eapply IH; eauto.
Qed.

Lemma scan_loop_apart to_markdown total output_dir pdf_name fuel st st' from :
  apart from (st_sections st) (st_current_page st)
  /\ Forall (fun m => sum_start_page m <= total) (st_sections st) ->
  scan_loop fuel to_markdown total output_dir pdf_name st = Some st' ->
  apart from (st_sections st') (st_current_page st')
  /\ Forall (fun m => sum_start_page m <= total) (st_sections st').
Proof.
  apply (ScanFacts.scan_loop_rule
           (fun st => apart from (st_sections st) (st_current_page st)
                      /\ Forall (fun m => sum_start_page m <= total)
                           (st_sections st))
           (fun st => apart from (st_sections st) (st_current_page st)
                      /\ Forall (fun m => sum_start_page m <= total)
                           (st_sections st))).
  - intros s0 d0 H0. exact H0.
  - intros s0 e0 H0. exact H0.
  - auto.
  - intros s section next [HP HF] Hcur Hx st1.
    assert (HP1 : apart from (st_sections st1) (st_current_page st1)
                  /\ Forall (fun m => sum_start_page m <= total)
                       (st_sections st1)); [|auto].
    destruct (ScanFacts.extract_next_section_some _ _ _ _ _ _ Hx)
      as (_ & Hstart & Hle & Hlt & _).
    destruct (ScanFacts.record_section_fields s section next output_dir
                pdf_name) as (Hs & _ & Hp & _).
    fold st1 in Hs, Hp. rewrite Hs, Hp. split.
    + apply (apart_snoc from (st_sections s) (st_current_page s)); auto.
    + apply Forall_app. split; [exact HF|].
      constructor; [|constructor]. cbn [summarize sum_start_page]. lia.
Qed.

(** X14.  Whatever the renderer does, the sections listed by a run are in
    order and apart: the first starts on the start page of the run, every
    section starts on a page of the document and does not end before it
    starts, and each later section starts beyond the end of the section
    before it. *)
Theorem listed_sections_are_ordered :
  forall fuel doc d start output_dir s written,
    extract_all_sections fuel doc d start output_dir
    = Some (Success s written) ->
    (forall a, nth_error (sections s) 0 = Some a -> sum_start_page a = start)
    /\ (forall a,
           In a (sections s) ->
           sum_start_page a <= page_count doc
           /\ sum_start_page a <= sum_end_page a)
    /\ (forall i a b,
           nth_error (sections s) i = Some a ->
           nth_error (sections s) (S i) = Some b ->
           sum_start_page a <= sum_end_page a < sum_start_page b).
Proof.
  intros fuel doc d start output_dir s written.
  unfold extract_all_sections.
  destruct (negb (pdf_exists doc)); [discriminate|].
  destruct (page_count doc =? 0); [discriminate|].
  destruct (scan_loop fuel _ _ _ _ _) as [st'|] eqn:Hloop; [|discriminate].
  apply (scan_loop_apart _ _ _ _ _ _ _ start) in Hloop;
    [|split; [reflexivity | constructor]].
  destruct Hloop as [Hap HF].
  intros [= Hfin]. apply ScanFacts.finish_success in Hfin as (-> & _).
  cbn [sections].
  split; [intros a; apply (apart_head _ _ _ _ Hap)|].
  split; [|apply (apart_nth _ _ _ Hap)].
  intros a Ha. split.
  - now apply (proj1 (Forall_forall _ _) HF).
  - now apply (apart_In _ _ _ Hap).
Qed.

Lemma listed_sections_are_ordered_witness :
  exists s written,
    extract_all_sections enough_fuel
      (scan_pdf 10 (failing_from 7 (render_pages (headed_on [1; 4; 7]))))
      fresh_disk 1 "output"
    = Some (Success s written)
    /\ (forall a, nth_error (sections s) 0 = Some a -> sum_start_page a = 1)
    /\ (forall a,
           In a (sections s) ->
           sum_start_page a
           <= page_count
                (scan_pdf 10
                   (failing_from 7 (render_pages (headed_on [1; 4; 7]))))
           /\ sum_start_page a <= sum_end_page a)
    /\ (forall i a b,
           nth_error (sections s) i = Some a ->
           nth_error (sections s) (S i) = Some b ->
           sum_start_page a <= sum_end_page a < sum_start_page b).
Proof.
  eexists _, _. split; [vm_compute; reflexivity|].
  eapply (listed_sections_are_ordered enough_fuel
            (scan_pdf 10 (failing_from 7 (render_pages (headed_on [1; 4; 7]))))
            fresh_disk 1 "output").
  vm_compute. reflexivity.
Defined.

(** *** Files of a run *)

Lemma scan_loop_files to_markdown total output_dir pdf_name fuel st st' :
  st_created_files st = map sum_file_path (st_sections st)
  /\ map fst (st_written st) = st_created_files st ->
  scan_loop fuel to_markdown total output_dir pdf_name st = Some st' ->
  st_created_files st' = map sum_file_path (st_sections st')
  /\ map fst (st_written st') = st_created_files st'.
Proof.
  apply (ScanFacts.scan_loop_rule
           (fun st => st_created_files st = map sum_file_path (st_sections st)
                      /\ map fst (st_written st) = st_created_files st)
           (fun st => st_created_files st = map sum_file_path (st_sections st)
                      /\ map fst (st_written st) = st_created_files st)).
  - intros s0 d0 H0. exact H0.
  - intros s0 e0 H0. exact H0.
  - auto.
  - intros s section next [HF HW] _ _ st1.
    assert (HP1 : st_created_files st1 = map sum_file_path (st_sections st1)
                  /\ map fst (st_written st1) = st_created_files st1);
      [|auto].
    subst st1. unfold record_section. cbn.
    rewrite !map_app, HF, HW, HF. cbn. auto.
Qed.

(** X15.  The list of created files that a run returns holds the files of the
    listed sections, in order, followed by the summary file, which is
    appended to the shared list after the summary was dumped; one section
    file is written per listed section, under the listed path. *)
Theorem created_files_listed :
  forall fuel doc d start output_dir s written,
    extract_all_sections fuel doc d start output_dir
    = Some (Success s written) ->
    files_created s
    = (map sum_file_path (sections s)
       ++ [summary_file output_dir (pdf_name doc)])%list
    /\ map fst written = map sum_file_path (sections s).
Proof.
  intros fuel doc d start output_dir s written.
  unfold extract_all_sections.
  destruct (negb (pdf_exists doc)); [discriminate|].
  destruct (page_count doc =? 0); [discriminate|].
  destruct (scan_loop fuel _ _ _ _ _) as [st'|] eqn:Hloop; [|discriminate].
  apply scan_loop_files in Hloop; [|split; reflexivity].
  destruct Hloop as [HF HW].
  intros [= Hfin]. apply ScanFacts.finish_success in Hfin as (-> & -> & _).
  cbn [files_created sections].
  rewrite HW, HF. auto.
Qed.

Lemma created_files_listed_witness :
  exists s written,
    extract_all_sections enough_fuel
      (scan_pdf 5 (render_pages twice_marked)) fresh_disk 1 "output"
    = Some (Success s written)
    /\ files_created s
       = (map sum_file_path (sections s)
          ++ [summary_file "output"
                (pdf_name (scan_pdf 5 (render_pages twice_marked)))])%list
    /\ map fst written = map sum_file_path (sections s).
Proof.
  eexists _, _. split; [vm_compute; reflexivity|].
  eapply (created_files_listed enough_fuel
            (scan_pdf 5 (render_pages twice_marked)) fresh_disk 1 "output").
  vm_compute. reflexivity.
Defined.

(** *** A complete run on a well-behaved renderer *)

Lemma consecutive_bounds from ms stop : consecutive from ms stop -> from <= stop.
Proof.
  revert from. induction ms as [|m ms IH]; cbn; intros from H; [lia|].
  destruct H as (_ & Hle & Ht). apply IH in Ht. lia.
Qed.

Lemma consecutive_cover from ms stop :
  consecutive from ms stop ->
  forall q,
    (exists m, In m ms /\ sum_start_page m <= q <= sum_end_page m)
    <-> from <= q < stop.
Proof.
  revert from. induction ms as [|m0 ms IH]; cbn; intros from H q.
  - split; [intros (m & [] & _) | lia].
  - destruct H as (Hs & Hle & Ht).
    pose proof (consecutive_bounds _ _ _ Ht) as Hb.
    specialize (IH _ Ht q). split.
    + intros (m & [<- | Hin] & Hq); [lia|].
      assert (sum_end_page m0 + 1 <= q < stop) by (apply IH; eauto). lia.
    + intros Hq. destruct (Z_le_gt_dec q (sum_end_page m0)) as [Hq'|Hq'].
      * exists m0. split; [auto | lia].
      * destruct (proj2 IH) as (m & Hin & Hm); [lia|]. eauto.
Qed.

Lemma scan_loop_rendered_end text_of total output_dir pdf_name :
  forall fuel st st',
    st_current_page st <= total + 1 ->
    scan_loop fuel (render_pages text_of) total output_dir pdf_name st
    = Some st' ->
    st_raised st' = None ->
    st_section_count st' <= 100 -> st_current_page st' = total + 1.
Proof.
  induction fuel as [|fuel IH]; intros st st' Hcur; cbn [scan_loop];
    [discriminate|].
  destruct (st_current_page st <=? total) eqn:Hle.
  - apply Z.leb_le in Hle.
    destruct (ScanFacts.extract_next_section_rendered text_of
                (st_current_page st) total 20 Hle ltac:(lia))
      as (s & Hx & _ & _ & _ & _).
    rewrite Hx.
    assert (Hnext : match visible_boundary text_of (st_current_page st)
                            total 20 with
                    | Some p => p
                    | None => total + 1
                    end <= total + 1).
    { destruct (visible_boundary _ _ _ _) as [p|] eqn:Hv; [|lia].
      apply ScanFacts.visible_boundary_some in Hv. lia. }
    destruct (try_save_section _ _ _ _) as [e|d];
      [intros [= <-]; discriminate|].
    cbv zeta. destruct (100 <? _) eqn:Hc.
    + apply Z.ltb_lt in Hc. intros [= <-] _ Hcount. lia.
    + apply IH. rewrite ScanFacts.record_section_page. exact Hnext.
  - apply Z.leb_gt in Hle. intros [= <-] _ _. lia.
Qed.

(** X16.  On a renderer that returns every requested page, a run that starts
    on a page of the document and lists at most 100 sections covers the
    document from its start page to its last page: the sections follow
    one another without gap or overlap from the start page through the
    last page, so that every page in between belongs to a section and no
    page outside does. *)
Theorem complete_run_covers_document :
  forall fuel text_of total name d start output_dir s written,
    start <= total ->
    extract_all_sections fuel
      {| pdf_exists := true; pdf_name := name; page_count := total;
         to_markdown := render_pages text_of |} d start output_dir
    = Some (Success s written) ->
    sections_found s <= 100 ->
    consecutive start (sections s) (total + 1)
    /\ forall q,
         (exists m,
             In m (sections s) /\ sum_start_page m <= q <= sum_end_page m)
         <-> start <= q <= total.
Proof.
  intros fuel text_of total name d start output_dir s written Hstart.
  unfold extract_all_sections.
  cbn [negb pdf_exists page_count to_markdown pdf_name].
  destruct (total =? 0); [discriminate|].
  destruct (scan_loop fuel _ _ _ _ _) as [st'|] eqn:Hloop; [|discriminate].
  assert (Hcons : consecutive start (st_sections st') (st_current_page st'))
    by (apply (ScanFacts.scan_loop_consecutive text_of total output_dir name
                 fuel (initial_state d start) st' start);
        [reflexivity | exact Hloop]).
  assert (Hcount : st_section_count st'
                   = Z.of_nat (List.length (st_sections st')))
    by (apply (ScanFacts.scan_loop_count (render_pages text_of) total
                 output_dir name fuel (initial_state d start) st');
        [reflexivity | cbn [initial_state st_section_count]; lia
        | exact Hloop]).
  assert (Hend : st_raised st' = None -> st_section_count st' <= 100 ->
                 st_current_page st' = total + 1)
    by (apply (scan_loop_rendered_end text_of total output_dir name fuel
                 (initial_state d start) st');
        [cbn [initial_state st_current_page]; lia | exact Hloop]).
  intros [= Hfin].
  apply ScanFacts.finish_success in Hfin as (-> & _ & Hraised & _).
  cbn [sections sections_found].
  intros Hfound. rewrite Hend in Hcons by (auto; lia).
  split; [exact Hcons|].
  intros q. rewrite (consecutive_cover _ _ _ Hcons q). lia.
Qed.

Lemma complete_run_covers_document_witness :
  exists s written,
    extract_all_sections enough_fuel
      (scan_pdf 5 (render_pages twice_marked)) fresh_disk 1 "output"
    = Some (Success s written)
    /\ consecutive 1 (sections s) (5 + 1)
    /\ forall q,
         (exists m,
             In m (sections s) /\ sum_start_page m <= q <= sum_end_page m)
         <-> 1 <= q <= 5.
Proof.
  eexists _, _. split; [vm_compute; reflexivity|].
  refine (complete_run_covers_document enough_fuel twice_marked 5 "book"
            fresh_disk 1 "output" _ _ _ _ _).
  - lia.
  - vm_compute. reflexivity.
  - vm_compute. discriminate.
Defined.

(** *** A failure while extending the search *)

(** X17.  When the first batch shows no boundary and stops before the last
    page, and the renderer raises for the pages of the extension, the
    error is swallowed: the section is returned all the same, it absorbs
    all pages through the last page, and the next start lies beyond the
    last page, whatever markers the pages of the extension carry. *)
Theorem failed_extension_absorbs_rest :
  forall to_markdown start total la first later final,
    start <= total ->
    let batch := Z.min la (total - start + 1) in
    to_markdown (range start (start + batch)) = Some (first :: later) ->
    Z.of_nat (List.length (first :: later)) = batch ->
    find_next_header 1 later = None ->
    start + batch - 1 < total ->
    to_markdown
      (range (start + batch) (Z.min (total + 1) (start + batch + 20)))
    = None ->
    to_markdown (range start (total + 1)) = Some final ->
    exists s,
      extract_next_section to_markdown start total la = (Some s, total + 1)
      /\ end_page s = total
      /\ content s = combine_pages final.
Proof.
  intros to_markdown start total la first later final Hstart batch
    Hinit Hlen Hnone Hshort Hext Hfin.
  unfold extract_next_section.
  destruct (total <? start) eqn:Hlt; [apply Z.ltb_lt in Hlt; lia|].
  fold batch. rewrite Hinit.
  destruct (name_section _ start) as [title id].
  rewrite Hnone, Hlen.
  unfold extend_search. rewrite Z.eqb_refl.
  destruct (start + batch - 1 <? total) eqn:Hs;
    [|apply Z.ltb_ge in Hs; lia].
  cbn [andb].
  replace (start + batch - 1 + 1) with (start + batch) by lia.
  replace (start + batch - 1 + 21) with (start + batch + 20) by lia.
  rewrite Hext.
  destruct (range (start + batch) _) as [|p ps]; rewrite Hfin;
    eexists; (split; [reflexivity|]); split; reflexivity.
Qed.

Lemma failed_extension_absorbs_rest_witness :
  exists s,
    extract_next_section
      (failing_from 21 (render_pages (headed_on [1; 30]))) 1 100 20
    = (Some s, 100 + 1)
    /\ end_page s = 100
    /\ content s
       = combine_pages
           (map (chunk_of (headed_on [1; 30])) (range 1 (100 + 1))).
Proof.
  refine (failed_extension_absorbs_rest
            (failing_from 21 (render_pages (headed_on [1; 30]))) 1 100 20
            (chunk_of (headed_on [1; 30]) 1)
            (map (chunk_of (headed_on [1; 30])) (range 2 21))
            (map (chunk_of (headed_on [1; 30])) (range 1 101))
            _ _ _ _ _ _ _).
  - lia.
  - reflexivity.
  - reflexivity.
  - reflexivity.
  - reflexivity.
  - reflexivity.
  - reflexivity.
Defined.

(** *** Word counts *)

Lemma join_cons (sep a b : string) (l : list string) :
  join sep (a :: b :: l) = a ++ sep ++ join sep (b :: l).
Proof. reflexivity. Qed.

Lemma blank_line_append (x : string) :
  (nl ++ nl) ++ x = String nl_char (String nl_char x).
Proof. reflexivity. Qed.

Lemma split_join_blank (l : list string) :
  split (join (nl ++ nl) l) = List.concat (map split l).
Proof.
  induction l as [|a l IH]; [reflexivity|].
  destruct l as [|b l].
  - cbn [join map List.concat]. now rewrite app_nil_r.
  - rewrite join_cons, blank_line_append.
    change (map split (a :: b :: l)) with (split a :: map split (b :: l)).
    cbn [List.concat]. rewrite <- IH. unfold split.
    rewrite PyStrFacts.split_from_space by reflexivity.
    reflexivity.
Qed.

Lemma count_words_concat (l : list string) :
  Z.of_nat (List.length (List.concat (map split l)))
  = sum_Z (map count_words l).
Proof.
  induction l as [|t l IH]; cbn [map List.concat sum_Z fold_right];
    [reflexivity|].
  rewrite length_app, Nat2Z.inj_add, IH. reflexivity.
Qed.

Lemma count_words_drop_empty (l : list string) :
  sum_Z (map count_words (drop_empty l)) = sum_Z (map count_words l).
Proof.
  induction l as [|t l IH]; [reflexivity|]. cbn [drop_empty].
  destruct (truthy t) eqn:Ht; [reflexivity|].
  apply PyStrFacts.truthy_false in Ht. subst t. rewrite IH. reflexivity.
Qed.

(** X18.  The word count of a scanned section is the sum of the word counts of
    the pages of its final rendering: the blank lines between the pages
    add no word and join none. *)
Theorem scan_word_count_is_page_sum :
  forall to_markdown start total la s next,
    extract_next_section to_markdown start total la = (Some s, next) ->
    exists final_result,
      to_markdown (range start (end_page s + 1)) = Some final_result
      /\ word_count s
         = sum_Z (map (fun pd => count_words (get_text pd)) final_result).
Proof.
  intros to_markdown start total la s next H.
  destruct (ScanFacts.extract_next_section_some _ _ _ _ _ _ H)
    as (_ & _ & _ & _ & _ & _ & Hwords & final & Hfin & Hcontent).
  exists final. split; [exact Hfin|].
  rewrite Hwords, Hcontent, ScanFacts.combine_pages_join.
  unfold count_words at 1.
  now rewrite split_join_blank, count_words_concat, count_words_drop_empty,
    map_map.
Qed.

Lemma scan_word_count_is_page_sum_witness :
  exists s next final_result,
    extract_next_section (render_pages twice_marked) 1 5 20 = (Some s, next)
    /\ render_pages twice_marked (range 1 (end_page s + 1))
       = Some final_result
    /\ word_count s
       = sum_Z (map (fun pd => count_words (get_text pd)) final_result).
Proof.
  eexists _, _.
  assert (H : extract_next_section (render_pages twice_marked) 1 5 20
              = (Some _, _)) by (vm_compute; reflexivity).
  destruct (scan_word_count_is_page_sum _ _ _ _ _ _ H) as (final & Hf).
  exists final. split; [exact H | exact Hf].
Defined.

(** *** A run that starts beyond the last page *)

(** X19.  For a readable document, a run whose start page lies beyond the last
    page never enters its loop: it saves no section, and its outcome is
    the same for every renderer.  When the summary file can be written the
    run reports success with no section, the summary file being the only
    file it lists; when it cannot, as when the output directory does not
    exist, which only the saving of a section creates, the run returns the
    failure result with zero sections processed. *)
Theorem run_beyond_last_page_is_empty :
  forall fuel doc d start output_dir,
    pdf_exists doc = true ->
    page_count doc <> 0 ->
    page_count doc < start ->
    extract_all_sections (S fuel) doc d start output_dir
    = Some
        match open_for_writing d (summary_file output_dir (pdf_name doc)) with
        | None =>
            Success
              {| pdf_file := pdf_name doc;
                 total_pages := page_count doc;
                 summary_start_page := start;
                 sections_found := 0;
                 sections := [];
                 files_created := [summary_file output_dir (pdf_name doc)] |}
              []
        | Some e => Aborted (pdf_name doc) e 0 []
        end
    /\ (dir_exists d = false ->
        open_for_writing d (summary_file output_dir (pdf_name doc))
        = Some (MissingDirectory (summary_file output_dir (pdf_name doc))))
    /\ (forall other_renderer,
           extract_all_sections (S fuel)
             {| pdf_exists := pdf_exists doc; pdf_name := pdf_name doc;
                page_count := page_count doc;
                to_markdown := other_renderer |} d start output_dir
           = extract_all_sections (S fuel) doc d start output_dir).
Proof.
  intros fuel doc d start output_dir Hex Hpages Hstart.
  split; [|split].
  - unfold extract_all_sections. rewrite Hex. cbn [negb].
    destruct (page_count doc =? 0) eqn:Hz; [apply Z.eqb_eq in Hz; lia|].
    cbn [scan_loop initial_state st_current_page].
    destruct (start <=? page_count doc) eqn:Hle;
      [apply Z.leb_le in Hle; lia|].
    unfold finish, abort, summary_file.
    cbn [st_raised st_disk st_sections st_written st_created_files
         List.length app].
    destruct (open_for_writing _ _); reflexivity.
  - intros Hd. unfold open_for_writing. now rewrite Hd.
  - intros other_renderer. unfold extract_all_sections.
    cbn [pdf_exists pdf_name page_count to_markdown].
    destruct (negb (pdf_exists doc)); [reflexivity|].
    destruct (page_count doc =? 0); [reflexivity|].
    cbn [scan_loop initial_state st_current_page].
    destruct (start <=? page_count doc) eqn:Hle;
      [apply Z.leb_le in Hle; lia | reflexivity].
Qed.

Lemma run_beyond_last_page_is_empty_witness :
  extract_all_sections 1 (scan_pdf 5 (render_pages twice_marked))
    (with_directory fresh_disk) 6 "output"
  = Some
      (Success
         {| pdf_file := "book";
            total_pages := 5;
            summary_start_page := 6;
            sections_found := 0;
            sections := [];
            files_created := [summary_file "output" "book"] |}
         [])
  /\ extract_all_sections 1 (scan_pdf 5 (render_pages twice_marked))
       fresh_disk 6 "output"
     = Some
         (Aborted "book" (MissingDirectory (summary_file "output" "book")) 0
            []).
Proof.
  split.
  - apply (proj1 (run_beyond_last_page_is_empty 0
                    (scan_pdf 5 (render_pages twice_marked))
                    (with_directory fresh_disk) 6 "output"
                    eq_refl ltac:(cbn; lia) ltac:(cbn; lia))).
  - apply (proj1 (run_beyond_last_page_is_empty 0
                    (scan_pdf 5 (render_pages twice_marked))
                    fresh_disk 6 "output"
                    eq_refl ltac:(cbn; lia) ltac:(cbn; lia))).
Defined.

End ScanMore.

(** ** Runs and failures of the renderer *)

Module RunFacts.

Import PyStr Scan.



End RunFacts.
